(** * Loan sales assistant: API server and CLI prototype

    A shallow embedding of the session store ([app/core/session.py]), the
    knowledge-base query ([app/core/rag.py]), the conversational agent
    ([app/core/agent.py]), the session endpoints of [app/main.py] and the
    tools and router of the command-line prototype, with the properties of
    the specification proved or refuted over them.

    Conventions.  Python [str] is [string]; a character is a code point
    below 256.  Python [int] is [Z].  A [float] that the program obtains by
    rounding to two decimals is the rational it denotes.  [None] is [None].
    The clock, the random generator, the hosted language model and the
    vector index are outside the program: each function takes what they
    answer as an argument. *)

From Stdlib Require Import ZArith QArith Ascii String List Lia DecimalString
  DecimalFacts DecimalNat.
From stdpp Require Import gmap strings list.

Local Open Scope string_scope.
Local Open Scope list_scope.
Local Open Scope Z_scope.

(** ** Python strings *)

Module PyStr.

Definition code (c : ascii) : N := N_of_ascii c.

(** [str.isspace], also the class [\s] of [re] on [str] patterns. *)
Definition isspace (c : ascii) : bool :=
  let n := code c in
  (((9 <=? n) && (n <=? 13)) || ((28 <=? n) && (n <=? 32))
   || (n =? 133) || (n =? 160))%N.

(** The class [\d] of [re]: below 256 only the ASCII digits. *)
Definition isdigit (c : ascii) : bool :=
  let n := code c in ((48 <=? n) && (n <=? 57))%N.

Definition lower_char (c : ascii) : ascii :=
  let n := code c in
  if (((65 <=? n) && (n <=? 90))
      || ((192 <=? n) && (n <=? 222) && negb (n =? 215)))%N
  then ascii_of_N (n + 32) else c.

Definition upper_char (c : ascii) : ascii :=
  let n := code c in
  if ((97 <=? n) && (n <=? 122))%N then ascii_of_N (n - 32) else c.

Fixpoint map_chars (f : ascii -> ascii) (s : string) : string :=
  match s with
  | EmptyString => EmptyString
  | String c r => String (f c) (map_chars f r)
  end.

(** [s.lower()] *)
Definition lower (s : string) : string := map_chars lower_char s.

(** [s.capitalize()], on the ASCII words it is applied to. *)
Definition capitalize (s : string) : string :=
  match s with
  | EmptyString => EmptyString
  | String c r => String (upper_char c) (lower r)
  end.

(** [s.replace(a, b)] for one-character [a] and [b]. *)
Definition replace_char (a b : ascii) (s : string) : string :=
  map_chars (fun c => if Ascii.eqb c a then b else c) s.

Definition is_empty (s : string) : bool :=
  match s with EmptyString => true | String _ _ => false end.

(** [s.split()]: the maximal runs of characters that are not white space,
    in order.  [cur] is the run being read. *)
Fixpoint split_from (cur s : string) : list string :=
  match s with
  | EmptyString => if is_empty cur then [] else [cur]
  | String c r =>
      if isspace c
      then (if is_empty cur then split_from "" r else cur :: split_from "" r)
      else split_from (cur ++ String c "")%string r
  end.

Definition split (s : string) : list string := split_from "" s.

(** [sep.join(l)] *)
Fixpoint join (sep : string) (l : list string) : string :=
  match l with
  | [] => ""
  | [w] => w
  | w :: ws => (w ++ sep ++ join sep ws)%string
  end.

(** [needle in hay] for strings. *)
Fixpoint contains (needle hay : string) : bool :=
  String.prefix needle hay
  || match hay with
     | EmptyString => false
     | String _ r => contains needle r
     end.

(** [w in l] and [l.index(w)] for a list of strings. *)
Fixpoint index_of (w : string) (l : list string) : option nat :=
  match l with
  | [] => None
  | x :: r => if String.eqb x w then Some O
              else option_map S (index_of w r)
  end.

Definition mem (w : string) (l : list string) : bool :=
  match index_of w l with Some _ => true | None => false end.

(** [l[i:j]] for [0 <= i <= j]. *)
Definition slice {A} (i j : nat) (l : list A) : list A :=
  firstn (j - i) (skipn i l).

Fixpoint in_chars (c : ascii) (chars : string) : bool :=
  match chars with
  | EmptyString => false
  | String d r => Ascii.eqb c d || in_chars c r
  end.

Fixpoint lstrip (chars s : string) : string :=
  match s with
  | EmptyString => EmptyString
  | String c r => if in_chars c chars then lstrip chars r else s
  end.

Fixpoint rstrip (chars s : string) : string :=
  match s with
  | EmptyString => EmptyString
  | String c r =>
      let r' := rstrip chars r in
      if is_empty r' && in_chars c chars then EmptyString else String c r'
  end.

(** [s.strip(chars)]: characters of [chars] are removed from both ends. *)
Definition strip (chars s : string) : string := rstrip chars (lstrip chars s).

(** [int(s)] for a string of ASCII digits, up to the 4300 digits that
    CPython converts by default; on a longer string [int] raises
    [ValueError], which is not modelled here (see [int_in_limit]). *)
Fixpoint int_from (acc : Z) (s : string) : Z :=
  match s with
  | EmptyString => acc
  | String c r => int_from (10 * acc + (Z.of_N (code c) - 48)) r
  end.

Definition int (s : string) : Z := int_from 0 s.

(** [str(n)] for an integer. *)
Definition str_of_Z (n : Z) : string := NilZero.string_of_int (Z.to_int n).

Definition str_of_nat (n : nat) : string :=
  NilZero.string_of_uint (Nat.to_uint n).

(** Truth value of an optional string and of an optional integer. *)
Definition truthy_str (o : option string) : bool :=
  match o with Some s => negb (is_empty s) | None => false end.

Definition truthy_int (o : option Z) : bool :=
  match o with Some n => negb (n =? 0) | None => false end.

End PyStr.

(** ** Exceptions and results *)

Inductive PyExn : Type :=
| ValueError (msg : string)
| RuntimeError (msg : string)
| TypeError
| AttributeError
| IndexError
| KeyError (key : string)
| SyntaxError (msg : string)
| LibraryError (msg : string).

Inductive PyResult (A : Type) : Type :=
| Ok (a : A)
| Raise (e : PyExn).

Arguments Ok {A} a.
Arguments Raise {A} e.

Definition is_ok {A} (r : PyResult A) : bool :=
  match r with Ok _ => true | Raise _ => false end.

(** ** [app/config.py] *)

Record Settings : Type := mkSettings {
  GROQ_TIMEOUT : Z;
  MAX_MESSAGE_HISTORY : Z;
  RAG_TOP_K : Z;
  MIN_CREDIT_SCORE : Z;
  MAX_PERSONAL_LOAN : Z
}.

(** The defaults of the class [Settings]; the environment may override them. *)
Definition default_settings : Settings :=
  {| GROQ_TIMEOUT := 30;
     MAX_MESSAGE_HISTORY := 50;
     RAG_TOP_K := 3;
     MIN_CREDIT_SCORE := 650;
     MAX_PERSONAL_LOAN := 500000 |}.

(** ** [app/models.py]: the enumerations, and the loan application as
    [create_session] lays it out *)

Inductive LoanStatus : Type :=
| initiated | kyc_pending | credit_check_pending | offer_made
| sanctioned | rejected | completed.

Inductive CreditEligibility : Type := eligible | not_eligible | pending.

(** Position of a status in the declaration of [LoanStatus]. *)
Definition status_rank (s : LoanStatus) : nat :=
  match s with
  | initiated => 0 | kyc_pending => 1 | credit_check_pending => 2
  | offer_made => 3 | sanctioned => 4 | rejected => 5 | completed => 6
  end%nat.

Definition status_eqb (a b : LoanStatus) : bool :=
  Nat.eqb (status_rank a) (status_rank b).

Definition eligibility_eqb (a b : CreditEligibility) : bool :=
  match a, b with
  | eligible, eligible | not_eligible, not_eligible | pending, pending => true
  | _, _ => false
  end.

Record LoanApplication : Type := mkLoanApplication {
  applicant_name : option string;
  desired_amount : option Z;
  loan_term_months : option Z;
  purpose : option string;
  kyc_verified : bool;
  credit_score : option Z;
  credit_eligibility : CreditEligibility;
  offered_amount : option Z;
  offered_interest_rate : option Q;
  sanction_letter_generated : bool;
  sanction_letter_url : option string;
  status : LoanStatus
}.

(** Assignments [loan_app["field"] = v]. *)
Definition set_applicant_name v (a : LoanApplication) :=
  mkLoanApplication v (desired_amount a) (loan_term_months a) (purpose a)
    (kyc_verified a) (credit_score a) (credit_eligibility a) (offered_amount a)
    (offered_interest_rate a) (sanction_letter_generated a)
    (sanction_letter_url a) (status a).
Definition set_desired_amount v (a : LoanApplication) :=
  mkLoanApplication (applicant_name a) v (loan_term_months a) (purpose a)
    (kyc_verified a) (credit_score a) (credit_eligibility a) (offered_amount a)
    (offered_interest_rate a) (sanction_letter_generated a)
    (sanction_letter_url a) (status a).
Definition set_loan_term_months v (a : LoanApplication) :=
  mkLoanApplication (applicant_name a) (desired_amount a) v (purpose a)
    (kyc_verified a) (credit_score a) (credit_eligibility a) (offered_amount a)
    (offered_interest_rate a) (sanction_letter_generated a)
    (sanction_letter_url a) (status a).
Definition set_purpose v (a : LoanApplication) :=
  mkLoanApplication (applicant_name a) (desired_amount a) (loan_term_months a) v
    (kyc_verified a) (credit_score a) (credit_eligibility a) (offered_amount a)
    (offered_interest_rate a) (sanction_letter_generated a)
    (sanction_letter_url a) (status a).
Definition set_kyc_verified v (a : LoanApplication) :=
  mkLoanApplication (applicant_name a) (desired_amount a) (loan_term_months a)
    (purpose a) v (credit_score a) (credit_eligibility a) (offered_amount a)
    (offered_interest_rate a) (sanction_letter_generated a)
    (sanction_letter_url a) (status a).
Definition set_credit_score v (a : LoanApplication) :=
  mkLoanApplication (applicant_name a) (desired_amount a) (loan_term_months a)
    (purpose a) (kyc_verified a) v (credit_eligibility a) (offered_amount a)
    (offered_interest_rate a) (sanction_letter_generated a)
    (sanction_letter_url a) (status a).
Definition set_credit_eligibility v (a : LoanApplication) :=
  mkLoanApplication (applicant_name a) (desired_amount a) (loan_term_months a)
    (purpose a) (kyc_verified a) (credit_score a) v (offered_amount a)
    (offered_interest_rate a) (sanction_letter_generated a)
    (sanction_letter_url a) (status a).
Definition set_offered_amount v (a : LoanApplication) :=
  mkLoanApplication (applicant_name a) (desired_amount a) (loan_term_months a)
    (purpose a) (kyc_verified a) (credit_score a) (credit_eligibility a) v
    (offered_interest_rate a) (sanction_letter_generated a)
    (sanction_letter_url a) (status a).
Definition set_offered_interest_rate v (a : LoanApplication) :=
  mkLoanApplication (applicant_name a) (desired_amount a) (loan_term_months a)
    (purpose a) (kyc_verified a) (credit_score a) (credit_eligibility a)
    (offered_amount a) v (sanction_letter_generated a)
    (sanction_letter_url a) (status a).
Definition set_sanction_letter_generated v (a : LoanApplication) :=
  mkLoanApplication (applicant_name a) (desired_amount a) (loan_term_months a)
    (purpose a) (kyc_verified a) (credit_score a) (credit_eligibility a)
    (offered_amount a) (offered_interest_rate a) v
    (sanction_letter_url a) (status a).
Definition set_sanction_letter_url v (a : LoanApplication) :=
  mkLoanApplication (applicant_name a) (desired_amount a) (loan_term_months a)
    (purpose a) (kyc_verified a) (credit_score a) (credit_eligibility a)
    (offered_amount a) (offered_interest_rate a) (sanction_letter_generated a)
    v (status a).
Definition set_status v (a : LoanApplication) :=
  mkLoanApplication (applicant_name a) (desired_amount a) (loan_term_months a)
    (purpose a) (kyc_verified a) (credit_score a) (credit_eligibility a)
    (offered_amount a) (offered_interest_rate a) (sanction_letter_generated a)
    (sanction_letter_url a) v.

(** The [loan_application] entry written by [create_session]. *)
Definition fresh_application : LoanApplication :=
  {| applicant_name := None; desired_amount := None;
     loan_term_months := None; purpose := None; kyc_verified := false;
     credit_score := None; credit_eligibility := pending;
     offered_amount := None; offered_interest_rate := None;
     sanction_letter_generated := false; sanction_letter_url := None;
     status := initiated |}.

(** ** [app/core/session.py] *)

Record Message : Type := mkMessage {
  role : string;
  content : string;
  timestamp : Z
}.

Record Session : Type := mkSession {
  session_id : string;
  created_at : Z;
  messages : list Message;
  loan_application : LoanApplication;
  extracted_info : gmap string string
}.

Record SessionManager : Type := mkSessionManager {
  _sessions : gmap string Session;
  _session_timestamps : gmap string Z
}.

Module SessionStore.
Section WithSettings.
Variable settings : Settings.

(** [SessionManager()] *)
Definition init : SessionManager :=
  {| _sessions := ∅; _session_timestamps := ∅ |}.

Definition new_session (sid : string) (now : Z) : Session :=
  {| session_id := sid; created_at := now; messages := [];
     loan_application := fresh_application; extracted_info := ∅ |}.

Definition create_session (m : SessionManager) (sid : string) (now : Z)
  : SessionManager * Session :=
  let session_data := new_session sid now in
  ({| _sessions := <[sid := session_data]> (_sessions m);
      _session_timestamps := <[sid := now]> (_session_timestamps m) |},
   session_data).

Definition get_session (m : SessionManager) (sid : string) (now : Z)
  : SessionManager * option Session :=
  match _sessions m !! sid with
  | Some session =>
      ({| _sessions := _sessions m;
          _session_timestamps := <[sid := now]> (_session_timestamps m) |},
       Some session)
  | None => (m, None)
  end.

(** [update_session(session_id, {"loan_application": loan_app})], the one
    use the program makes of [update_session]. *)
Definition update_loan_application (m : SessionManager) (sid : string)
    (loan_app : LoanApplication) (now : Z) : SessionManager * bool :=
  match _sessions m !! sid with
  | None => (m, false)
  | Some s =>
      ({| _sessions :=
            <[sid := mkSession (session_id s) (created_at s) (messages s)
                       loan_app (extracted_info s)]> (_sessions m);
          _session_timestamps := <[sid := now]> (_session_timestamps m) |},
       true)
  end.

(** [del d[k]] raises [KeyError] when [k] is not a key of [d]. *)
Definition delete_session (m : SessionManager) (sid : string)
  : SessionManager * PyResult bool :=
  match _sessions m !! sid with
  | Some _ =>
      let sessions' := delete sid (_sessions m) in
      match _session_timestamps m !! sid with
      | Some _ =>
          ({| _sessions := sessions';
              _session_timestamps := delete sid (_session_timestamps m) |},
           Ok true)
      | None =>
          ({| _sessions := sessions';
              _session_timestamps := _session_timestamps m |},
           Raise (KeyError sid))
      end
  | None => (m, Ok false)
  end.

Definition get_active_sessions_count (m : SessionManager) : nat :=
  size (_sessions m).

(** [l[-k:]]: the last [k] elements for positive [k], the whole list for
    [k = 0], and [l[|k|:]] for negative [k]. *)
Definition slice_from_minus {A} (k : Z) (l : list A) : list A :=
  if 0 <? k then skipn (length l - Z.to_nat k) l
  else skipn (Z.to_nat (- k)) l.

Definition trim (l : list Message) : list Message :=
  if MAX_MESSAGE_HISTORY settings <? Z.of_nat (length l)
  then slice_from_minus (MAX_MESSAGE_HISTORY settings) l
  else l.

(** [now] is the reading of the clock that stamps the message. *)
Definition add_message (m : SessionManager) (sid : string)
    (role content : string) (now : Z) : SessionManager :=
  match _sessions m !! sid with
  | Some s =>
      let messages' := messages s ++ [mkMessage role content now] in
      {| _sessions :=
           <[sid := mkSession (session_id s) (created_at s) (trim messages')
                      (loan_application s) (extracted_info s)]> (_sessions m);
         _session_timestamps := _session_timestamps m |}
  | None => m
  end.

(** [add_message] for each of [(role, content, now)], in order. *)
Definition add_messages (m : SessionManager) (sid : string)
    (l : list (string * string * Z)) : SessionManager :=
  fold_left (fun m x => add_message m sid x.1.1 x.1.2 x.2) l m.

Definition history (m : SessionManager) (sid : string) : option (list Message) :=
  messages <$> (_sessions m !! sid).

End WithSettings.

(** [timedelta(hours=h)]: a time is a number of microseconds. *)
Definition hours (h : Z) : Z := 3600000000 * h.

(** [datetime.max], in microseconds from [datetime.min]: a [datetime]
    runs from the year 1 to the year 9999. *)
Definition datetime_max : Z := 315537897599999999.

(** The ids [expired] of [cleanup_expired_sessions]. *)
Definition expired_ids (m : SessionManager) (cutoff_time : Z) : list string :=
  (map_to_list (filter (fun p => p.2 < cutoff_time) (_session_timestamps m))).*1.

(** One round of the loop over [expired]; [del self._sessions[session_id]]
    raises [KeyError] for an id without a session and ends the loop. *)
Definition expire (acc : SessionManager * PyResult unit) (sid : string)
  : SessionManager * PyResult unit :=
  match acc with
  | (m, Ok _) =>
      match _sessions m !! sid with
      | Some _ =>
          ({| _sessions := delete sid (_sessions m);
              _session_timestamps := delete sid (_session_timestamps m) |},
           Ok tt)
      | None => (m, Raise (KeyError sid))
      end
  | (m, Raise e) => (m, Raise e)
  end.

(** [cleanup_expired_sessions(max_age_hours)] at the time [now], for
    arguments whose cutoff is a [datetime]: outside the years 1 to 9999
    [datetime.utcnow() - timedelta(hours=max_age_hours)] raises
    [OverflowError] before the store is read, which is not modelled here
    (see [cutoff_is_datetime]).  The loop visits the expired ids in the
    order of the dictionary, here in the order of the keys of the map; the
    order shows in the result only when the loop raises. *)
Definition cleanup_expired_sessions (m : SessionManager) (max_age_hours now : Z)
  : SessionManager * PyResult unit :=
  let cutoff_time := now - hours max_age_hours in
  fold_left expire (expired_ids m cutoff_time) (m, Ok tt).

End SessionStore.

(** ** [app/core/rag.py] *)

Module Rag.

(** What [collection.query] returns under the key ["documents"]. *)
Inductive DocumentsEntry : Type :=
| NoEntry
| NoneEntry
| ListEntry (batches : list (list string)).

Record QueryResults : Type := { documents_entry : DocumentsEntry }.

Record QueryAnswer : Type := { documents : list string; sources : list string }.

Inductive Handle : Type := handle.

Record RAGSystem : Type := mkRAGSystem {
  chroma_client : option Handle;
  collection : option Handle;
  embedder : option Handle;
  _initialized : bool
}.

(** [RAGSystem()] *)
Definition init : RAGSystem :=
  {| chroma_client := None; collection := None; embedder := None;
     _initialized := false |}.

(** How the libraries answer during [initialize]. *)
Record Startup : Type := {
  load_embedder : PyResult Handle;
  open_client : PyResult Handle;
  get_collection : PyResult Handle;
  create_collection : PyResult Handle;
  index_documents : PyResult unit
}.

Definition initialize (w : Startup) (r : RAGSystem) : RAGSystem * PyResult unit :=
  match load_embedder w with
  | Raise e => (r, Raise e)
  | Ok emb =>
      let r1 := mkRAGSystem (chroma_client r) (collection r) (Some emb)
                  (_initialized r) in
      match open_client w with
      | Raise e => (r1, Raise e)
      | Ok cl =>
          let r2 := mkRAGSystem (Some cl) (collection r1) (embedder r1)
                      (_initialized r1) in
          match get_collection w with
          | Ok col =>
              (mkRAGSystem (chroma_client r2) (Some col) (embedder r2) true,
               Ok tt)
          | Raise _ =>
              match create_collection w with
              | Raise e => (r2, Raise e)
              | Ok col =>
                  let r3 := mkRAGSystem (chroma_client r2) (Some col)
                              (embedder r2) (_initialized r2) in
                  match index_documents w with
                  | Raise e => (r3, Raise e)
                  | Ok _ =>
                      (mkRAGSystem (chroma_client r3) (collection r3)
                         (embedder r3) true, Ok tt)
                  end
              end
          end
      end
  end.

Definition cleanup (r : RAGSystem) : RAGSystem :=
  mkRAGSystem (chroma_client r) (collection r) (embedder r) false.

Definition source_label (i : nat) : string :=
  ("Internal Knowledge Base - Document " ++ PyStr.str_of_nat (i + 1))%string.

Definition empty_answer : QueryAnswer := {| documents := []; sources := [] |}.

Section Query.
(** [embedder.encode([text])[0].tolist()] and [collection.query]. *)
Variable encode : string -> PyResult (list Q).
Variable collection_query : list Q -> Z -> PyResult QueryResults.

(** [results.get("documents", [[]])[0]] *)
Definition first_batch (res : QueryResults) : PyResult (list string) :=
  match documents_entry res with
  | NoEntry => Ok []
  | NoneEntry => Raise TypeError
  | ListEntry [] => Raise IndexError
  | ListEntry (d :: _) => Ok d
  end.

Definition query (r : RAGSystem) (query_text : string) (top_k : Z)
  : PyResult QueryAnswer :=
  if negb (_initialized r) then Raise (RuntimeError "RAG system not initialized")
  else
    match encode query_text with
    | Raise _ => Ok empty_answer
    | Ok query_embedding =>
        match collection_query query_embedding top_k with
        | Raise _ => Ok empty_answer
        | Ok results =>
            match first_batch results with
            | Raise _ => Ok empty_answer
            | Ok docs =>
                Ok {| documents := docs;
                      sources := map source_label (seq 0 (length docs)) |}
            end
        end
    end.
End Query.

(** The arguments of [collection.add]. *)
Record AddCall : Type := mkAddCall {
  add_documents : list string;
  add_embeddings : list (list Q);
  add_ids : list string;
  add_metadatas : list (gmap string string)
}.

Section Index.
(** [embedder.encode(data).tolist()] and [collection.add]. *)
Variable encode_all : list string -> PyResult (list (list Q)).
Variable collection_add : AddCall -> PyResult unit.

(** [_index_documents], for the list [LOAN_PRODUCTS_DATA]. *)
Definition _index_documents (LOAN_PRODUCTS_DATA : list string) : PyResult unit :=
  match encode_all LOAN_PRODUCTS_DATA with
  | Raise e => Raise e
  | Ok embeddings =>
      let ids :=
        map (fun i => ("loan_product_" ++ PyStr.str_of_nat i)%string)
          (seq 0 (length LOAN_PRODUCTS_DATA)) in
      let metadatas :=
        repeat ({["source" := "internal_loan_data"]} : gmap string string)
          (length LOAN_PRODUCTS_DATA) in
      collection_add
        {| add_documents := LOAN_PRODUCTS_DATA; add_embeddings := embeddings;
           add_ids := ids; add_metadatas := metadatas |}
  end.
End Index.

End Rag.

(** ** A monad for code that mutates a store and may raise *)

Definition M (S A : Type) : Type := S -> S * PyResult A.

Definition ret {S A} (a : A) : M S A := fun s => (s, Ok a).
Definition raise {S A} (e : PyExn) : M S A := fun s => (s, Raise e).
Definition bind {S A B} (c : M S A) (k : A -> M S B) : M S B :=
  fun s => match c s with
           | (s', Ok a) => k a s'
           | (s', Raise e) => (s', Raise e)
           end.
Definition lift {S A} (f : S -> S * A) : M S A :=
  fun s => let '(s', a) := f s in (s', Ok a).
Definition modify {S} (f : S -> S) : M S unit := fun s => (f s, Ok tt).
Definition of_result {S A} (r : PyResult A) : M S A := fun s => (s, r).

Notation "x <- c ;; k" := (bind c (fun x => k))
  (at level 100, c at next level, right associativity).
Notation "c ;;; k" := (bind c (fun _ => k))
  (at level 100, right associativity).

(** ** [app/core/agent.py] *)

Module Agent.

(** What the hosted model answers to [llm.invoke] under [wait_for]. *)
Inductive LlmOutcome : Type :=
| Replied (content : string)
| TimedOut
| Failed (e : PyExn).

Inductive ChatTurn : Type :=
| SystemMessage (content : string)
| HumanMessage (content : string)
| AIMessage (content : string).

(** The numbers [random] hands out during one business-logic pass, in the
    order of the calls: [randint(600, 850)], [randint(300000, 500000)],
    [uniform(10.0, 12.5)] and [randint(1000, 9999)]. *)
Record Draws : Type := mkDraws {
  credit_score_draw : Z;
  offer_draw : Z;
  rate_draw : Q;
  letter_draw : Z
}.

Definition draws_in_range (d : Draws) : Prop :=
  600 <= credit_score_draw d <= 850 /\
  300000 <= offer_draw d <= 500000 /\
  (10 <= rate_draw d)%Q /\ (rate_draw d <= 25 # 2)%Q /\
  1000 <= letter_draw d <= 9999.

(** Nearest integer, ties to the even one. *)
Definition round_half_even (q : Q) : Z :=
  let n := Qnum q in
  let d := Z.pos (Qden q) in
  let f := n / d in
  match 2 * (n mod d) ?= d with
  | Lt => f
  | Gt => f + 1
  | Eq => if Z.even f then f else f + 1
  end.

(** [round(x, 2)] *)
Definition round2 (x : Q) : Q := (round_half_even (x * 100) # 100)%Q.

Record TurnResult : Type := mkTurnResult {
  message : string;
  result_loan_application : LoanApplication
}.

Record Chunk : Type := mkChunk {
  chunk_type : string;
  chunk_content : string;
  chunk_session_id : string;
  (** [None]: the chunk has no such key; [Some None]: the key holds [None] *)
  chunk_loan_application : option (option LoanApplication)
}.

Definition exn_str (e : PyExn) : string :=
  match e with
  | ValueError m | RuntimeError m | SyntaxError m | LibraryError m => m
  | KeyError k => ("'" ++ k ++ "'")%string
  | TypeError => "'NoneType' object is not subscriptable"
  | AttributeError => "'NoneType' object has no attribute 'replace'"
  | IndexError => "list index out of range"
  end.

Definition get_initial_greeting : string :=
  "Hello! I'm your AI Loan Sales Assistant from NBFC. I can help you find the right personal loan. What kind of loan are you interested in, or how much do you need?".

Definition timeout_apology : string :=
  "I apologize, but I'm taking longer than expected. Could you please try again?".

Definition error_apology : string :=
  "I apologize, but I encountered an error. Please try again.".

(** *** The search [re.search(r'(\d+)\s*(lakh|lakhs|thousand|k)', s)]

    [\d+] and [\s*] are greedy.  Giving back a digit leaves a digit, and
    giving back a space leaves a space, in front of the alternation, and
    no alternative starts with either ([match_unit_not_at_digit] and
    [match_unit_not_at_space] below): the greedy reading is the only one
    that can match, and the first alternative that fits is taken. *)

Fixpoint span_digits (s : string) : string * string :=
  match s with
  | EmptyString => (EmptyString, EmptyString)
  | String c r =>
      if PyStr.isdigit c
      then let '(d, rest) := span_digits r in (String c d, rest)
      else (EmptyString, s)
  end.

Fixpoint skip_spaces (s : string) : string :=
  match s with
  | EmptyString => EmptyString
  | String c r => if PyStr.isspace c then skip_spaces r else s
  end.

Definition match_unit (s : string) : option string :=
  if String.prefix "lakh" s then Some "lakh"
  else if String.prefix "lakhs" s then Some "lakhs"
  else if String.prefix "thousand" s then Some "thousand"
  else if String.prefix "k" s then Some "k"
  else None.

(** A match that starts at the first character: groups 1 and 2. *)
Definition match_amount_here (s : string) : option (string * string) :=
  let '(digits, rest) := span_digits s in
  if PyStr.is_empty digits then None
  else match match_unit (skip_spaces rest) with
       | Some unit => Some (digits, unit)
       | None => None
       end.

(** The leftmost match. *)
Fixpoint search_amount (s : string) : option (string * string) :=
  match match_amount_here s with
  | Some m => Some m
  | None =>
      match s with
      | EmptyString => None
      | String _ r => search_amount r
      end
  end.

(** *** [_process_business_logic], on the loan application *)

Definition extract_name (user_message user_lower : string)
    (loan_app : LoanApplication) : LoanApplication :=
  if negb (PyStr.truthy_str (applicant_name loan_app))
     && (PyStr.contains "name is" user_lower
         || PyStr.contains "i am" user_lower
         || PyStr.contains "i'm" user_lower)
  then
    let words := PyStr.split user_message in
    match PyStr.index_of "is" words with
    | Some i =>
        let idx := (i + 1)%nat in
        if (idx <? length words)%nat
        then set_applicant_name
               (Some (PyStr.strip ".,!?"
                        (PyStr.join " " (PyStr.slice idx (idx + 2) words))))
               loan_app
        else loan_app
    | None => loan_app
    end
  else loan_app.

Definition extract_amount (user_lower : string) (loan_app : LoanApplication)
  : LoanApplication :=
  if negb (PyStr.truthy_int (desired_amount loan_app))
  then
    match search_amount user_lower with
    | Some (digits, unit) =>
        let num := PyStr.int digits in
        if PyStr.contains "lakh" unit
        then set_desired_amount (Some (num * 100000)) loan_app
        else if PyStr.contains "k" unit || PyStr.contains "thousand" unit
        then set_desired_amount (Some (num * 1000)) loan_app
        else loan_app
    | None => loan_app
    end
  else loan_app.

Definition purposes : list string :=
  ["home"; "car"; "education"; "medical"; "wedding"; "business"; "renovation"].

Definition extract_purpose (user_lower : string) (loan_app : LoanApplication)
  : LoanApplication :=
  if negb (PyStr.truthy_str (purpose loan_app))
  then
    match find (fun p => PyStr.contains p user_lower) purposes with
    | Some p => set_purpose (Some (PyStr.capitalize p)) loan_app
    | None => loan_app
    end
  else loan_app.

Definition auto_kyc (loan_app : LoanApplication) : LoanApplication :=
  if PyStr.truthy_str (applicant_name loan_app) && negb (kyc_verified loan_app)
  then set_status credit_check_pending (set_kyc_verified true loan_app)
  else loan_app.

Section WithSettings.
Variable settings : Settings.

Definition auto_credit_check (d : Draws) (loan_app : LoanApplication)
  : LoanApplication :=
  match desired_amount loan_app with
  | Some amount =>
      if negb (amount =? 0) && kyc_verified loan_app
         && eligibility_eqb (credit_eligibility loan_app) pending
      then
        let credit_score := credit_score_draw d in
        let loan_app := set_credit_score (Some credit_score) loan_app in
        if (MIN_CREDIT_SCORE settings <=? credit_score)
           && (amount <=? MAX_PERSONAL_LOAN settings)
        then
          set_status offer_made
            (set_offered_interest_rate (Some (round2 (rate_draw d)))
               (set_offered_amount (Some (Z.min amount (offer_draw d)))
                  (set_credit_eligibility eligible loan_app)))
        else
          set_status rejected (set_credit_eligibility not_eligible loan_app)
      else loan_app
  | None => loan_app
  end.

Definition acceptance_words : list string :=
  ["yes"; "accept"; "agree"; "proceed"].

Definition sanction_letter_url_of (name : string) (n : Z) : string :=
  ("https://mock-bank.com/sanction_letters/"
   ++ PyStr.replace_char " " "_" name ++ "_" ++ PyStr.str_of_Z n ++ ".pdf")%string.

(** The two assignments come before the URL is formatted: when the name
    is [None], [.replace] raises with both already made. *)
Definition auto_sanction (user_lower : string) (d : Draws)
    (loan_app : LoanApplication) : LoanApplication * option PyExn :=
  if status_eqb (status loan_app) offer_made
     && existsb (fun w => PyStr.contains w user_lower) acceptance_words
  then
    let loan_app :=
      set_status sanctioned (set_sanction_letter_generated true loan_app) in
    match applicant_name loan_app with
    | Some name =>
        (set_sanction_letter_url
           (Some (sanction_letter_url_of name (letter_draw d))) loan_app,
         None)
    | None => (loan_app, Some AttributeError)
    end
  else (loan_app, None).

(** The body of [_process_business_logic] between reading the session and
    writing it back: the dictionary after the pass, and the exception if
    the pass raised. *)
Definition business_logic (user_message : string) (d : Draws)
    (loan_app : LoanApplication) : LoanApplication * option PyExn :=
  let user_lower := PyStr.lower user_message in
  let loan_app := extract_name user_message user_lower loan_app in
  let loan_app := extract_amount user_lower loan_app in
  let loan_app := extract_purpose user_lower loan_app in
  let loan_app := auto_kyc loan_app in
  let loan_app := auto_credit_check d loan_app in
  auto_sanction user_lower d loan_app.

(** *** The methods, on the session store *)

Variable llm_invoke : list ChatTurn -> LlmOutcome.

(** Line 150 of [agent.py] reads
    [₹{loan_app['desired_amount']:,} if loan_app['desired_amount'] else 'Not provided'}]
    inside the f-string: the replacement field ends after the format
    [:,], and what follows is literal text that ends in a [}] without
    its opening brace.  Python rejects such an f-string ("single '}' is
    not allowed") when it compiles the module, so the method has no prompt
    to return; here the error surfaces where the method is called, the
    latest point at which it can.  The history and the time stamp that a
    turn leaves behind depend on that placement, and nothing is stated of
    them; that no turn completes, and that the loan application is not
    touched, does not.  The field by itself formats the amount
    with [,], which raises [TypeError] for the [None] of a new session. *)
Definition _build_system_prompt (session : Session) : PyResult string :=
  Raise (SyntaxError "f-string: single '}' is not allowed").

Definition chat_turn_of (msg : Message) : list ChatTurn :=
  if String.eqb (role msg) "user" then [HumanMessage (content msg)]
  else if String.eqb (role msg) "assistant" then [AIMessage (content msg)]
  else [].

Definition _build_messages (session : Session) (system_prompt user_message : string)
  : list ChatTurn :=
  SystemMessage system_prompt
  :: flat_map chat_turn_of (SessionStore.slice_from_minus 10 (messages session)).

Definition reply_of (o : LlmOutcome) : string :=
  match o with
  | Replied content => content
  | TimedOut => timeout_apology
  | Failed _ => error_apology
  end.

(** The dictionary [loan_app] is the one the store holds: what the pass
    assigns is in the store at once, also when the pass raises. *)
Definition store_loan_application (sid : string) (loan_app : LoanApplication)
    (m : SessionManager) : SessionManager :=
  match _sessions m !! sid with
  | Some s =>
      {| _sessions :=
           <[sid := mkSession (session_id s) (created_at s) (messages s)
                      loan_app (extracted_info s)]> (_sessions m);
         _session_timestamps := _session_timestamps m |}
  | None => m
  end.

Definition _process_business_logic (sid user_message ai_response : string)
    (d : Draws) (now : Z) : M SessionManager unit :=
  session <- lift (fun m => SessionStore.get_session m sid now) ;;
  match session with
  | None => raise TypeError
  | Some session =>
      let '(loan_app, exn) :=
        business_logic user_message d (loan_application session) in
      modify (store_loan_application sid loan_app) ;;;
      match exn with
      | Some e => raise e
      | None =>
          lift (fun m => SessionStore.update_loan_application m sid loan_app now) ;;;
          ret tt
      end
  end.

(** Lines 68 to 94 of [process_message]: from the call of the model to
    the returned dictionary. *)
Definition finish_turn (sid user_message : string) (turns : list ChatTurn)
    (d : Draws) (now : Z) : M SessionManager TurnResult :=
  let ai_message := reply_of (llm_invoke turns) in
  modify (fun m =>
            SessionStore.add_message settings m sid "assistant" ai_message now) ;;;
  _process_business_logic sid user_message ai_message d now ;;;
  updated_session <- lift (fun m => SessionStore.get_session m sid now) ;;
  match updated_session with
  | Some u => ret (mkTurnResult ai_message (loan_application u))
  | None => raise TypeError
  end.

(** [session] names the dictionary in the store, so the history that
    [_build_messages] reads already holds the user's message. *)
Definition process_message (sid user_message : string) (d : Draws) (now : Z)
  : M SessionManager TurnResult :=
  session <- lift (fun m => SessionStore.get_session m sid now) ;;
  match session with
  | None => raise (ValueError ("Session not found: " ++ sid)%string)
  | Some _ =>
      modify (fun m =>
                SessionStore.add_message settings m sid "user" user_message now) ;;;
      session <- lift (fun m => (m, _sessions m !! sid)) ;;
      match session with
      | None => raise TypeError
      | Some session =>
          system_prompt <- of_result (_build_system_prompt session) ;;
          let turns := _build_messages session system_prompt user_message in
          finish_turn sid user_message turns d now
      end
  end.

(** The loop of [stream_response] over the words of the reply. *)
Definition stream_chunks (sid : string) (result : TurnResult) : list Chunk :=
  let words := PyStr.split (message result) in
  imap (fun i word =>
          let is_final := (Z.of_nat i =? Z.of_nat (length words) - 1) in
          {| chunk_type := if negb is_final then "message" else "end";
             chunk_content := (word ++ " ")%string;
             chunk_session_id := sid;
             chunk_loan_application :=
               Some (if is_final then Some (result_loan_application result)
                     else None) |})
       words.

Definition error_chunk (sid : string) (e : PyExn) : Chunk :=
  {| chunk_type := "error"; chunk_content := exn_str e;
     chunk_session_id := sid; chunk_loan_application := None |}.

(** The chunks in the order they are yielded. *)
Definition stream_response (sid user_message : string) (d : Draws) (now : Z)
    (m : SessionManager) : SessionManager * list Chunk :=
  match process_message sid user_message d now m with
  | (m', Ok result) => (m', stream_chunks sid result)
  | (m', Raise e) => (m', [error_chunk sid e])
  end.

End WithSettings.
End Agent.

(** ** [app/main.py]: the metrics and the session and chat endpoints *)

Module Api.

Record Metrics : Type := mkMetrics {
  total_sessions : Z;
  active_sessions : Z;
  total_messages : Z;
  total_response_time : Q
}.

Definition initial_metrics : Metrics :=
  {| total_sessions := 0; active_sessions := 0; total_messages := 0;
     total_response_time := 0%Q |}.

Record Server : Type := mkServer {
  session_manager : SessionManager;
  metrics : Metrics
}.

Inductive Body : Type :=
| MessageBody (msg : string)
| SessionBody (sid greeting : string)
| ChatBody (sid reply : string) (loan_app : LoanApplication)
(** The answer of the server to an exception that no handler has turned
    into a response: no error text and no detail. *)
| InternalServerError.

Record Response : Type := mkResponse { status_code : Z; body : Body }.

(** [http_exception_handler] ([main.py], lines 103 to 111), which answers
    every [HTTPException].  The content it gives to [JSONResponse] is
    [ErrorResponse(...).dict()], which holds the [datetime] of the field
    [timestamp]; [JSONResponse] renders its content with [json.dumps] when
    it is made, and [json.dumps] raises [TypeError] on a [datetime].  The
    handler so raises whatever [status_code] and [detail] the exception
    carries, and the answer is the 500 of the server, with neither. *)
Definition http_exception_handler (status_code : Z) (detail : string)
  : Response :=
  mkResponse 500 InternalServerError.

Definition count_session (mt : Metrics) : Metrics :=
  mkMetrics (total_sessions mt + 1) (active_sessions mt + 1)
    (total_messages mt) (total_response_time mt).

Definition count_message (elapsed : Q) (mt : Metrics) : Metrics :=
  mkMetrics (total_sessions mt) (active_sessions mt) (total_messages mt + 1)
    (total_response_time mt + elapsed)%Q.

Definition release_session (mt : Metrics) : Metrics :=
  mkMetrics (total_sessions mt) (Z.max 0 (active_sessions mt - 1))
    (total_messages mt) (total_response_time mt).

(** [POST /api/v1/sessions]; [uuid] is what [uuid.uuid4()] returns. *)
Definition create_session (uuid : string) (now : Z) (sv : Server)
  : Server * Response :=
  let '(m, _) := SessionStore.create_session (session_manager sv) uuid now in
  (mkServer m (count_session (metrics sv)),
   mkResponse 200 (SessionBody uuid Agent.get_initial_greeting)).

(** [DELETE /api/v1/sessions/{session_id}] *)
Definition delete_session (sid : string) (sv : Server) : Server * Response :=
  match SessionStore.delete_session (session_manager sv) sid with
  | (m, Ok _) =>
      (mkServer m (release_session (metrics sv)),
       mkResponse 200 (MessageBody "Session deleted successfully"))
  | (m, Raise e) =>
      (mkServer m (metrics sv), http_exception_handler 500 (Agent.exn_str e))
  end.

Record ChatMessageRequest : Type := {
  request_message : string;
  request_session_id : option string
}.

Section WithSettings.
Variable settings : Settings.
Variable llm_invoke : list Agent.ChatTurn -> Agent.LlmOutcome.

(** The part of [send_message] after the session id is settled. *)
Definition answer_chat (sid : string) (request : ChatMessageRequest)
    (d : Agent.Draws) (now : Z) (elapsed : Q) (sv : Server)
  : Server * Response :=
  match Agent.process_message settings llm_invoke sid
          (request_message request) d now (session_manager sv) with
  | (m, Ok result) =>
      (mkServer m (count_message elapsed (metrics sv)),
       mkResponse 200 (ChatBody sid (Agent.message result)
                         (Agent.result_loan_application result)))
  | (m, Raise e) =>
      (mkServer m (metrics sv), http_exception_handler 500 (Agent.exn_str e))
  end.

(** [POST /api/v1/chat]; [uuid] is what [uuid.uuid4()] returns and
    [elapsed] the time the handler measures. *)
Definition send_message (request : ChatMessageRequest) (uuid : string)
    (d : Agent.Draws) (now : Z) (elapsed : Q) (sv : Server)
  : Server * Response :=
  if negb (PyStr.truthy_str (request_session_id request))
  then
    let '(m, _) := SessionStore.create_session (session_manager sv) uuid now in
    answer_chat uuid request d now elapsed
      (mkServer m (count_session (metrics sv)))
  else
    let sid := default "" (request_session_id request) in
    match SessionStore.get_session (session_manager sv) sid now with
    | (m, Some _) =>
        answer_chat sid request d now elapsed (mkServer m (metrics sv))
    | (m, None) =>
        (mkServer m (metrics sv), http_exception_handler 404 "Session not found")
    end.

End WithSettings.

(** [GET /api/v1/sessions/{session_id}] *)
Record SessionSummary : Type := mkSessionSummary {
  summary_session_id : string;
  summary_loan_application : LoanApplication;
  message_count : nat
}.

Inductive GetAnswer : Type :=
| Summary (status : Z) (summary : SessionSummary)
| NoSummary (response : Response).

Definition get_session (sid : string) (now : Z) (sv : Server)
  : Server * GetAnswer :=
  match SessionStore.get_session (session_manager sv) sid now with
  | (m, Some session) =>
      (mkServer m (metrics sv),
       Summary 200 (mkSessionSummary sid (loan_application session)
                      (length (messages session))))
  | (m, None) =>
      (mkServer m (metrics sv),
       NoSummary (http_exception_handler 404 "Session not found"))
  end.

(** [POST /api/v1/rag/query] *)
Inductive RagAnswer : Type :=
| RagResults (status : Z) (query : string) (results sources : list string)
| RagFailure (response : Response).

Definition query_knowledge_base
    (encode : string -> PyResult (list Q))
    (collection_query : list Q -> Z -> PyResult Rag.QueryResults)
    (rag_system : Rag.RAGSystem) (query : string) (top_k : Z) : RagAnswer :=
  match Rag.query encode collection_query rag_system query top_k with
  | Ok results =>
      RagResults 200 query (Rag.documents results) (Rag.sources results)
  | Raise e => RagFailure (http_exception_handler 500 (Agent.exn_str e))
  end.

(** The first part of the WebSocket endpoint: the session is made, and
    greeted, when the store has none under the id of the path. *)
Definition websocket_open (sid : string) (now : Z) (sv : Server)
  : Server * list Agent.Chunk :=
  match SessionStore.get_session (session_manager sv) sid now with
  | (m, Some _) => (mkServer m (metrics sv), [])
  | (m, None) =>
      let '(m', _) := SessionStore.create_session m sid now in
      (mkServer m' (count_session (metrics sv)),
       [Agent.mkChunk "message" Agent.get_initial_greeting sid None])
  end.

(** [not message.strip()]: [strip] leaves nothing exactly when every
    character is white space. *)
Fixpoint blank (s : string) : bool :=
  match s with
  | EmptyString => true
  | String c r => PyStr.isspace c && blank r
  end.

Section Socket.
Variable settings : Settings.
Variable llm_invoke : list Agent.ChatTurn -> Agent.LlmOutcome.

(** One round of the loop of the WebSocket endpoint, for the received
    [message]: the frames sent.  A message that is empty after [strip] is
    passed over. *)
Definition websocket_turn (sid message : string) (d : Agent.Draws) (now : Z)
    (sv : Server) : Server * list Agent.Chunk :=
  if blank message then (sv, [])
  else
    let '(m, chunks) :=
      Agent.stream_response settings llm_invoke sid message d now
        (session_manager sv) in
    (mkServer m (mkMetrics (total_sessions (metrics sv))
                   (active_sessions (metrics sv))
                   (total_messages (metrics sv) + 1)
                   (total_response_time (metrics sv))),
     chunks).

Inductive Request : Type :=
| PostSession (uuid : string) (now : Z)
| GetSession (sid : string) (now : Z)
| DeleteSession (sid : string)
| PostChat (request : ChatMessageRequest) (uuid : string) (d : Agent.Draws)
    (now : Z) (elapsed : Q)
| SocketOpen (sid : string) (now : Z)
| SocketMessage (sid message : string) (d : Agent.Draws) (now : Z).

(** The server after a request. *)
Definition serve (sv : Server) (r : Request) : Server :=
  match r with
  | PostSession uuid now => (create_session uuid now sv).1
  | GetSession sid now => (get_session sid now sv).1
  | DeleteSession sid => (delete_session sid sv).1
  | PostChat request uuid d now elapsed =>
      (send_message settings llm_invoke request uuid d now elapsed sv).1
  | SocketOpen sid now => (websocket_open sid now sv).1
  | SocketMessage sid message d now => (websocket_turn sid message d now sv).1
  end.

End Socket.

End Api.

(** ** The command-line prototype *)

Module Cli.

Record LoanApplication : Type := mkLoanApplication {
  applicant_name : option string;
  desired_amount : option Z;
  loan_term_months : option Z;
  purpose : option string;
  kyc_verified : bool;
  credit_score : option Z;
  credit_eligibility : option CreditEligibility;
  offered_amount : option Z;
  offered_interest_rate : option Q;
  sanction_letter_generated : bool;
  status : LoanStatus
}.

Inductive BaseMessage : Type :=
| SystemMessage (content : string)
| HumanMessage (content : string)
| AIMessage (content : string) (tool_calls : list string).

Record State : Type := mkState {
  messages : list BaseMessage;
  current_loan_application : LoanApplication;
  route : string;
  extracted_info : gmap string string
}.

(** [LoanApplication()] and [State()] *)
Definition new_application : LoanApplication :=
  {| applicant_name := None; desired_amount := None;
     loan_term_months := None; purpose := None; kyc_verified := false;
     credit_score := None; credit_eligibility := Some pending;
     offered_amount := None; offered_interest_rate := None;
     sanction_letter_generated := false; status := initiated |}.

Definition new_state : State :=
  {| messages := []; current_loan_application := new_application;
     route := ""; extracted_info := ∅ |}.

Definition with_application (f : LoanApplication -> LoanApplication)
    (st : State) : State :=
  mkState (messages st) (f (current_loan_application st)) (route st)
    (extracted_info st).

Definition append_message (msg : BaseMessage) (st : State) : State :=
  mkState (messages st ++ [msg]) (current_loan_application st) (route st)
    (extracted_info st).

Definition set_applicant_name v (a : LoanApplication) :=
  mkLoanApplication v (desired_amount a) (loan_term_months a) (purpose a)
    (kyc_verified a) (credit_score a) (credit_eligibility a)
    (offered_amount a) (offered_interest_rate a)
    (sanction_letter_generated a) (status a).
Definition set_desired_amount v (a : LoanApplication) :=
  mkLoanApplication (applicant_name a) v (loan_term_months a) (purpose a)
    (kyc_verified a) (credit_score a) (credit_eligibility a)
    (offered_amount a) (offered_interest_rate a)
    (sanction_letter_generated a) (status a).
Definition set_loan_term_months v (a : LoanApplication) :=
  mkLoanApplication (applicant_name a) (desired_amount a) v (purpose a)
    (kyc_verified a) (credit_score a) (credit_eligibility a)
    (offered_amount a) (offered_interest_rate a)
    (sanction_letter_generated a) (status a).
Definition set_purpose v (a : LoanApplication) :=
  mkLoanApplication (applicant_name a) (desired_amount a) (loan_term_months a)
    v (kyc_verified a) (credit_score a) (credit_eligibility a)
    (offered_amount a) (offered_interest_rate a)
    (sanction_letter_generated a) (status a).
Definition set_kyc_verified v (a : LoanApplication) :=
  mkLoanApplication (applicant_name a) (desired_amount a) (loan_term_months a)
    (purpose a) v (credit_score a) (credit_eligibility a)
    (offered_amount a) (offered_interest_rate a)
    (sanction_letter_generated a) (status a).
Definition set_credit_score v (a : LoanApplication) :=
  mkLoanApplication (applicant_name a) (desired_amount a) (loan_term_months a)
    (purpose a) (kyc_verified a) v (credit_eligibility a)
    (offered_amount a) (offered_interest_rate a)
    (sanction_letter_generated a) (status a).
Definition set_credit_eligibility v (a : LoanApplication) :=
  mkLoanApplication (applicant_name a) (desired_amount a) (loan_term_months a)
    (purpose a) (kyc_verified a) (credit_score a) v
    (offered_amount a) (offered_interest_rate a)
    (sanction_letter_generated a) (status a).
Definition set_offered_amount v (a : LoanApplication) :=
  mkLoanApplication (applicant_name a) (desired_amount a) (loan_term_months a)
    (purpose a) (kyc_verified a) (credit_score a) (credit_eligibility a)
    v (offered_interest_rate a) (sanction_letter_generated a) (status a).
Definition set_offered_interest_rate v (a : LoanApplication) :=
  mkLoanApplication (applicant_name a) (desired_amount a) (loan_term_months a)
    (purpose a) (kyc_verified a) (credit_score a) (credit_eligibility a)
    (offered_amount a) v (sanction_letter_generated a) (status a).
Definition set_sanction_letter_generated v (a : LoanApplication) :=
  mkLoanApplication (applicant_name a) (desired_amount a) (loan_term_months a)
    (purpose a) (kyc_verified a) (credit_score a) (credit_eligibility a)
    (offered_amount a) (offered_interest_rate a) v (status a).
Definition set_status v (a : LoanApplication) :=
  mkLoanApplication (applicant_name a) (desired_amount a) (loan_term_months a)
    (purpose a) (kyc_verified a) (credit_score a) (credit_eligibility a)
    (offered_amount a) (offered_interest_rate a)
    (sanction_letter_generated a) v.

(** The numbers [random] hands out: [randint(500, 850)],
    [randint(300000, 500000)], [uniform(10.0, 12.5)], [randint(1000, 9999)]. *)
Record Draws : Type := mkDraws {
  credit_score_draw : Z;
  offer_draw : Z;
  rate_draw : Q;
  letter_draw : Z
}.

Definition draws_in_range (d : Draws) : Prop :=
  500 <= credit_score_draw d <= 850 /\
  300000 <= offer_draw d <= 500000 /\
  (10 <= rate_draw d)%Q /\ (rate_draw d <= 25 # 2)%Q /\
  1000 <= letter_draw d <= 9999.

Section Tools.
(** [LoanApplication.json()], pydantic's serialisation. *)
Variable json : LoanApplication -> string.

Definition update_loan_application_details (st : State)
    (name : option string) (amount term : option Z) (purp : option string)
  : State :=
  let st := if PyStr.truthy_str name
            then with_application (set_applicant_name name) st else st in
  let st := if PyStr.truthy_int amount
            then with_application (set_desired_amount amount) st else st in
  let st := if PyStr.truthy_int term
            then with_application (set_loan_term_months term) st else st in
  let st := if PyStr.truthy_str purp
            then with_application (set_purpose purp) st else st in
  append_message
    (SystemMessage ("Updated loan application: "
                    ++ json (current_loan_application st))%string) st.

Definition verify_kyc (st : State) (name : string) : State :=
  let st := with_application (set_kyc_verified true) st in
  let st := with_application (set_status credit_check_pending) st in
  append_message
    (SystemMessage ("KYC for " ++ name ++ " successfully verified.")%string) st.

Definition evaluate_creditworthiness (st : State) (amount : Z) (d : Draws)
  : State :=
  let mock_credit_score := credit_score_draw d in
  let st := with_application (set_credit_score (Some mock_credit_score)) st in
  if (650 <=? mock_credit_score) && (amount <=? 500000)
  then
    let st := with_application (set_credit_eligibility (Some eligible)) st in
    let st := with_application
                (set_offered_amount (Some (Z.min amount (offer_draw d)))) st in
    let st := with_application
                (set_offered_interest_rate
                   (Some (Agent.round2 (rate_draw d)))) st in
    let st := with_application (set_status offer_made) st in
    append_message
      (SystemMessage ("Credit check passed. Score: "
                      ++ PyStr.str_of_Z mock_credit_score
                      ++ ". Offer made.")%string) st
  else
    let st := with_application (set_credit_eligibility (Some not_eligible)) st in
    let st := with_application (set_offered_amount (Some 0)) st in
    let st := with_application (set_offered_interest_rate (Some 0%Q)) st in
    let st := with_application (set_status rejected) st in
    append_message
      (SystemMessage ("Credit check failed. Score: "
                      ++ PyStr.str_of_Z mock_credit_score
                      ++ ". Not eligible.")%string) st.

Definition positive_offer (a : LoanApplication) : bool :=
  match offered_amount a with
  | Some n => negb (n =? 0) && negb (n <=? 0)
  | None => false
  end.

(** The state after the call, and the exception if the call raised:
    [.replace] on a name that is [None] raises after the flag and the
    status are assigned. *)
Definition generate_loan_sanction_letter (st : State) (d : Draws)
  : State * option PyExn :=
  if negb (positive_offer (current_loan_application st))
  then
    (append_message
       (SystemMessage "Cannot generate sanction letter: No valid offer made.")
       st, None)
  else
    let st := with_application (set_sanction_letter_generated true) st in
    let st := with_application (set_status sanctioned) st in
    match applicant_name (current_loan_application st) with
    | None => (st, Some AttributeError)
    | Some name =>
        let letter_url :=
          Agent.sanction_letter_url_of name (letter_draw d) in
        let st :=
          append_message
            (SystemMessage
               ("Loan sanction letter generated and sent. Access it at: "
                ++ letter_url)%string) st in
        (mkState (messages st) (current_loan_application st) (route st)
           (<["sanction_letter_url" := letter_url]> (extracted_info st)),
         None)
    end.
End Tools.

Definition content_of (msg : BaseMessage) : string :=
  match msg with
  | SystemMessage c | HumanMessage c | AIMessage c _ => c
  end.

Definition no_query_answer : string :=
  "No specific query provided for context retrieval.".

Definition nothing_found_answer : string :=
  "No relevant information found in the knowledge base.".

Section Retrieval.
(** [embedder.encode([text])[0].tolist()] and [collection.query]. *)
Variable encode : string -> PyResult (list Q).
Variable collection_query : list Q -> Z -> PyResult Rag.QueryResults.

(** [results["documents"][0] if results["documents"] else []] *)
Definition first_documents (res : Rag.QueryResults) : PyResult (list string) :=
  match Rag.documents_entry res with
  | Rag.NoEntry => Raise (KeyError "documents")
  | Rag.NoneEntry => Ok []
  | Rag.ListEntry [] => Ok []
  | Rag.ListEntry (d :: _) => Ok d
  end.

(** The state after the call and what the call returns or raises; nothing
    here catches what the embedder or the collection raises. *)
Definition retrieve_context (st : State) (query : option string) (top_k : Z)
  : State * PyResult string :=
  let actual_query :=
    if PyStr.truthy_str query then default "" query
    else match last (messages st) with
         | Some last_msg => content_of last_msg
         | None => ""
         end in
  if PyStr.is_empty actual_query then (st, Ok no_query_answer)
  else
    match encode actual_query with
    | Raise e => (st, Raise e)
    | Ok query_embedding =>
        match collection_query query_embedding top_k with
        | Raise e => (st, Raise e)
        | Ok results =>
            match first_documents results with
            | Raise e => (st, Raise e)
            | Ok [] => (st, Ok nothing_found_answer)
            | Ok docs =>
                let retrieved_content :=
                  PyStr.join (String (ascii_of_nat 10) "") docs in
                (mkState (messages st) (current_loan_application st) (route st)
                   (<["rag_context" := retrieved_content]> (extracted_info st)),
                 Ok retrieved_content)
            end
        end
    end.
End Retrieval.

Section Index.
Variable encode_all : list string -> PyResult (list (list Q)).
Variable collection_add : Rag.AddCall -> PyResult unit.

Definition index_loan_products (data_chunks : list string) : PyResult unit :=
  match encode_all data_chunks with
  | Raise e => Raise e
  | Ok embeddings =>
      let ids :=
        map (fun i => ("loan_product_" ++ PyStr.str_of_nat i)%string)
          (seq 0 (length data_chunks)) in
      collection_add
        {| Rag.add_documents := data_chunks; Rag.add_embeddings := embeddings;
           Rag.add_ids := ids;
           Rag.add_metadatas :=
             repeat ({["source" := "internal_loan_data"]} : gmap string string)
               (length data_chunks) |}
  end.
End Index.

Definition greeting : string :=
  "Hello! I'm your AI Loan Sales Assistant from NBFC. I can help you find the right personal loan. What kind of loan are you interested in, or how much do you need?".

Definition initial_greeting (st : State) : State :=
  match messages st with
  | [] => append_message (AIMessage greeting []) st
  | _ => st
  end.

Inductive Route : Type := conversational_agent | end_process.

(** [state.messages[-1]] raises [IndexError] on an empty history; the
    test on [tool_calls] that follows does nothing. *)
Definition decide_next_step (st : State) : State * PyResult Route :=
  match last (messages st) with
  | None => (st, Raise IndexError)
  | Some last_msg =>
      let app := current_loan_application st in
      match status app with
      | initiated =>
          if negb (PyStr.truthy_str (applicant_name app))
             || negb (PyStr.truthy_int (desired_amount app))
             || negb (PyStr.truthy_str (purpose app))
          then (st, Ok conversational_agent)
          else (with_application (set_status kyc_pending) st,
                Ok conversational_agent)
      | kyc_pending =>
          if negb (kyc_verified app) then (st, Ok conversational_agent)
          else (with_application (set_status credit_check_pending) st,
                Ok conversational_agent)
      | credit_check_pending =>
          match credit_eligibility app with
          | Some pending => (st, Ok conversational_agent)
          | Some eligible =>
              (with_application (set_status offer_made) st,
               Ok conversational_agent)
          | _ => (st, Ok conversational_agent)
          end
      | offer_made => (st, Ok conversational_agent)
      | sanctioned => (st, Ok end_process)
      | rejected => (st, Ok conversational_agent)
      | completed => (st, Ok conversational_agent)
      end
  end.

End Cli.

(** ** Predicates the properties are stated with *)

(** The [k] most recent elements of [l]. *)
Definition most_recent {A} (k : nat) (l : list A) : list A :=
  skipn (length l - k) l.

(** The message that [add_message] stores for [(role, content, now)]. *)
Definition message_of (x : string * string * Z) : Message :=
  mkMessage x.1.1 x.1.2 x.2.

(** Every session of the store has a time stamp: what [create_session]
    establishes and every method keeps. *)
Definition stamped (m : SessionManager) : Prop :=
  dom (_sessions m) ⊆ dom (_session_timestamps m).

#[global] Instance stamped_dec (m : SessionManager) : Decision (stamped m).
Proof. unfold stamped. apply _. Defined.

Fixpoint all_space (s : string) : bool :=
  match s with
  | EmptyString => true
  | String c r => PyStr.isspace c && all_space r
  end.

Fixpoint all_digits (s : string) : bool :=
  match s with
  | EmptyString => true
  | String c r => PyStr.isdigit c && all_digits r
  end.

(** What [_build_system_prompt] raises. *)
Definition prompt_error : PyExn :=
  SyntaxError "f-string: single '}' is not allowed".

(** The loan application the store holds for a session. *)
Definition application_of (m : SessionManager) (sid : string)
  : option LoanApplication :=
  loan_application <$> (_sessions m !! sid).

(** The first message of the specification's example. *)
Definition rahul_message : string :=
  "My name is Rahul Kumar, I need 2 lakh for a car".

(** The loan applications that business-logic passes produce from the one
    of a new session, whatever the messages and the numbers drawn. *)
Inductive produced (settings : Settings) : LoanApplication -> Prop :=
| produced_fresh : produced settings fresh_application
| produced_pass loan_app user_message d :
    produced settings loan_app ->
    Agent.draws_in_range d ->
    produced settings (Agent.business_logic settings user_message d loan_app).1.

Definition positive_offer (loan_app : LoanApplication) : Prop :=
  exists n, offered_amount loan_app = Some n /\ 0 < n.

(** What every produced application satisfies. *)
Record consistent (loan_app : LoanApplication) : Prop := {
  amount_nonneg : forall n, desired_amount loan_app = Some n -> 0 <= n;
  kyc_has_name :
    kyc_verified loan_app = true ->
    PyStr.truthy_str (applicant_name loan_app) = true;
  offer_is_backed :
    status loan_app = offer_made \/ status loan_app = sanctioned ->
    kyc_verified loan_app = true /\ credit_eligibility loan_app = eligible
    /\ positive_offer loan_app;
  letter_is_sanctioned :
    sanction_letter_generated loan_app = true -> status loan_app = sanctioned
}.



(** The words after the first token [is], joined, with the punctuation
    removed at the end only. *)
Definition words_after_is_rstripped (user_message : string) : option string :=
  let words := PyStr.split user_message in
  match PyStr.index_of "is" words with
  | Some i =>
      Some (PyStr.rstrip ".,!?"
              (PyStr.join " " (PyStr.slice (i + 1) (i + 3) words)))
  | None => None
  end.

(** The test that guards the name extraction. *)
Definition name_trigger (user_message : string) : bool :=
  let user_lower := PyStr.lower user_message in
  PyStr.contains "name is" user_lower || PyStr.contains "i am" user_lower
  || PyStr.contains "i'm" user_lower.

(** The chunk that [stream_response] yields for the word at position [i]
    of [n]. *)
Definition word_chunk (sid : string) (loan_app : LoanApplication)
    (n i : nat) (word : string) : Agent.Chunk :=
  if (S i =? n)%nat
  then Agent.mkChunk "end" (word ++ " ")%string sid (Some (Some loan_app))
  else Agent.mkChunk "message" (word ++ " ")%string sid (Some None).

(** ** Sequences of calls on the session store *)

(** The two dictionaries of the store have the same keys. *)
Definition synced (m : SessionManager) : Prop :=
  dom (_sessions m) = dom (_session_timestamps m).

#[global] Instance synced_dec (m : SessionManager) : Decision (synced m).
Proof. unfold synced. apply _. Defined.

(** The times that are a [datetime], counted from [datetime.min]. *)
Definition is_datetime (t : Z) : Prop := 0 <= t <= SessionStore.datetime_max.

(** The calls of [cleanup_expired_sessions] whose cutoff can be computed:
    the clock reads a [datetime], and so is the cutoff.  Then the
    [timedelta] can be made too, see [cutoff_is_datetime_timedelta]. *)
Definition cutoff_is_datetime (max_age_hours now : Z) : Prop :=
  is_datetime now /\ is_datetime (now - SessionStore.hours max_age_hours).

Inductive StoreCall : Type :=
| CallCreate (sid : string) (now : Z)
| CallGet (sid : string) (now : Z)
| CallUpdate (sid : string) (loan_app : LoanApplication) (now : Z)
| CallDelete (sid : string)
| CallCleanup (max_age_hours now : Z)
| CallAddMessage (sid role content : string) (now : Z).

(** The store after a call, and whether the call raised. *)
Definition store_call (settings : Settings) (m : SessionManager) (c : StoreCall)
  : SessionManager * bool :=
  match c with
  | CallCreate sid now => ((SessionStore.create_session m sid now).1, false)
  | CallGet sid now => ((SessionStore.get_session m sid now).1, false)
  | CallUpdate sid loan_app now =>
      ((SessionStore.update_loan_application m sid loan_app now).1, false)
  | CallDelete sid =>
      let '(m', r) := SessionStore.delete_session m sid in (m', negb (is_ok r))
  | CallCleanup max_age_hours now =>
      let '(m', r) := SessionStore.cleanup_expired_sessions m max_age_hours now in
      (m', negb (is_ok r))
  | CallAddMessage sid role content now =>
      (SessionStore.add_message settings m sid role content now, false)
  end.

(** The calls within the range of [datetime]. *)
Definition call_in_range (c : StoreCall) : Prop :=
  match c with
  | CallCleanup max_age_hours now => cutoff_is_datetime max_age_hours now
  | _ => True
  end.

(** The calls of [l] in order: the final store, and whether a call raised. *)
Definition store_calls (settings : Settings) (m : SessionManager)
    (l : list StoreCall) : SessionManager * bool :=
  fold_left (fun acc c =>
               let '(m', raised) := store_call settings acc.1 c in
               (m', acc.2 || raised))
    l (m, false).

(** What the counters of the server satisfy at all times. *)
Definition counters_sound (sv : Api.Server) : Prop :=
  0 <= Api.active_sessions (Api.metrics sv) <= Api.total_sessions (Api.metrics sv)
  /\ 0 <= Api.total_messages (Api.metrics sv)
  /\ Z.of_nat (size (_sessions (Api.session_manager sv)))
     <= Api.total_sessions (Api.metrics sv).

(** ** The loan applications of the agent, by status *)

(** No credit evaluation has run. *)
Definition not_evaluated (a : LoanApplication) : Prop :=
  credit_eligibility a = pending /\ credit_score a = None
  /\ offered_amount a = None /\ offered_interest_rate a = None.

Definition no_letter (a : LoanApplication) : Prop :=
  sanction_letter_generated a = false /\ sanction_letter_url a = None.

(** The fields after an evaluation that made an offer. *)
Definition offer_terms (settings : Settings) (a : LoanApplication) : Prop :=
  credit_eligibility a = eligible
  /\ exists score amount drawn rate,
      credit_score a = Some score /\ desired_amount a = Some amount
      /\ offered_amount a = Some (Z.min amount drawn)
      /\ offered_interest_rate a = Some rate
      /\ 600 <= score <= 850 /\ MIN_CREDIT_SCORE settings <= score
      /\ 0 < amount <= MAX_PERSONAL_LOAN settings
      /\ 300000 <= drawn <= 500000
      /\ (10 <= rate)%Q /\ (rate <= 25 # 2)%Q.

(** The fields after an evaluation that rejected. *)
Definition refusal_terms (settings : Settings) (a : LoanApplication) : Prop :=
  credit_eligibility a = not_eligible
  /\ offered_amount a = None /\ offered_interest_rate a = None
  /\ exists score amount,
      credit_score a = Some score /\ desired_amount a = Some amount
      /\ 600 <= score <= 850 /\ 0 < amount
      /\ (score < MIN_CREDIT_SCORE settings
          \/ MAX_PERSONAL_LOAN settings < amount).

(** The letter of a sanctioned application is filed under the name. *)
Definition letter_filed (a : LoanApplication) : Prop :=
  sanction_letter_generated a = true
  /\ exists name n,
      applicant_name a = Some name
      /\ sanction_letter_url a = Some (Agent.sanction_letter_url_of name n)
      /\ 1000 <= n <= 9999.

(** What holds of the application between the steps of a pass. *)
Definition status_shape (settings : Settings) (a : LoanApplication) : Prop :=
  loan_term_months a = None
  /\ (forall n, desired_amount a = Some n -> 0 <= n)
  /\ (forall p, purpose a = Some p ->
                In p (map PyStr.capitalize Agent.purposes))
  /\ match status a with
     | initiated => kyc_verified a = false /\ not_evaluated a /\ no_letter a
     | credit_check_pending =>
         PyStr.truthy_str (applicant_name a) = true /\ kyc_verified a = true
         /\ not_evaluated a /\ no_letter a
     | offer_made =>
         PyStr.truthy_str (applicant_name a) = true /\ kyc_verified a = true
         /\ offer_terms settings a /\ no_letter a
     | sanctioned =>
         PyStr.truthy_str (applicant_name a) = true /\ kyc_verified a = true
         /\ offer_terms settings a /\ letter_filed a
     | rejected =>
         PyStr.truthy_str (applicant_name a) = true /\ kyc_verified a = true
         /\ refusal_terms settings a /\ no_letter a
     | kyc_pending | completed => False
     end.

(** The messages in which the amount, if the search finds one, has at
    most 4300 digits, so that [int] reads it. *)
Definition int_in_limit (user_message : string) : Prop :=
  forall digits unit,
    Agent.search_amount (PyStr.lower user_message) = Some (digits, unit) ->
    (String.length digits <= 4300)%nat.

(** The loan applications that business-logic passes on such messages
    produce from the one of a new session. *)
Inductive produced_in_limit (settings : Settings) : LoanApplication -> Prop :=
| produced_in_limit_fresh : produced_in_limit settings fresh_application
| produced_in_limit_pass loan_app user_message d :
    produced_in_limit settings loan_app ->
    Agent.draws_in_range d ->
    int_in_limit user_message ->
    produced_in_limit settings
      (Agent.business_logic settings user_message d loan_app).1.

(** What holds of the application after a pass: with a name the KYC has
    run, and with a name and an amount the evaluation has. *)
Definition settled (settings : Settings) (a : LoanApplication) : Prop :=
  status_shape settings a
  /\ (status a = initiated -> PyStr.truthy_str (applicant_name a) = false)
  /\ (status a = credit_check_pending ->
      PyStr.truthy_int (desired_amount a) = false).

(** What a step of the pass keeps of the application [a] in [a']. *)
Definition keeps_known (a a' : LoanApplication) : Prop :=
  (PyStr.truthy_str (applicant_name a) = true ->
   applicant_name a' = applicant_name a)
  /\ (PyStr.truthy_int (desired_amount a) = true ->
      desired_amount a' = desired_amount a)
  /\ (PyStr.truthy_str (purpose a) = true -> purpose a' = purpose a)
  /\ loan_term_months a' = loan_term_months a
  /\ (kyc_verified a = true -> kyc_verified a' = true)
  /\ (credit_eligibility a <> pending ->
      credit_eligibility a' = credit_eligibility a
      /\ credit_score a' = credit_score a
      /\ offered_amount a' = offered_amount a
      /\ offered_interest_rate a' = offered_interest_rate a)
  /\ (sanction_letter_generated a = true ->
      sanction_letter_generated a' = true).

(** The status [decide_next_step] leaves the application in. *)
Definition next_status (a : Cli.LoanApplication) : LoanStatus :=
  match Cli.status a with
  | initiated =>
      if PyStr.truthy_str (Cli.applicant_name a)
         && PyStr.truthy_int (Cli.desired_amount a)
         && PyStr.truthy_str (Cli.purpose a)
      then kyc_pending else initiated
  | kyc_pending =>
      if Cli.kyc_verified a then credit_check_pending else kyc_pending
  | credit_check_pending =>
      match Cli.credit_eligibility a with
      | Some eligible => offer_made
      | _ => credit_check_pending
      end
  | s => s
  end.

(** A call of [collection.add] that the collection can take: as many
    ids, embeddings and metadata as documents, and no id twice. *)
Definition well_formed_add (c : Rag.AddCall) : Prop :=
  length (Rag.add_ids c) = length (Rag.add_documents c)
  /\ length (Rag.add_metadatas c) = length (Rag.add_documents c)
  /\ NoDup (Rag.add_ids c)
  /\ (forall i, (i < length (Rag.add_documents c))%nat ->
                Rag.add_ids c !! i
                = Some ("loan_product_" ++ PyStr.str_of_nat i)%string).

(** ** Proof steps *)

(** Case analysis on the test of the first conditional in the goal. *)
Ltac case_step :=
  match goal with
  | |- context [if ?b then _ else _] => destruct b eqn:?
  | |- context [match ?x with _ => _ end] => destruct x eqn:?
  end.

(** A step that assigns none of the fields the invariant reads. *)
Ltac kept H := first [exact H | constructor; assumption].

(** ** The string functions on examples *)

Example split_example :
  PyStr.split "  My name   is Rahul. " = ["My"; "name"; "is"; "Rahul."].
Proof. reflexivity. Qed.

Example strip_example : PyStr.strip ".,!?" "..Rahul Kumar,!" = "Rahul Kumar".
Proof. reflexivity. Qed.

Example lower_example : PyStr.lower "I Need 2 LAKH" = "i need 2 lakh".
Proof. reflexivity. Qed.

Example search_amount_examples :
  Agent.search_amount "i need 2 lakh for a car" = Some ("2", "lakh")
  /\ Agent.search_amount "about 50k or 3 lakhs" = Some ("50", "k")
  /\ Agent.search_amount "room 12 is free, 75  thousand" = Some ("75", "thousand")
  /\ Agent.search_amount "2 cars" = None.
Proof. repeat split. Qed.

(** No unit starts with a digit or with white space: the search cannot
    succeed by giving back a digit of [\d+] or a space of [\s*]. *)
Lemma match_unit_not_at_digit (c : ascii) (r : string) :
  PyStr.isdigit c = true -> Agent.match_unit (String c r) = None.
Proof.
  destruct c as [b0 b1 b2 b3 b4 b5 b6 b7].
  destruct b0, b1, b2, b3, b4, b5, b6, b7; intros H;
    try discriminate H; reflexivity.
Qed.

Lemma match_unit_not_at_space (c : ascii) (r : string) :
  PyStr.isspace c = true -> Agent.match_unit (String c r) = None.
Proof.
  destruct c as [b0 b1 b2 b3 b4 b5 b6 b7].
  destruct b0, b1, b2, b3, b4, b5, b6, b7; intros H;
    try discriminate H; reflexivity.
Qed.

(** ** The session store *)

Section SessionStoreFacts.
Variable settings : Settings.

Lemma slice_from_minus_most_recent {A} (k : Z) (l : list A) :
  0 < k -> SessionStore.slice_from_minus k l = most_recent (Z.to_nat k) l.
Proof.
  intros Hk. unfold SessionStore.slice_from_minus, most_recent.
  destruct (Z.ltb_spec 0 k); [reflexivity | lia].
Qed.

Lemma most_recent_all {A} (k : nat) (l : list A) :
  (length l <= k)%nat -> most_recent k l = l.
Proof.
  intros H. unfold most_recent.
  replace (length l - k)%nat with 0%nat by lia. reflexivity.
Qed.

Lemma most_recent_length {A} (k : nat) (l : list A) :
  length (most_recent k l) = Nat.min k (length l).
Proof. unfold most_recent. rewrite length_skipn. lia. Qed.

(** Trimming keeps the most recent [MAX_MESSAGE_HISTORY] messages. *)
Lemma trim_most_recent (l : list Message) :
  0 < MAX_MESSAGE_HISTORY settings ->
  SessionStore.trim settings l
  = most_recent (Z.to_nat (MAX_MESSAGE_HISTORY settings)) l.
Proof.
  intros Hpos. unfold SessionStore.trim.
  destruct (Z.ltb_spec (MAX_MESSAGE_HISTORY settings) (Z.of_nat (length l))).
  - apply slice_from_minus_most_recent; assumption.
  - symmetry. apply most_recent_all. lia.
Qed.

(** Appending to the most recent [k] and trimming again is trimming the
    whole. *)
Lemma most_recent_snoc {A} (k : nat) (l : list A) (x : A) :
  (0 < k)%nat ->
  most_recent k (most_recent k l ++ [x]) = most_recent k (l ++ [x]).
Proof.
  intros Hk. unfold most_recent.
  rewrite !length_app, length_skipn. simpl.
  destruct (le_lt_dec (length l) k) as [Hle | Hgt].
  - replace (length l - k)%nat with 0%nat by lia. simpl.
    replace (length l - 0)%nat with (length l) by lia. reflexivity.
  - replace (length l - (length l - k) + 1 - k)%nat with 1%nat by lia.
    replace (length l + 1 - k)%nat with (S (length l - k)) by lia.
    rewrite skipn_app.
    replace (1 - length (skipn (length l - k) l))%nat with 0%nat
      by (rewrite length_skipn; lia).
    rewrite (skipn_app (S (length l - k))).
    replace (S (length l - k) - length l)%nat with 0%nat by lia.
    simpl. f_equal.
    rewrite skipn_skipn. f_equal.
Qed.

Lemma add_message_history (m : SessionManager) sid s r c now :
  _sessions m !! sid = Some s ->
  _sessions (SessionStore.add_message settings m sid r c now) !! sid
  = Some (mkSession (session_id s) (created_at s)
            (SessionStore.trim settings (messages s ++ [mkMessage r c now]))
            (loan_application s) (extracted_info s)).
Proof.
  intros H. unfold SessionStore.add_message. rewrite H. simpl.
  apply lookup_insert_eq.
Qed.

Lemma add_messages_history (new : list (string * string * Z)) :
  0 < MAX_MESSAGE_HISTORY settings ->
  forall (m : SessionManager) sid s,
    _sessions m !! sid = Some s ->
    (Z.of_nat (length (messages s)) <= MAX_MESSAGE_HISTORY settings) ->
    SessionStore.history (SessionStore.add_messages settings m sid new) sid
    = Some (most_recent (Z.to_nat (MAX_MESSAGE_HISTORY settings))
              (messages s ++ map message_of new)).
Proof.
  intros Hpos. induction new as [| x new IH]; intros m sid s Hs Hlen.
  - simpl. unfold SessionStore.history. rewrite Hs. simpl.
    rewrite app_nil_r, most_recent_all; [reflexivity | lia].
  - unfold SessionStore.add_messages. simpl.
    fold (SessionStore.add_messages settings
            (SessionStore.add_message settings m sid x.1.1 x.1.2 x.2) sid new).
    erewrite IH; [| apply add_message_history; eassumption |].
    + simpl. f_equal. rewrite trim_most_recent by assumption.
      set (k := Z.to_nat (MAX_MESSAGE_HISTORY settings)).
      assert (Hk : (0 < k)%nat) by (unfold k; lia).
      fold (message_of x).
      change (messages s ++ message_of x :: map message_of new)
        with (messages s ++ [message_of x] ++ map message_of new).
      rewrite app_assoc.
      generalize (map message_of new) as tl.
      generalize (messages s ++ [message_of x]) as l.
      clear - Hk. intros l tl. revert l.
      induction tl as [| y tl IHtl]; intros l.
      * rewrite !app_nil_r. unfold most_recent at 1.
        rewrite most_recent_length.
        replace (Nat.min k (length l) - k)%nat with 0%nat by lia.
        reflexivity.
      * change (y :: tl) with ([y] ++ tl). rewrite !app_assoc.
        rewrite <- IHtl. rewrite <- (IHtl (l ++ [y])).
        f_equal. f_equal. apply most_recent_snoc. assumption.
    + simpl. rewrite trim_most_recent by assumption.
      rewrite most_recent_length. lia.
Qed.

End SessionStoreFacts.

Lemma create_session_lookup (m : SessionManager) sid now :
  _sessions (SessionStore.create_session m sid now).1 !! sid
  = Some (SessionStore.new_session sid now).
Proof. simpl. apply lookup_insert_eq. Qed.

(** The bound on the stored history that the theorem below assumes is kept
    by [add_message]. *)
Lemma add_message_bounded (settings : Settings) (m : SessionManager) sid s r c now :
  0 < MAX_MESSAGE_HISTORY settings ->
  _sessions (SessionStore.add_message settings m sid r c now) !! sid = Some s ->
  Z.of_nat (length (messages s)) <= MAX_MESSAGE_HISTORY settings.
Proof.
  intros Hpos. unfold SessionStore.add_message.
  destruct (_sessions m !! sid) as [s0 |] eqn:E; simpl.
  - rewrite lookup_insert_eq. intros [= <-]. simpl.
    rewrite trim_most_recent, most_recent_length by assumption. lia.
  - rewrite E. discriminate.
Qed.

(** C6.  For a session of the store whose history holds at most
    [MAX_MESSAGE_HISTORY] messages (as every history does, see
    [add_message_bounded]) and every sequence of [add_message] calls, the
    stored history is the most recent [min (h + n) MAX_MESSAGE_HISTORY]
    messages of the old history followed by the [n] appended ones, in the
    order of the calls; for a new session this is the most recent
    [min n MAX_MESSAGE_HISTORY] appended messages, and with the default of
    50 and 60 appended messages the stored history is the last 50 of them. *)
Theorem add_message_keeps_most_recent :
  forall (settings : Settings) (m : SessionManager) (sid : string) (s : Session)
         (new : list (string * string * Z)),
    0 < MAX_MESSAGE_HISTORY settings ->
    _sessions m !! sid = Some s ->
    Z.of_nat (length (messages s)) <= MAX_MESSAGE_HISTORY settings ->
    let stored :=
      SessionStore.history (SessionStore.add_messages settings m sid new) sid in
    let limit := Z.to_nat (MAX_MESSAGE_HISTORY settings) in
    stored
    = Some (most_recent (Nat.min (length (messages s) + length new) limit)
              (messages s ++ map message_of new))
    /\ (messages s = [] ->
        stored = Some (most_recent (Nat.min (length new) limit)
                         (map message_of new)))
    /\ (messages s = [] -> MAX_MESSAGE_HISTORY settings = 50 ->
        length new = 60%nat ->
        exists kept, stored = Some kept /\ length kept = 50%nat
                     /\ kept = skipn 10 (map message_of new)).
Proof.
  intros settings m sid s new Hpos Hs Hlen stored limit.
  assert (Hstored : stored = Some (most_recent limit
                                     (messages s ++ map message_of new))).
  { apply add_messages_history; assumption. }
  assert (Hmin : forall (l : list Message) k,
             most_recent (Nat.min (length l) k) l = most_recent k l).
  { intros l k. unfold most_recent. f_equal. lia. }
  split; [| split].
  - rewrite Hstored. f_equal.
    rewrite <- (Hmin _ limit). f_equal.
    rewrite length_app, length_map. reflexivity.
  - intros Hnil. rewrite Hstored, Hnil. simpl. f_equal.
    rewrite <- (Hmin _ limit). rewrite length_map. reflexivity.
  - intros Hnil H50 H60. exists (skipn 10 (map message_of new)).
    rewrite Hstored, Hnil. simpl. unfold most_recent, limit.
    rewrite length_map, H60, H50. repeat split.
    rewrite length_skipn, length_map, H60. reflexivity.
Qed.

Lemma add_message_keeps_most_recent_witness :
  let new := map (fun i => ("user", PyStr.str_of_nat i, Z.of_nat i)) (seq 0 60) in
  let m := (SessionStore.create_session SessionStore.init "s1" 0).1 in
  exists kept,
    SessionStore.history (SessionStore.add_messages default_settings m "s1" new) "s1"
    = Some kept
    /\ length kept = 50%nat /\ kept = skipn 10 (map message_of new).
Proof.
  intros new m.
  refine (proj2 (proj2 (add_message_keeps_most_recent default_settings m "s1"
                          (SessionStore.new_session "s1" 0) new _ _ _)) _ _ _).
  - reflexivity.
  - vm_compute. reflexivity.
  - simpl. lia.
  - reflexivity.
  - reflexivity.
  - reflexivity.
Defined.

(** ** The store keeps a time stamp for every session *)

Lemma stamped_lookup (m : SessionManager) sid s :
  stamped m -> _sessions m !! sid = Some s ->
  is_Some (_session_timestamps m !! sid).
Proof.
  intros Hst Hs. apply elem_of_dom, Hst, elem_of_dom. eauto.
Qed.

Lemma stamped_init : stamped SessionStore.init.
Proof. unfold stamped. simpl. reflexivity. Qed.

Lemma stamped_create_session (m : SessionManager) sid now :
  stamped m -> stamped (SessionStore.create_session m sid now).1.
Proof.
  unfold stamped. simpl. rewrite !dom_insert_L. intros H.
  apply union_mono_l. exact H.
Qed.

Lemma stamped_touch (ss : gmap string Session) (ts : gmap string Z) sid now :
  dom ss ⊆ dom ts -> dom ss ⊆ dom (<[sid := now]> ts).
Proof.
  intros H. rewrite dom_insert_L. etransitivity; [exact H |].
  apply union_subseteq_r.
Qed.

Lemma stamped_get_session (m : SessionManager) sid now :
  stamped m -> stamped (SessionStore.get_session m sid now).1.
Proof.
  unfold stamped, SessionStore.get_session.
  destruct (_sessions m !! sid); simpl; [| tauto].
  apply stamped_touch.
Qed.

Lemma dom_insert_present (ss : gmap string Session) sid s s' :
  ss !! sid = Some s -> dom (<[sid := s']> ss) = dom ss.
Proof.
  intros H. rewrite dom_insert_L. apply subseteq_union_1_L.
  apply singleton_subseteq_l, elem_of_dom. eauto.
Qed.

Lemma stamped_update_loan_application (m : SessionManager) sid loan_app now :
  stamped m -> stamped (SessionStore.update_loan_application m sid loan_app now).1.
Proof.
  unfold stamped, SessionStore.update_loan_application.
  destruct (_sessions m !! sid) as [s |] eqn:E; simpl; [| tauto].
  rewrite (dom_insert_present _ _ _ _ E). apply stamped_touch.
Qed.

Lemma stamped_add_message (settings : Settings) (m : SessionManager) sid r c now :
  stamped m -> stamped (SessionStore.add_message settings m sid r c now).
Proof.
  unfold stamped, SessionStore.add_message.
  destruct (_sessions m !! sid) as [s |] eqn:E; simpl; [| tauto].
  rewrite (dom_insert_present _ _ _ _ E). tauto.
Qed.

Lemma stamped_delete_session (m : SessionManager) sid :
  stamped m ->
  exists m' existed,
    SessionStore.delete_session m sid = (m', Ok existed)
    /\ _sessions m' = delete sid (_sessions m)
    /\ (existed = true <-> is_Some (_sessions m !! sid))
    /\ stamped m'.
Proof.
  intros Hst. unfold SessionStore.delete_session.
  destruct (_sessions m !! sid) as [s |] eqn:Hs.
  - destruct (stamped_lookup m sid s Hst Hs) as [t Ht]. rewrite Ht.
    eexists _, true. split; [reflexivity |]. simpl. repeat split; eauto.
    unfold stamped in *. simpl. rewrite !dom_delete_L.
    apply difference_mono_r. exact Hst.
  - exists m, false. split; [reflexivity |]. repeat split.
    + symmetry. apply delete_id. assumption.
    + discriminate.
    + intros [? ?]; discriminate.
    + assumption.
Qed.

(** C9.  For every session id, known to the store or not, the delete
    endpoint answers 200 with the success message and lowers the
    active-sessions counter by one, not below zero; so when the id is
    unknown, sessions exist and the counter does not exceed their number,
    the counter ends below the number of sessions the store holds. *)
Theorem delete_endpoint_counts_unknown_ids :
  forall (sv : Api.Server) (sid : string),
    stamped (Api.session_manager sv) ->
    let sv' := (Api.delete_session sid sv).1 in
    let held := fun v => Z.of_nat (SessionStore.get_active_sessions_count
                                     (Api.session_manager v)) in
    (Api.delete_session sid sv).2
    = Api.mkResponse 200 (Api.MessageBody "Session deleted successfully")
    /\ Api.active_sessions (Api.metrics sv')
       = Z.max 0 (Api.active_sessions (Api.metrics sv) - 1)
    /\ _sessions (Api.session_manager sv')
       = delete sid (_sessions (Api.session_manager sv))
    /\ (_sessions (Api.session_manager sv) !! sid = None ->
        held sv' = held sv
        /\ (0 < held sv ->
            Api.active_sessions (Api.metrics sv) <= held sv ->
            Api.active_sessions (Api.metrics sv') < held sv')).
Proof.
  intros sv sid Hst sv' held.
  destruct (stamped_delete_session _ sid Hst) as (m' & existed & Hdel & Hs & _ & _).
  assert (Hsv' : sv' = Api.mkServer m' (Api.release_session (Api.metrics sv))).
  { unfold sv', Api.delete_session. rewrite Hdel. reflexivity. }
  split; [| split; [| split]].
  - unfold Api.delete_session. rewrite Hdel. reflexivity.
  - rewrite Hsv'. reflexivity.
  - rewrite Hsv'. exact Hs.
  - intros Hnone.
    assert (Hheld : held sv' = held sv).
    { unfold held, SessionStore.get_active_sessions_count.
      rewrite Hsv'. simpl. rewrite Hs, delete_id by assumption. reflexivity. }
    split; [exact Hheld |].
    intros Hpos Hle. rewrite Hheld, Hsv'. simpl. lia.
Qed.

Lemma delete_endpoint_counts_unknown_ids_witness :
  let sv0 := Api.mkServer SessionStore.init Api.initial_metrics in
  let sv := (Api.create_session "b" 1 (Api.create_session "a" 0 sv0).1).1 in
  let sv' := (Api.delete_session "zzz" sv).1 in
  (Api.delete_session "zzz" sv).2
  = Api.mkResponse 200 (Api.MessageBody "Session deleted successfully")
  /\ Api.active_sessions (Api.metrics sv') = 1
  /\ SessionStore.get_active_sessions_count (Api.session_manager sv') = 2%nat.
Proof.
  intros sv0 sv sv'.
  assert (Hst : stamped (Api.session_manager sv)).
  { apply (bool_decide_unpack _). vm_compute. reflexivity. }
  pose proof (delete_endpoint_counts_unknown_ids sv "zzz" Hst) as (Hr & Ha & _ & Hn).
  subst sv'. split; [exact Hr | split].
  - rewrite Ha. reflexivity.
  - assert (Hnone : _sessions (Api.session_manager sv) !! "zzz" = None)
      by (vm_compute; reflexivity).
    destruct (Hn Hnone) as [Hheld _].
    apply Nat2Z.inj. etransitivity; [exact Hheld |]. vm_compute. reflexivity.
Defined.

(** ** The knowledge base *)

Lemma initialize_sets_flag (w : Rag.Startup) (r : Rag.RAGSystem) :
  Rag._initialized (Rag.initialize w r).1
  = Rag._initialized r || is_ok (Rag.initialize w r).2.
Proof.
  unfold Rag.initialize.
  destruct (Rag.load_embedder w), (Rag.open_client w), (Rag.get_collection w),
    (Rag.create_collection w), (Rag.index_documents w);
    simpl; rewrite ?orb_true_r, ?orb_false_r; reflexivity.
Qed.

Lemma source_labels_lookup (n i : nat) :
  (i < n)%nat ->
  map Rag.source_label (seq 0 n) !! i
  = Some ("Internal Knowledge Base - Document " ++ PyStr.str_of_nat (i + 1))%string.
Proof.
  intros Hi. rewrite list_lookup_fmap, lookup_seq_lt by assumption. reflexivity.
Qed.

(** C5.  [query] on a system that was not initialised, or whose
    initialisation failed, raises [RuntimeError("RAG system not
    initialized")].  After a successful [initialize], for every query text
    and top-k, it returns without raising: the empty pair when the embedding
    or the search fails, and otherwise the documents of the index, at most
    top-k of them (the index returns at most [n_results]), the document at
    position [i] with the label "Internal Knowledge Base - Document i+1". *)
Theorem query_needs_initialize_and_absorbs_failures :
  forall (encode : string -> PyResult (list Q))
         (collection_query : list Q -> Z -> PyResult Rag.QueryResults)
         (w : Rag.Startup) (query_text : string) (top_k : Z),
    (forall e docs rest,
        collection_query e top_k
        = Ok {| Rag.documents_entry := Rag.ListEntry (docs :: rest) |} ->
        Z.of_nat (length docs) <= top_k) ->
    let query := Rag.query encode collection_query in
    let started := Rag.initialize w Rag.init in
    query Rag.init query_text top_k
    = Raise (RuntimeError "RAG system not initialized")
    /\ (is_ok started.2 = false ->
        query started.1 query_text top_k
        = Raise (RuntimeError "RAG system not initialized"))
    /\ (is_ok started.2 = true ->
        exists answer,
          query started.1 query_text top_k = Ok answer
          /\ Z.of_nat (length (Rag.documents answer)) <= Z.max 0 top_k
          /\ length (Rag.sources answer) = length (Rag.documents answer)
          /\ (forall i doc,
                 Rag.documents answer !! i = Some doc ->
                 Rag.sources answer !! i
                 = Some ("Internal Knowledge Base - Document "
                         ++ PyStr.str_of_nat (i + 1))%string)
          /\ ((forall e, encode query_text = Ok e ->
                         is_ok (collection_query e top_k) = false) ->
              answer = Rag.empty_answer)
          /\ (forall e docs rest,
                 encode query_text = Ok e ->
                 collection_query e top_k
                 = Ok {| Rag.documents_entry := Rag.ListEntry (docs :: rest) |} ->
                 Rag.documents answer = docs)).
Proof.
  intros encode collection_query w query_text top_k Hindex query started.
  pose proof (initialize_sets_flag w Rag.init) as Hflag. fold started in Hflag.
  simpl in Hflag.
  assert (Hempty : forall P Q' : Prop, P -> Q' ->
             Z.of_nat (length (Rag.documents Rag.empty_answer)) <= Z.max 0 top_k
             /\ length (Rag.sources Rag.empty_answer)
                = length (Rag.documents Rag.empty_answer)
             /\ (forall i doc,
                    Rag.documents Rag.empty_answer !! i = Some doc ->
                    Rag.sources Rag.empty_answer !! i
                    = Some ("Internal Knowledge Base - Document "
                            ++ PyStr.str_of_nat (i + 1))%string)
             /\ P /\ Q').
  { intros P Q' HP HQ. simpl. repeat split; try assumption; [lia |].
    intros i doc H. rewrite lookup_nil in H. discriminate. }
  split; [reflexivity | split].
  - intros Hfail. unfold query, Rag.query. rewrite Hflag, Hfail. reflexivity.
  - intros Hok. unfold query, Rag.query. rewrite Hflag, Hok. simpl.
    destruct (encode query_text) as [e | x] eqn:He.
    + destruct (collection_query e top_k) as [[entry] | x] eqn:Hq.
      * destruct entry as [| | [| docs rest]]; simpl.
        -- exists Rag.empty_answer. split; [reflexivity |].
           apply Hempty; [reflexivity | intros e' ? ? [= <-]; congruence].
        -- exists Rag.empty_answer. split; [reflexivity |].
           apply Hempty; [reflexivity | intros e' ? ? [= <-]; congruence].
        -- exists Rag.empty_answer. split; [reflexivity |].
           apply Hempty; [reflexivity | intros e' ? ? [= <-]; congruence].
        -- eexists. split; [reflexivity |]. simpl.
           split; [specialize (Hindex e docs rest Hq); lia |].
           split; [rewrite length_map, length_seq; reflexivity |].
           split; [| split].
           ++ intros i doc Hdoc. apply source_labels_lookup.
              eapply lookup_lt_Some. eassumption.
           ++ intros H. specialize (H e eq_refl). rewrite Hq in H. discriminate.
           ++ intros e' docs' rest' [= <-]. rewrite Hq. intros [= <- _].
              reflexivity.
      * exists Rag.empty_answer. split; [reflexivity |].
        apply Hempty; [reflexivity | intros e' ? ? [= <-]; congruence].
    + exists Rag.empty_answer. split; [reflexivity |].
      apply Hempty; [reflexivity | intros e' ? ?; congruence].
Qed.

Lemma query_needs_initialize_and_absorbs_failures_witness :
  let corpus := ["KYC Documents"; "Credit Score Impact"; "Loan Sanction Process"] in
  let encode := fun _ : string => Ok [(1 # 2)%Q] in
  let collection_query := fun (_ : list Q) (_ : Z) =>
    Ok {| Rag.documents_entry := Rag.ListEntry [firstn 2 corpus] |} in
  let w := {| Rag.load_embedder := Ok Rag.handle;
              Rag.open_client := Ok Rag.handle;
              Rag.get_collection := Raise (ValueError "no collection");
              Rag.create_collection := Ok Rag.handle;
              Rag.index_documents := Ok tt |} in
  Rag.query encode collection_query Rag.init "KYC" 2
  = Raise (RuntimeError "RAG system not initialized")
  /\ exists answer,
      Rag.query encode collection_query (Rag.initialize w Rag.init).1 "KYC" 2
      = Ok answer
      /\ Rag.documents answer = ["KYC Documents"; "Credit Score Impact"].
Proof.
  intros corpus encode collection_query w.
  assert (Hindex : forall e docs rest,
             collection_query e 2
             = Ok {| Rag.documents_entry := Rag.ListEntry (docs :: rest) |} ->
             Z.of_nat (length docs) <= 2).
  { intros e docs rest [= <- _]. simpl. lia. }
  destruct (query_needs_initialize_and_absorbs_failures
              encode collection_query w "KYC" 2 Hindex) as (Hraise & _ & Hok).
  split; [exact Hraise |].
  destruct (Hok eq_refl) as (answer & Hq & _ & _ & _ & _ & Hdocs).
  exists answer. split; [exact Hq |].
  apply (Hdocs [(1 # 2)%Q] _ []); reflexivity.
Defined.

(** ** Streaming *)

Lemma split_from_nil (cur s : string) :
  PyStr.split_from cur s = [] <-> cur = "" /\ all_space s = true.
Proof.
  revert cur. induction s as [| c r IH]; intros cur; simpl.
  - destruct cur; simpl; split; try tauto; try discriminate.
    intros [? _]; discriminate.
  - destruct (PyStr.isspace c); simpl.
    + destruct cur; simpl.
      * rewrite IH. tauto.
      * split; [discriminate | intros [? _]; discriminate].
    + rewrite IH. split; [| intros [_ ?]; discriminate].
      intros [H _]. destruct cur; discriminate.
Qed.

Lemma split_nil (s : string) : PyStr.split s = [] <-> all_space s = true.
Proof. unfold PyStr.split. rewrite split_from_nil. tauto. Qed.

Lemma stream_chunks_imap (sid : string) (result : Agent.TurnResult) :
  Agent.stream_chunks sid result
  = imap (word_chunk sid (Agent.result_loan_application result)
            (length (PyStr.split (Agent.message result))))
      (PyStr.split (Agent.message result)).
Proof.
  unfold Agent.stream_chunks. apply imap_ext. intros i w _.
  unfold word_chunk.
  destruct (Z.eqb_spec (Z.of_nat i)
              (Z.of_nat (length (PyStr.split (Agent.message result))) - 1));
    destruct (Nat.eqb_spec (S i) (length (PyStr.split (Agent.message result))));
    try lia; reflexivity.
Qed.

(** The loop of [stream_response], taken alone, yields one chunk per word
    of [split] of the reply, in order, each the word followed by one space;
    the chunk of the last word has the type "end" and carries the loan
    application, every earlier one has the type "message" and carries
    [None]; and it yields no chunk at all exactly when the reply is empty
    or made of white space only, as the empty reply is. *)
Lemma stream_chunks_one_per_word :
  forall (sid : string) (result : Agent.TurnResult),
    let words := PyStr.split (Agent.message result) in
    let loan_app := Agent.result_loan_application result in
    let chunks := Agent.stream_chunks sid result in
    length chunks = length words
    /\ (forall i word,
           words !! i = Some word ->
           chunks !! i
           = Some (if (S i =? length words)%nat
                   then Agent.mkChunk "end" (word ++ " ")%string sid
                          (Some (Some loan_app))
                   else Agent.mkChunk "message" (word ++ " ")%string sid
                          (Some None)))
    /\ (chunks = [] <-> all_space (Agent.message result) = true)
    /\ Agent.stream_chunks sid (Agent.mkTurnResult "" loan_app) = []
    /\ Agent.stream_chunks sid (Agent.mkTurnResult "   " loan_app) = [].
Proof.
  intros sid result words loan_app chunks.
  assert (Hc : chunks = imap (word_chunk sid loan_app (length words)) words)
    by apply stream_chunks_imap.
  split; [| split; [| split; [| split]]].
  - rewrite Hc. apply length_imap.
  - intros i word Hw. rewrite Hc, list_lookup_imap, Hw. reflexivity.
  - rewrite <- split_nil. fold words. rewrite Hc.
    destruct words; simpl; split; intros; congruence.
  - reflexivity.
  - reflexivity.
Qed.

(** ** The router of the command-line prototype *)

Lemma last_is_Some {A} (l : list A) : l <> [] -> exists x, last l = Some x.
Proof.
  intros H. destruct (last l) as [x |] eqn:E; [eauto |].
  apply last_None in E. contradiction.
Qed.

(** C7, as stated, fails on a state without messages: [state.messages[-1]]
    raises [IndexError] before the status is looked at, whether the status
    is [sanctioned] or [credit_check_pending] with an eligible applicant. *)
Lemma decide_next_step_raises_on_empty_history :
  let sanctioned_state :=
    Cli.with_application (Cli.set_status sanctioned) Cli.new_state in
  let eligible_state :=
    Cli.with_application
      (fun a => Cli.set_status credit_check_pending
                  (Cli.set_credit_eligibility (Some eligible) a))
      Cli.new_state in
  Cli.status (Cli.current_loan_application sanctioned_state) = sanctioned
  /\ Cli.decide_next_step sanctioned_state = (sanctioned_state, Raise IndexError)
  /\ Cli.status (Cli.current_loan_application eligible_state) = credit_check_pending
  /\ Cli.credit_eligibility (Cli.current_loan_application eligible_state)
     = Some eligible
  /\ Cli.decide_next_step eligible_state = (eligible_state, Raise IndexError).
Proof. repeat split. Qed.

(** C7, amended.  On every state whose history holds at least one message,
    [decide_next_step] sets the status to [offer_made] and returns
    "conversational_agent" when the status is [credit_check_pending] and the
    eligibility is [eligible], and returns "end_process", leaving the state
    as it is, when the status is [sanctioned]. *)
Theorem decide_next_step_routes :
  forall (st : Cli.State),
    Cli.messages st <> [] ->
    let app := Cli.current_loan_application st in
    (Cli.status app = credit_check_pending ->
     Cli.credit_eligibility app = Some eligible ->
     Cli.decide_next_step st
     = (Cli.with_application (Cli.set_status offer_made) st,
        Ok Cli.conversational_agent)
     /\ Cli.status (Cli.current_loan_application (Cli.decide_next_step st).1)
        = offer_made)
    /\ (Cli.status app = sanctioned ->
        Cli.decide_next_step st = (st, Ok Cli.end_process)).
Proof.
  intros st Hne app.
  destruct (last_is_Some _ Hne) as [x Hx].
  unfold Cli.decide_next_step. rewrite Hx. fold app.
  split.
  - intros Hs He. rewrite Hs, He. split; reflexivity.
  - intros Hs. rewrite Hs. reflexivity.
Qed.

Lemma decide_next_step_routes_witness :
  let turn := Cli.AIMessage "Your loan is sanctioned." [] in
  let st1 :=
    Cli.append_message turn
      (Cli.with_application
         (fun a => Cli.set_status credit_check_pending
                     (Cli.set_credit_eligibility (Some eligible) a))
         Cli.new_state) in
  let st2 :=
    Cli.append_message turn
      (Cli.with_application (Cli.set_status sanctioned) Cli.new_state) in
  (Cli.decide_next_step st1).2 = Ok Cli.conversational_agent
  /\ Cli.status (Cli.current_loan_application (Cli.decide_next_step st1).1)
     = offer_made
  /\ Cli.decide_next_step st2 = (st2, Ok Cli.end_process).
Proof.
  intros turn st1 st2.
  assert (H1 : Cli.messages st1 <> []) by (simpl; discriminate).
  assert (H2 : Cli.messages st2 <> []) by (simpl; discriminate).
  destruct (proj1 (decide_next_step_routes st1 H1) eq_refl eq_refl) as [Ha Hb].
  split; [rewrite Ha; reflexivity | split; [exact Hb |]].
  exact (proj2 (decide_next_step_routes st2 H2) eq_refl).
Defined.

(** ** Name extraction *)

Lemma extract_amount_name l a :
  applicant_name (Agent.extract_amount l a) = applicant_name a.
Proof. unfold Agent.extract_amount. repeat case_step; reflexivity. Qed.

Lemma extract_purpose_name l a :
  applicant_name (Agent.extract_purpose l a) = applicant_name a.
Proof. unfold Agent.extract_purpose. repeat case_step; reflexivity. Qed.

Lemma auto_kyc_name a : applicant_name (Agent.auto_kyc a) = applicant_name a.
Proof. unfold Agent.auto_kyc. repeat case_step; reflexivity. Qed.

Lemma auto_credit_check_name settings d a :
  applicant_name (Agent.auto_credit_check settings d a) = applicant_name a.
Proof. unfold Agent.auto_credit_check. repeat case_step; reflexivity. Qed.

Lemma auto_sanction_name l d a :
  applicant_name (Agent.auto_sanction l d a).1 = applicant_name a.
Proof.
  unfold Agent.auto_sanction.
  destruct (_ && _); [| reflexivity]. simpl.
  destruct (applicant_name a) eqn:E; simpl; rewrite ?E; reflexivity.
Qed.

(** Only the first step of the pass assigns the name. *)
Lemma business_logic_name settings user_message d a :
  applicant_name (Agent.business_logic settings user_message d a).1
  = applicant_name
      (Agent.extract_name user_message (PyStr.lower user_message) a).
Proof.
  unfold Agent.business_logic.
  rewrite auto_sanction_name, auto_credit_check_name, auto_kyc_name,
    extract_purpose_name, extract_amount_name.
  reflexivity.
Qed.

(** C8, as stated, fails in its second half.  In "My name is" the token
    [is] occurs and the name is absent, yet the pass assigns no name: no
    word follows the token.  In "My name is .Rahul" the name becomes
    "Rahul", not the following word with its end stripped, ".Rahul":
    [strip] removes the punctuation in front as well. *)
Lemma name_extraction_last_token_and_leading_dot :
  let d := Agent.mkDraws 700 400000 (11 # 1)%Q 1234 in
  let pass := fun user_message =>
    (Agent.business_logic default_settings user_message d fresh_application).1 in
  (name_trigger "My name is" = true
   /\ PyStr.mem "is" (PyStr.split "My name is") = true
   /\ applicant_name (pass "My name is") = None
   /\ words_after_is_rstripped "My name is" = Some "")
  /\ (name_trigger "My name is .Rahul" = true
      /\ PyStr.mem "is" (PyStr.split "My name is .Rahul") = true
      /\ applicant_name (pass "My name is .Rahul") = Some "Rahul"
      /\ words_after_is_rstripped "My name is .Rahul" = Some ".Rahul").
Proof. vm_compute. repeat split. Qed.

(** C8, amended.  When the name is absent before the pass: a message
    without the token [is] leaves it absent, whatever else the message
    holds, as does a message that holds none of "name is", "i am", "i'm"
    in lower case, and a message whose first token [is] is its last token;
    and when the message holds one of the three, and a first token [is]
    with a token after it, the name becomes the one or two tokens after
    it, joined by a space, with the characters [.,!?] removed from both
    ends. *)
Theorem name_extraction_follows_is_token :
  forall (settings : Settings) (user_message : string) (d : Agent.Draws)
         (loan_app : LoanApplication),
    PyStr.truthy_str (applicant_name loan_app) = false ->
    let words := PyStr.split user_message in
    let after := (Agent.business_logic settings user_message d loan_app).1 in
    (PyStr.mem "is" words = false ->
     applicant_name after = applicant_name loan_app)
    /\ (name_trigger user_message = false ->
        applicant_name after = applicant_name loan_app)
    /\ (forall i,
           name_trigger user_message = true ->
           PyStr.index_of "is" words = Some i ->
           ((i + 1 < length words)%nat ->
            applicant_name after
            = Some (PyStr.strip ".,!?"
                      (PyStr.join " " (firstn 2 (skipn (i + 1) words)))))
           /\ ((length words <= i + 1)%nat ->
               applicant_name after = applicant_name loan_app)).
Proof.
  intros settings user_message d loan_app Habsent words after.
  unfold after. rewrite business_logic_name. unfold Agent.extract_name.
  rewrite Habsent. simpl negb. rewrite andb_true_l.
  fold (name_trigger user_message). fold words.
  split; [| split].
  - intros Hmem. unfold PyStr.mem in Hmem.
    destruct (name_trigger user_message); [| reflexivity].
    destruct (PyStr.index_of "is" words); [discriminate | reflexivity].
  - intros Htr. rewrite Htr. reflexivity.
  - intros i Htr Hidx. rewrite Htr, Hidx. split; intros Hlen.
    + destruct (Nat.ltb_spec (i + 1) (length words)); [| lia].
      simpl. unfold PyStr.slice.
      replace (i + 1 + 2 - (i + 1))%nat with 2%nat by lia. reflexivity.
    + destruct (Nat.ltb_spec (i + 1) (length words)); [lia | reflexivity].
Qed.

Lemma name_extraction_follows_is_token_witness :
  let d := Agent.mkDraws 700 400000 (11 # 1)%Q 1234 in
  applicant_name
    (Agent.business_logic default_settings
       "Hello, my name is Rahul Kumar, and I need a loan" d fresh_application).1
  = Some "Rahul Kumar"
  /\ applicant_name
       (Agent.business_logic default_settings "I'm Rahul" d fresh_application).1
     = None.
Proof.
  intros d. split.
  - refine (proj1 (proj2 (proj2 (name_extraction_follows_is_token
                      default_settings
                      "Hello, my name is Rahul Kumar, and I need a loan" d
                      fresh_application eq_refl)) 3%nat eq_refl eq_refl) _).
    vm_compute. lia.
  - exact (proj1 (name_extraction_follows_is_token default_settings
                    "I'm Rahul" d fresh_application eq_refl) eq_refl).
Defined.

(** ** Credit evaluation *)

Lemma round_half_even_bounds (q : Q) (a b : Z) :
  (inject_Z a <= q)%Q -> (q <= inject_Z b)%Q ->
  a <= Agent.round_half_even q <= b.
Proof.
  destruct q as [n d]. unfold Qle, inject_Z, Agent.round_half_even. simpl.
  intros Ha Hb.
  assert (Hd : 0 < Z.pos d) by lia.
  pose proof (Z.div_mod n (Z.pos d) ltac:(lia)) as Hdm.
  pose proof (Z.mod_pos_bound n (Z.pos d) Hd) as Hr.
  set (f := n / Z.pos d) in *. set (r := n mod Z.pos d) in *.
  assert (Hlo : a <= f) by (apply Z.div_le_lower_bound; lia).
  assert (Hhi : f <= b) by (apply Z.div_le_upper_bound; try lia; nia).
  assert (Htop : f = b -> r = 0) by nia.
  destruct (Z.compare_spec (2 * r) (Z.pos d)) as [He | Hl | Hg].
  - destruct (Z.even f); [lia |].
    destruct (Z.eq_dec f b) as [E | E]; [specialize (Htop E); lia | lia].
  - lia.
  - destruct (Z.eq_dec f b) as [E | E]; [specialize (Htop E); lia | lia].
Qed.

(** [round(x, 2)] of a value between 10.0 and 12.5 is a number of
    hundredths between 10.0 and 12.5. *)
Lemma round2_in_range (x : Q) :
  (10 <= x)%Q -> (x <= 25 # 2)%Q ->
  exists k, Agent.round2 x = (k # 100)%Q /\ 1000 <= k <= 1250
            /\ (10 <= Agent.round2 x)%Q /\ (Agent.round2 x <= 25 # 2)%Q.
Proof.
  intros Hlo Hhi. unfold Agent.round2.
  assert (Hb : 1000 <= Agent.round_half_even (x * 100) <= 1250).
  { apply round_half_even_bounds.
    - apply Qle_trans with (10 * 100)%Q; [discriminate |].
      apply Qmult_le_compat_r; [assumption | discriminate].
    - apply Qle_trans with ((25 # 2) * 100)%Q; [| discriminate].
      apply Qmult_le_compat_r; [assumption | discriminate]. }
  exists (Agent.round_half_even (x * 100)).
  split; [reflexivity | split; [exact Hb |]].
  unfold Qle. simpl. lia.
Qed.




(** ** What a chat turn does to the store *)

Lemma add_message_application settings m sid r c now :
  application_of (SessionStore.add_message settings m sid r c now) sid
  = application_of m sid.
Proof.
  unfold application_of, SessionStore.add_message.
  destruct (_sessions m !! sid) eqn:E; simpl; [| rewrite E; reflexivity].
  rewrite lookup_insert_eq. reflexivity.
Qed.

Lemma get_session_sessions m sid now :
  _sessions (SessionStore.get_session m sid now).1 = _sessions m
  /\ (SessionStore.get_session m sid now).2 = _sessions m !! sid.
Proof.
  unfold SessionStore.get_session. destruct (_sessions m !! sid); split; reflexivity.
Qed.

(** No call of [process_message] returns: a session that is not in the
    store raises [ValueError], and for one that is, the prompt cannot be
    built.  The loan application of the session is as it was. *)
Lemma process_message_raises settings llm_invoke sid user_message d now m :
  let out := Agent.process_message settings llm_invoke sid user_message d now m in
  is_ok out.2 = false
  /\ application_of out.1 sid = application_of m sid
  /\ (is_Some (_sessions m !! sid) -> out.2 = Raise prompt_error).
Proof.
  unfold Agent.process_message, bind, lift, modify, raise, of_result.
  destruct (get_session_sessions m sid now) as [Hs Hr].
  destruct (SessionStore.get_session m sid now) as [m1 o]. simpl in Hs, Hr.
  subst o. destruct (_sessions m !! sid) as [s |] eqn:E; simpl.
  - assert (Ha : application_of
                   (SessionStore.add_message settings m1 sid "user"
                      user_message now) sid
                 = Some (loan_application s)).
    { rewrite add_message_application. unfold application_of.
      rewrite Hs, E. reflexivity. }
    unfold application_of in Ha.
    destruct (_sessions (SessionStore.add_message settings m1 sid "user"
                           user_message now) !! sid) as [s' |] eqn:E';
      [| discriminate].
    simpl. unfold application_of. rewrite E', E. repeat split. exact Ha.
  - unfold application_of. rewrite Hs, E. repeat split.
    intros [? ?]. discriminate.
Qed.

(** ** The sanction-letter invariant *)

Lemma span_digits_all_digits (s : string) :
  all_digits (Agent.span_digits s).1 = true.
Proof.
  induction s as [| c r IH]; simpl; [reflexivity |].
  destruct (PyStr.isdigit c) eqn:Hc; [| reflexivity].
  destruct (Agent.span_digits r) as [d rest]. simpl in *.
  rewrite Hc, IH. reflexivity.
Qed.

Lemma int_from_nonneg (s : string) :
  all_digits s = true -> forall acc, 0 <= acc -> 0 <= PyStr.int_from acc s.
Proof.
  induction s as [| c r IH]; simpl; intros Hs acc Hacc; [assumption |].
  apply andb_prop in Hs as [Hc Hr]. apply IH; [assumption |].
  unfold PyStr.isdigit in Hc. apply andb_prop in Hc as [Hlo _].
  apply N.leb_le in Hlo. lia.
Qed.

Lemma search_amount_digits (s digits unit : string) :
  Agent.search_amount s = Some (digits, unit) -> 0 <= PyStr.int digits.
Proof.
  induction s as [| c r IH].
  - simpl. discriminate.
  - cbn [Agent.search_amount].
    destruct (Agent.match_amount_here (String c r)) as [m |] eqn:Hm.
    + intros [= ->]. unfold Agent.match_amount_here in Hm.
      pose proof (span_digits_all_digits (String c r)) as Hd.
      destruct (Agent.span_digits (String c r)) as [ds rest].
      destruct (PyStr.is_empty ds); [discriminate |].
      destruct (Agent.match_unit (Agent.skip_spaces rest)); [| discriminate].
      injection Hm as <- _. apply int_from_nonneg; [exact Hd | lia].
    + exact IH.
Qed.

Lemma extract_name_consistent user_message user_lower a :
  consistent a -> consistent (Agent.extract_name user_message user_lower a).
Proof.
  intros Ha. pose proof Ha as [H1 H2 H3 H4]. unfold Agent.extract_name.
  destruct (PyStr.truthy_str (applicant_name a)) eqn:Hname; simpl; [kept Ha |].
  repeat case_step; try kept Ha.
  constructor; simpl; try assumption.
  intros Hk. specialize (H2 Hk). discriminate.
Qed.

Lemma extract_amount_consistent user_lower a :
  consistent a -> consistent (Agent.extract_amount user_lower a).
Proof.
  intros Ha. pose proof Ha as [H1 H2 H3 H4]. unfold Agent.extract_amount.
  destruct (negb _); [| kept Ha].
  destruct (Agent.search_amount user_lower) as [[digits unit] |] eqn:Hs;
    [| kept Ha].
  pose proof (search_amount_digits _ _ _ Hs) as Hn.
  repeat case_step; constructor; simpl; try assumption;
    intros n [= <-]; lia.
Qed.

Lemma extract_purpose_consistent user_lower a :
  consistent a -> consistent (Agent.extract_purpose user_lower a).
Proof.
  intros Ha. pose proof Ha as [H1 H2 H3 H4]. unfold Agent.extract_purpose.
  repeat case_step; kept Ha.
Qed.

Lemma auto_kyc_consistent a : consistent a -> consistent (Agent.auto_kyc a).
Proof.
  intros Ha. pose proof Ha as [H1 H2 H3 H4]. unfold Agent.auto_kyc.
  destruct (PyStr.truthy_str (applicant_name a)) eqn:Hname; simpl;
    [| kept Ha].
  destruct (kyc_verified a) eqn:Hk; simpl; [kept Ha |].
  constructor; simpl; try assumption.
  - intros _. assumption.
  - intros [? | ?]; discriminate.
  - intros Hg. destruct (H3 (or_intror (H4 Hg))) as [Hk' _]. congruence.
Qed.

Lemma auto_credit_check_consistent settings d a :
  Agent.draws_in_range d ->
  consistent a -> consistent (Agent.auto_credit_check settings d a).
Proof.
  intros (_ & Hoffer & _) Ha. pose proof Ha as [H1 H2 H3 H4].
  unfold Agent.auto_credit_check.
  destruct (desired_amount a) as [amount |] eqn:Hamt; [| kept Ha].
  destruct (Z.eqb_spec amount 0) as [| Hnz]; simpl; [kept Ha |].
  destruct (kyc_verified a) eqn:Hk; simpl; [| kept Ha].
  destruct (credit_eligibility a) eqn:He; simpl;
    try kept Ha.
  assert (Hg : sanction_letter_generated a = true -> False).
  { intros Hg. destruct (H3 (or_intror (H4 Hg))) as (_ & He' & _). congruence. }
  specialize (H1 amount eq_refl).
  destruct ((MIN_CREDIT_SCORE settings <=? Agent.credit_score_draw d)
            && (amount <=? MAX_PERSONAL_LOAN settings));
    constructor; simpl; try solve [destruct Ha; assumption];
    try (intros Hg'; exfalso; exact (Hg Hg')).
  - intros _. repeat split; [assumption |].
    exists (Z.min amount (Agent.offer_draw d)).
    split; [reflexivity | lia].
  - intros [? | ?]; discriminate.
Qed.

Lemma status_eqb_eq (s t : LoanStatus) : status_eqb s t = true -> s = t.
Proof. destruct s, t; simpl; intros H; try reflexivity; discriminate. Qed.

Lemma auto_sanction_consistent user_lower d a :
  consistent a -> consistent (Agent.auto_sanction user_lower d a).1.
Proof.
  intros Ha. pose proof Ha as [H1 H2 H3 H4]. unfold Agent.auto_sanction.
  destruct (status_eqb (status a) offer_made
            && existsb (fun w => PyStr.contains w user_lower)
                 Agent.acceptance_words) eqn:Hc; [| exact Ha].
  apply andb_prop in Hc as [Hs _]. apply status_eqb_eq in Hs.
  destruct (H3 (or_introl Hs)) as (Hk & He & Hp).
  cbn [applicant_name set_status set_sanction_letter_generated].
  destruct (applicant_name a) eqn:Hn; constructor; simpl;
    first [ solve [destruct Ha; assumption]
          | intros _; split; [assumption | split; [assumption | exact Hp]]
          | intros _; reflexivity ].
Qed.

(** A pass on a consistent application does not raise. *)
Lemma auto_sanction_no_raise user_lower d a :
  consistent a -> (Agent.auto_sanction user_lower d a).2 = None.
Proof.
  intros Ha. pose proof Ha as [H1 H2 H3 H4]. unfold Agent.auto_sanction.
  destruct (status_eqb (status a) offer_made
            && existsb (fun w => PyStr.contains w user_lower)
                 Agent.acceptance_words) eqn:Hc; [| reflexivity].
  apply andb_prop in Hc as [Hs _]. apply status_eqb_eq in Hs.
  destruct (H3 (or_introl Hs)) as (Hk & _).
  specialize (H2 Hk).
  cbn [applicant_name set_status set_sanction_letter_generated].
  destruct (applicant_name a); [reflexivity | discriminate].
Qed.

Lemma before_sanction_consistent settings user_message d a :
  Agent.draws_in_range d -> consistent a ->
  consistent
    (Agent.auto_credit_check settings d
       (Agent.auto_kyc
          (Agent.extract_purpose (PyStr.lower user_message)
             (Agent.extract_amount (PyStr.lower user_message)
                (Agent.extract_name user_message (PyStr.lower user_message) a))))).
Proof.
  intros Hd Ha.
  apply auto_credit_check_consistent; [assumption |].
  apply auto_kyc_consistent, extract_purpose_consistent,
    extract_amount_consistent, extract_name_consistent. assumption.
Qed.

Lemma business_logic_consistent settings user_message d a :
  Agent.draws_in_range d -> consistent a ->
  consistent (Agent.business_logic settings user_message d a).1
  /\ (Agent.business_logic settings user_message d a).2 = None.
Proof.
  intros Hd Ha. unfold Agent.business_logic. split.
  - apply auto_sanction_consistent, before_sanction_consistent; assumption.
  - apply auto_sanction_no_raise, before_sanction_consistent; assumption.
Qed.











(** ** A chat turn *)

(** The chat endpoint answers 500 to every message. *)
Lemma answer_chat_fails settings llm_invoke sid request d now elapsed sv :
  Api.status_code
    (Api.answer_chat settings llm_invoke sid request d now elapsed sv).2 = 500.
Proof.
  unfold Api.answer_chat.
  destruct (process_message_raises settings llm_invoke sid
              (Api.request_message request) d now (Api.session_manager sv))
    as (Hok & _).
  destruct (Agent.process_message settings llm_invoke sid
              (Api.request_message request) d now (Api.session_manager sv))
    as [m' [r | e]]; [discriminate | reflexivity].
Qed.

(** What the pass would make of the first message, were it reached. *)
Lemma business_logic_rahul (d : Agent.Draws) :
  Agent.draws_in_range d ->
  let after :=
    (Agent.business_logic default_settings rahul_message d fresh_application).1 in
  applicant_name after = Some "Rahul Kumar"
  /\ desired_amount after = Some 200000
  /\ purpose after = Some "Car"
  /\ kyc_verified after = true
  /\ (status after = offer_made \/ status after = rejected)
  /\ (status_rank credit_check_pending <= status_rank (status after))%nat.
Proof.
  intros _ after.
  assert (Hk : Agent.auto_kyc
                 (Agent.extract_purpose (PyStr.lower rahul_message)
                    (Agent.extract_amount (PyStr.lower rahul_message)
                       (Agent.extract_name rahul_message
                          (PyStr.lower rahul_message) fresh_application)))
               = set_status credit_check_pending
                   (set_kyc_verified true
                      (set_purpose (Some "Car")
                         (set_desired_amount (Some 200000)
                            (set_applicant_name (Some "Rahul Kumar")
                               fresh_application)))))
    by (vm_compute; reflexivity).
  assert (Hno : existsb (fun w => PyStr.contains w (PyStr.lower rahul_message))
                  Agent.acceptance_words = false)
    by (vm_compute; reflexivity).
  unfold after, Agent.business_logic, Agent.auto_sanction.
  rewrite Hk, Hno, andb_false_r. unfold Agent.auto_credit_check. simpl.
  destruct (650 <=? Agent.credit_score_draw d); simpl;
    repeat split;
    first [reflexivity | left; reflexivity | right; reflexivity | lia].
Qed.

(** C1.  On the code the turn is not completed: for the session just
    created and the message of the claim, [process_message] raises while it
    builds the system prompt, before the model is called and before the
    business-logic pass, whatever the model would answer and whatever
    numbers would be drawn; the loan application stays the one of a new
    session, with no name, no amount, no purpose, the KYC not verified and
    the status [initiated], and [POST /api/v1/chat] answers 500. *)
Theorem first_chat_turn_raises :
  forall (settings : Settings)
         (llm_invoke : list Agent.ChatTurn -> Agent.LlmOutcome)
         (m : SessionManager) (sid : string) (d : Agent.Draws)
         (created now : Z) (elapsed : Q) (mt : Api.Metrics),
    let m0 := (SessionStore.create_session m sid created).1 in
    let out :=
      Agent.process_message settings llm_invoke sid rahul_message d now m0 in
    let response :=
      (Api.send_message settings llm_invoke
         {| Api.request_message := rahul_message;
            Api.request_session_id := None |}
         sid d now elapsed (Api.mkServer m mt)).2 in
    out.2 = Raise prompt_error
    /\ application_of out.1 sid = Some fresh_application
    /\ Api.status_code response = 500.
Proof.
  intros settings llm_invoke m sid d created now elapsed mt m0 out response.
  destruct (process_message_raises settings llm_invoke sid rahul_message d now m0)
    as (Hok & Happ & Hraise).
  fold out in Hok, Happ, Hraise.
  assert (Hs : _sessions m0 !! sid = Some (SessionStore.new_session sid created))
    by apply create_session_lookup.
  split; [apply Hraise; rewrite Hs; eauto | split].
  - rewrite Happ. unfold application_of. rewrite Hs. reflexivity.
  - unfold response, Api.send_message. simpl. apply answer_chat_fails.
Qed.

Lemma process_business_logic_returns settings sid user_message ai d now m s :
  _sessions m !! sid = Some s ->
  (Agent.business_logic settings user_message d (loan_application s)).2 = None ->
  exists m',
    Agent._process_business_logic settings sid user_message ai d now m
    = (m', Ok tt)
    /\ _sessions m' !! sid
       = Some (mkSession (session_id s) (created_at s) (messages s)
                 (Agent.business_logic settings user_message d
                    (loan_application s)).1
                 (extracted_info s)).
Proof.
  intros Hs Hno.
  unfold Agent._process_business_logic, bind, lift, modify, raise, ret.
  unfold SessionStore.get_session. rewrite Hs.
  destruct (Agent.business_logic settings user_message d (loan_application s))
    as [loan_app exn]. simpl in Hno. subst exn. simpl.
  unfold Agent.store_loan_application. simpl. rewrite Hs.
  unfold SessionStore.update_loan_application. simpl.
  rewrite lookup_insert_eq. simpl.
  eexists. split; [reflexivity |]. simpl. apply lookup_insert_eq.
Qed.

(** Lines 68 to 94 of [process_message], were they reached: the reply of
    the model, or the apology in its place, is appended to the history, the
    pass runs on the stored application, and the turn returns the reply
    with the application after the pass. *)
Lemma finish_turn_returns settings llm_invoke sid user_message turns d now m s :
  _sessions m !! sid = Some s ->
  consistent (loan_application s) ->
  Agent.draws_in_range d ->
  let reply := Agent.reply_of (llm_invoke turns) in
  let after :=
    (Agent.business_logic settings user_message d (loan_application s)).1 in
  exists m',
    Agent.finish_turn settings llm_invoke sid user_message turns d now m
    = (m', Ok (Agent.mkTurnResult reply after))
    /\ SessionStore.history m' sid
       = Some (SessionStore.trim settings
                 (messages s ++ [mkMessage "assistant" reply now]))
    /\ application_of m' sid = Some after.
Proof.
  intros Hs Hc Hd reply after.
  destruct (business_logic_consistent settings user_message d _ Hd Hc) as [_ Hno].
  pose proof (add_message_history settings m sid s "assistant" reply now Hs)
    as Hadd.
  destruct (process_business_logic_returns settings sid user_message
              reply d now _ _ Hadd Hno) as (m' & Hrun & Hm').
  unfold Agent.finish_turn, bind, modify, lift, ret, raise. fold reply.
  rewrite Hrun. unfold SessionStore.get_session. rewrite Hm'.
  eexists. split; [reflexivity |].
  unfold SessionStore.history, application_of. simpl. rewrite Hm'.
  split; reflexivity.
Qed.

(** With a model that does not answer in time the reply is the apology. *)
Lemma finish_turn_after_timeout settings sid user_message turns d now m s :
  _sessions m !! sid = Some s ->
  consistent (loan_application s) ->
  Agent.draws_in_range d ->
  exists m',
    Agent.finish_turn settings (fun _ => Agent.TimedOut) sid user_message
      turns d now m
    = (m', Ok (Agent.mkTurnResult Agent.timeout_apology
                 (Agent.business_logic settings user_message d
                    (loan_application s)).1))
    /\ SessionStore.history m' sid
       = Some (SessionStore.trim settings
                 (messages s
                  ++ [mkMessage "assistant" Agent.timeout_apology now])).
Proof.
  intros Hs Hc Hd.
  destruct (finish_turn_returns settings (fun _ => Agent.TimedOut) sid
              user_message turns d now m s Hs Hc Hd) as (m' & Hrun & Hh & _).
  exists m'. split; assumption.
Qed.

(** C4.  On the code no turn with a model that exceeds the timeout is
    completed: [process_message] raises on every store, for a session of
    the store while it builds the system prompt, before the model is
    called; the apology is not returned, the business-logic pass does not
    run, and the exception reaches the caller. *)
Theorem timed_out_turn_raises :
  forall (settings : Settings) (m : SessionManager) (sid user_message : string)
         (d : Agent.Draws) (created now : Z),
    let timed_out := fun _ : list Agent.ChatTurn => Agent.TimedOut in
    let m0 := (SessionStore.create_session m sid created).1 in
    is_ok (Agent.process_message settings timed_out sid user_message d now m).2
    = false
    /\ (Agent.process_message settings timed_out sid user_message d now m0).2
       = Raise prompt_error
    /\ (Agent.stream_response settings timed_out sid user_message d now m0).2
       = [Agent.error_chunk sid prompt_error].
Proof.
  intros settings m sid user_message d created now timed_out m0.
  assert (Hs : is_Some (_sessions m0 !! sid)).
  { unfold m0. rewrite create_session_lookup. eauto. }
  destruct (process_message_raises settings timed_out sid user_message d now m0)
    as (_ & _ & Hraise).
  specialize (Hraise Hs).
  split; [apply process_message_raises | split; [exact Hraise |]].
  unfold Agent.stream_response.
  destruct (Agent.process_message settings timed_out sid user_message d now m0)
    as [m' r]. simpl in Hraise. subst r. reflexivity.
Qed.

(** No list of word chunks is a single chunk of the type "error". *)
Lemma stream_chunks_not_error (sid : string) (result : Agent.TurnResult)
    (e : PyExn) :
  [Agent.error_chunk sid e] <> Agent.stream_chunks sid result.
Proof.
  rewrite stream_chunks_imap.
  destruct (PyStr.split (Agent.message result)) as [| w ws]; [discriminate |].
  cbn [imap]. unfold word_chunk, Agent.error_chunk.
  destruct (1 =? length (w :: ws))%nat; intros H; discriminate H.
Qed.

(** C10.  On the code [stream_response] yields no chunk per word.  For
    every store, session id, message, model and numbers drawn it yields
    exactly one chunk, of the type "error" and without a loan application:
    never the chunks of the words of a reply, whatever the reply, never a
    chunk of the type "message" or "end", and never no chunk at all.  For a
    session of the store the chunk carries the exception raised while the
    system prompt is built, before the model is asked for a reply; for any
    other id it carries the [ValueError] of the missing session. *)
Theorem stream_response_yields_one_error_chunk :
  forall (settings : Settings)
         (llm_invoke : list Agent.ChatTurn -> Agent.LlmOutcome)
         (m : SessionManager) (sid user_message : string) (d : Agent.Draws)
         (now : Z),
    let chunks :=
      (Agent.stream_response settings llm_invoke sid user_message d now m).2 in
    (exists e, chunks = [Agent.error_chunk sid e])
    /\ chunks <> []
    /\ Forall (fun c => Agent.chunk_type c = "error"
                        /\ Agent.chunk_loan_application c = None) chunks
    /\ (forall result, chunks <> Agent.stream_chunks sid result)
    /\ (is_Some (_sessions m !! sid) ->
        chunks = [Agent.error_chunk sid prompt_error])
    /\ (_sessions m !! sid = None ->
        chunks
        = [Agent.error_chunk sid
             (ValueError ("Session not found: " ++ sid)%string)]).
Proof.
  intros settings llm_invoke m sid user_message d now chunks.
  destruct (process_message_raises settings llm_invoke sid user_message d now m)
    as (Hok & _ & Hknown).
  assert (Hone : exists e, chunks = [Agent.error_chunk sid e]
                           /\ (Agent.process_message settings llm_invoke sid
                                 user_message d now m).2 = Raise e).
  { unfold chunks, Agent.stream_response.
    destruct (Agent.process_message settings llm_invoke sid user_message d now m)
      as [m' [result | e]]; [discriminate Hok |].
    exists e. split; reflexivity. }
  destruct Hone as (e & Hchunks & Hraise).
  split; [exists e; exact Hchunks |].
  split; [rewrite Hchunks; discriminate |].
  split; [rewrite Hchunks; repeat constructor |].
  split; [intros result; rewrite Hchunks; apply stream_chunks_not_error |].
  split.
  - intros Hsome. rewrite Hchunks. specialize (Hknown Hsome).
    rewrite Hraise in Hknown. injection Hknown as ->. reflexivity.
  - intros Hnone. rewrite Hchunks. f_equal. f_equal.
    unfold Agent.process_message, bind, lift, raise in Hraise.
    unfold SessionStore.get_session in Hraise. rewrite Hnone in Hraise.
    simpl in Hraise. congruence.
Qed.

(** * Further properties of the code *)

(** ** The session store: unknown ids, round trips, expiry *)

(** X1.  [create_session] followed by [get_session] returns the session
    of a new conversation, with an empty history and the default loan
    application, also when the id was in use: the session that was stored
    under it is replaced.  No other session changes, and the number of
    sessions grows by one exactly when the id was not in use. *)
Theorem create_session_then_get :
  forall (m : SessionManager) (sid : string) (created now : Z),
    let m' := (SessionStore.create_session m sid created).1 in
    SessionStore.get_session m' sid now
    = ({| _sessions := _sessions m';
          _session_timestamps := <[sid := now]> (_session_timestamps m') |},
       Some (SessionStore.new_session sid created))
    /\ (forall other, other <> sid -> _sessions m' !! other = _sessions m !! other)
    /\ SessionStore.get_active_sessions_count m'
       = match _sessions m !! sid with
         | Some _ => SessionStore.get_active_sessions_count m
         | None => S (SessionStore.get_active_sessions_count m)
         end.
Proof.
  intros m sid created now m'.
  assert (Hs : _sessions m' !! sid = Some (SessionStore.new_session sid created))
    by apply create_session_lookup.
  split; [| split].
  - unfold SessionStore.get_session. rewrite Hs. reflexivity.
  - intros other Hne. unfold m'. simpl. apply lookup_insert_ne. congruence.
  - unfold SessionStore.get_active_sessions_count, m'. simpl.
    destruct (_sessions m !! sid) as [s |] eqn:E.
    + apply map_size_insert_Some. eauto.
    + apply map_size_insert_None. assumption.
Qed.

(** X2.  For an id without a session, [get_session] returns [None],
    [update_session] returns [False], [delete_session] returns [False] and
    [add_message] returns, each leaving the store exactly as it was: only
    [create_session] makes a session, and none of the four raises. *)
Theorem unknown_session_id_changes_nothing :
  forall (settings : Settings) (m : SessionManager) (sid role content : string)
         (loan_app : LoanApplication) (now : Z),
    _sessions m !! sid = None ->
    SessionStore.get_session m sid now = (m, None)
    /\ SessionStore.update_loan_application m sid loan_app now = (m, false)
    /\ SessionStore.delete_session m sid = (m, Ok false)
    /\ SessionStore.add_message settings m sid role content now = m.
Proof.
  intros settings m sid role content loan_app now Hnone.
  unfold SessionStore.get_session, SessionStore.update_loan_application,
    SessionStore.delete_session, SessionStore.add_message.
  rewrite Hnone. repeat split.
Qed.

Lemma unknown_session_id_changes_nothing_witness :
  let m := (SessionStore.create_session SessionStore.init "a" 0).1 in
  SessionStore.get_session m "b" 5 = (m, None)
  /\ SessionStore.delete_session m "b" = (m, Ok false).
Proof.
  intros m.
  destruct (unknown_session_id_changes_nothing default_settings m "b" "user"
              "hello" fresh_application 5) as (Hg & _ & Hd & _).
  - vm_compute. reflexivity.
  - split; assumption.
Defined.

(** X3.  In a store that holds a time stamp per session, [delete_session]
    on a stored id returns [True]; afterwards [get_session] on the id
    returns [None], a second [delete_session] returns [False], every other
    session is as it was and the number of sessions is one less. *)
Theorem delete_session_forgets :
  forall (m : SessionManager) (sid : string) (s : Session) (now : Z),
    stamped m ->
    _sessions m !! sid = Some s ->
    exists m',
      SessionStore.delete_session m sid = (m', Ok true)
      /\ SessionStore.get_session m' sid now = (m', None)
      /\ SessionStore.delete_session m' sid = (m', Ok false)
      /\ (forall other, other <> sid ->
                        _sessions m' !! other = _sessions m !! other)
      /\ S (SessionStore.get_active_sessions_count m')
         = SessionStore.get_active_sessions_count m.
Proof.
  intros m sid s now Hst Hs.
  destruct (stamped_delete_session m sid Hst)
    as (m' & existed & Hdel & Hss & Hex & _).
  assert (existed = true) by (apply Hex; eauto). subst existed.
  assert (Hgone : _sessions m' !! sid = None)
    by (rewrite Hss; apply lookup_delete_eq).
  exists m'. split; [exact Hdel |].
  unfold SessionStore.get_session at 1. unfold SessionStore.delete_session at 1.
  rewrite Hgone. split; [reflexivity | split; [reflexivity | split]].
  - intros other Hne. rewrite Hss. apply lookup_delete_ne. congruence.
  - unfold SessionStore.get_active_sessions_count. rewrite Hss.
    assert (Hsome : is_Some (_sessions m !! sid)) by eauto.
    rewrite (map_size_delete_Some _ _ Hsome).
    pose proof (map_size_ne_0_lookup_2 (_sessions m) sid Hsome). lia.
Qed.

Lemma delete_session_forgets_witness :
  let m := (SessionStore.create_session SessionStore.init "a" 0).1 in
  exists m',
    SessionStore.delete_session m "a" = (m', Ok true)
    /\ SessionStore.get_session m' "a" 9 = (m', None).
Proof.
  intros m.
  assert (Hst : stamped m) by (apply (bool_decide_unpack _); vm_compute; reflexivity).
  destruct (delete_session_forgets m "a" (SessionStore.new_session "a" 0) 9 Hst)
    as (m' & Hd & Hg & _).
  - vm_compute. reflexivity.
  - exists m'. split; assumption.
Defined.

Lemma expire_loop (l : list string) :
  NoDup l ->
  forall m : SessionManager,
    (forall sid, sid ∈ l -> is_Some (_sessions m !! sid)) ->
    exists m',
      fold_left SessionStore.expire l (m, Ok tt) = (m', Ok tt)
      /\ (forall sid,
             _sessions m' !! sid
             = if decide (sid ∈ l) then None else _sessions m !! sid)
      /\ (forall sid,
             _session_timestamps m' !! sid
             = if decide (sid ∈ l) then None else _session_timestamps m !! sid).
Proof.
  induction 1 as [| x l Hx Hnd IH]; intros m Hall.
  - exists m. split; [reflexivity |].
    split; intros sid; destruct (decide (sid ∈ [])) as [Hin | _];
      try reflexivity; inversion Hin.
  - destruct (Hall x ltac:(left)) as [s Hs].
    cbn [fold_left SessionStore.expire]. rewrite Hs.
    set (m1 := {| _sessions := delete x (_sessions m);
                  _session_timestamps := delete x (_session_timestamps m) |}).
    destruct (IH m1) as (m' & Hrun & Hss & Hts).
    { intros sid Hin. unfold m1. simpl. rewrite lookup_delete_ne.
      - apply Hall. right. exact Hin.
      - intros ->. contradiction. }
    exists m'. split; [exact Hrun |].
    split; intros sid; [rewrite Hss | rewrite Hts]; unfold m1; simpl;
      destruct (decide (sid ∈ l)) as [Hin | Hnin];
      destruct (decide (sid ∈ x :: l)) as [Hin' | Hnin'];
      try reflexivity.
    + exfalso. apply Hnin'. right. exact Hin.
    + apply elem_of_cons in Hin' as [-> | ?]; [| contradiction].
      apply lookup_delete_eq.
    + apply lookup_delete_ne. intros ->. apply Hnin'. left.
    + exfalso. apply Hnin'. right. exact Hin.
    + apply elem_of_cons in Hin' as [-> | ?]; [| contradiction].
      apply lookup_delete_eq.
    + apply lookup_delete_ne. intros ->. apply Hnin'. left.
Qed.

Lemma elem_of_expired_ids (m : SessionManager) (cutoff : Z) (sid : string) :
  sid ∈ SessionStore.expired_ids m cutoff
  <-> exists t, _session_timestamps m !! sid = Some t /\ t < cutoff.
Proof.
  unfold SessionStore.expired_ids. rewrite list_elem_of_fmap. split.
  - intros ([k t] & -> & Hin). apply elem_of_map_to_list in Hin.
    apply map_lookup_filter_Some in Hin as [Hl Hp]. exists t. split; assumption.
  - intros (t & Hl & Hlt). exists (sid, t). split; [reflexivity |].
    apply elem_of_map_to_list, map_lookup_filter_Some. split; assumption.
Qed.

Lemma synced_lookup (m : SessionManager) (sid : string) :
  synced m ->
  (is_Some (_sessions m !! sid) <-> is_Some (_session_timestamps m !! sid)).
Proof. intros H. rewrite <- !elem_of_dom, H. reflexivity. Qed.

(** The loop of [cleanup_expired_sessions] on a store whose two
    dictionaries have the same keys. *)
Lemma cleanup_expired_sessions_synced (m : SessionManager)
    (max_age_hours now : Z) :
  synced m ->
  let cutoff_time := now - SessionStore.hours max_age_hours in
  exists m',
    SessionStore.cleanup_expired_sessions m max_age_hours now = (m', Ok tt)
    /\ synced m'
    /\ (forall sid t,
           _session_timestamps m !! sid = Some t -> t < cutoff_time ->
           _sessions m' !! sid = None /\ _session_timestamps m' !! sid = None)
    /\ (forall sid,
           (forall t, _session_timestamps m !! sid = Some t -> cutoff_time <= t) ->
           _sessions m' !! sid = _sessions m !! sid
           /\ _session_timestamps m' !! sid = _session_timestamps m !! sid).
Proof.
  intros Hsync cutoff_time.
  unfold SessionStore.cleanup_expired_sessions. fold cutoff_time.
  destruct (expire_loop (SessionStore.expired_ids m cutoff_time)) with (m := m)
    as (m' & Hrun & Hss & Hts).
  { unfold SessionStore.expired_ids. apply NoDup_fst_map_to_list. }
  { intros sid Hin. apply elem_of_expired_ids in Hin as (t & Ht & _).
    apply synced_lookup; eauto. }
  exists m'. split; [exact Hrun |]. split; [| split].
  - unfold synced. apply set_eq. intros sid. rewrite !elem_of_dom, Hss, Hts.
    destruct (decide (sid ∈ SessionStore.expired_ids m cutoff_time)).
    + split; intros [? ?]; discriminate.
    + apply synced_lookup. exact Hsync.
  - intros sid t Ht Hlt. rewrite Hss, Hts.
    destruct (decide (sid ∈ SessionStore.expired_ids m cutoff_time)) as [| Hn];
      [split; reflexivity |].
    exfalso. apply Hn, elem_of_expired_ids. eauto.
  - intros sid Hall. rewrite Hss, Hts.
    destruct (decide (sid ∈ SessionStore.expired_ids m cutoff_time)) as [Hin |];
      [| split; reflexivity].
    apply elem_of_expired_ids in Hin as (t & Ht & Hlt).
    specialize (Hall t Ht). lia.
Qed.

(** [timedelta(hours=h)] holds up to 999999999 days; a cutoff that is a
    [datetime] is within that. *)
Lemma cutoff_is_datetime_timedelta (max_age_hours now : Z) :
  cutoff_is_datetime max_age_hours now ->
  -999999999 <= max_age_hours / 24 <= 999999999.
Proof.
  unfold cutoff_is_datetime, is_datetime, SessionStore.hours,
    SessionStore.datetime_max.
  intros [Hnow Hcut].
  assert (-87649416 <= max_age_hours <= 87649416) by lia.
  split.
  - apply Z.div_le_lower_bound; lia.
  - apply Z.div_le_upper_bound; lia.
Qed.

(** X4.  In a store whose two dictionaries have the same keys, and at a
    time and for an age whose cutoff is a [datetime] (outside, the
    subtraction raises [OverflowError]), [cleanup_expired_sessions] does
    not raise; it removes, with their time stamps, exactly the sessions
    last touched before [now] minus [max_age_hours] hours and leaves every
    other session as it was; with no such session it leaves the store as
    it was. *)
Theorem cleanup_removes_exactly_the_expired :
  forall (m : SessionManager) (max_age_hours now : Z),
    synced m ->
    cutoff_is_datetime max_age_hours now ->
    let cutoff_time := now - SessionStore.hours max_age_hours in
    exists m',
      SessionStore.cleanup_expired_sessions m max_age_hours now = (m', Ok tt)
      /\ synced m'
      /\ (forall sid t,
             _session_timestamps m !! sid = Some t -> t < cutoff_time ->
             _sessions m' !! sid = None /\ _session_timestamps m' !! sid = None)
      /\ (forall sid,
             (forall t, _session_timestamps m !! sid = Some t -> cutoff_time <= t) ->
             _sessions m' !! sid = _sessions m !! sid
             /\ _session_timestamps m' !! sid = _session_timestamps m !! sid)
      /\ ((forall sid t, _session_timestamps m !! sid = Some t -> cutoff_time <= t) ->
          m' = m).
Proof.
  intros m max_age_hours now Hsync _ cutoff_time.
  destruct (cleanup_expired_sessions_synced m max_age_hours now Hsync)
    as (m' & Hrun & Hsync' & Hgone & Hkept).
  fold cutoff_time in Hgone, Hkept.
  exists m'. split; [exact Hrun |]. split; [exact Hsync' |].
  split; [exact Hgone |]. split; [exact Hkept |].
  intros Hnone. destruct m as [ss ts], m' as [ss' ts']. simpl in *.
  f_equal; apply map_eq; intros sid; apply (Hkept sid); intros t; apply Hnone.
Qed.

Lemma cleanup_removes_exactly_the_expired_witness :
  let m0 := (SessionStore.create_session SessionStore.init "a" 0).1 in
  let m := (SessionStore.create_session m0 "b" (SessionStore.hours 10)).1 in
  exists m',
    SessionStore.cleanup_expired_sessions m 24 (SessionStore.hours 30)
    = (m', Ok tt)
    /\ _sessions m' !! "a" = None
    /\ _sessions m' !! "b"
       = Some (SessionStore.new_session "b" (SessionStore.hours 10)).
Proof.
  intros m0 m.
  assert (Hsync : synced m)
    by (apply (bool_decide_unpack _); vm_compute; reflexivity).
  assert (Hrange : cutoff_is_datetime 24 (SessionStore.hours 30))
    by (unfold cutoff_is_datetime, is_datetime; vm_compute;
        repeat split; discriminate).
  destruct (cleanup_removes_exactly_the_expired m 24 (SessionStore.hours 30)
              Hsync Hrange)
    as (m' & Hrun & _ & Hgone & Hkept & _).
  exists m'. split; [exact Hrun | split].
  - apply (Hgone "a" 0); [vm_compute; reflexivity | vm_compute; reflexivity].
  - rewrite (proj1 (Hkept "b" ltac:(intros t Ht; vm_compute in Ht;
                                    injection Ht as <-; vm_compute; discriminate))).
    vm_compute. reflexivity.
Defined.

Lemma synced_touch (m : SessionManager) (sid : string) (s : Session) (now : Z) :
  synced m -> _sessions m !! sid = Some s ->
  dom (_sessions m) = dom (<[sid := now]> (_session_timestamps m)).
Proof.
  intros Hsync Hs. rewrite dom_insert_L, <- Hsync.
  symmetry. apply subseteq_union_1_L.
  apply singleton_subseteq_l, elem_of_dom. eauto.
Qed.

Lemma store_call_synced (settings : Settings) (m : SessionManager) (c : StoreCall) :
  synced m ->
  synced (store_call settings m c).1 /\ (store_call settings m c).2 = false.
Proof.
  intros Hsync. destruct c as [sid now | sid now | sid loan_app now | sid
                              | max_age_hours now | sid role content now]; simpl.
  - split; [| reflexivity]. unfold synced in *. simpl.
    rewrite !dom_insert_L, Hsync. reflexivity.
  - split; [| reflexivity]. unfold SessionStore.get_session.
    destruct (_sessions m !! sid) as [s |] eqn:E; simpl; [| exact Hsync].
    unfold synced. simpl. eapply synced_touch; eassumption.
  - split; [| reflexivity]. unfold SessionStore.update_loan_application.
    destruct (_sessions m !! sid) as [s |] eqn:E; simpl; [| exact Hsync].
    unfold synced. simpl. rewrite (dom_insert_present _ _ _ _ E).
    eapply synced_touch; eassumption.
  - unfold SessionStore.delete_session.
    destruct (_sessions m !! sid) as [s |] eqn:E.
    + destruct (proj1 (synced_lookup m sid Hsync) ltac:(eauto)) as [t Ht].
      rewrite Ht. simpl. split; [| reflexivity].
      unfold synced in *. simpl. rewrite !dom_delete_L, Hsync. reflexivity.
    + simpl. split; [exact Hsync | reflexivity].
  - destruct (cleanup_expired_sessions_synced m max_age_hours now Hsync)
      as (m' & Hrun & Hsync' & _).
    rewrite Hrun. simpl. split; [exact Hsync' | reflexivity].
  - split; [| reflexivity]. unfold SessionStore.add_message.
    destruct (_sessions m !! sid) as [s |] eqn:E; simpl; [| exact Hsync].
    unfold synced in *. simpl. rewrite (dom_insert_present _ _ _ _ E).
    exact Hsync.
Qed.

Lemma store_calls_synced (settings : Settings) (l : list StoreCall) :
  forall (m : SessionManager) (raised : bool),
    synced m ->
    let out :=
      fold_left (fun acc c =>
                   let '(m', r) := store_call settings acc.1 c in
                   (m', acc.2 || r))
        l (m, raised) in
    synced out.1 /\ out.2 = raised.
Proof.
  induction l as [| c l IH]; intros m raised Hsync; simpl.
  - split; [exact Hsync | reflexivity].
  - destruct (store_call_synced settings m c Hsync) as [Hs Hr].
    destruct (store_call settings m c) as [m1 r]. simpl in Hs, Hr. subst r.
    rewrite orb_false_r. apply IH. exact Hs.
Qed.

(** X5.  After any sequence of [create_session], [get_session],
    [update_session], [delete_session], [cleanup_expired_sessions] and
    [add_message] calls on a new [SessionManager], with any ids, contents
    and times, in which every [cleanup_expired_sessions] has a cutoff that
    is a [datetime], the dictionary of sessions and the dictionary of time
    stamps have the same keys, and no call of the sequence has raised: the
    two [del] of [delete_session] and of the cleanup loop find their
    keys. *)
Theorem session_store_stays_synced :
  forall (settings : Settings) (l : list StoreCall),
    Forall call_in_range l ->
    synced (store_calls settings SessionStore.init l).1
    /\ (store_calls settings SessionStore.init l).2 = false.
Proof.
  intros settings l _. apply store_calls_synced.
  unfold synced. reflexivity.
Qed.

Lemma session_store_stays_synced_witness :
  let day := SessionStore.hours 24 in
  let l :=
    [CallCreate "a" 0; CallAddMessage "a" "user" "hello" 5;
     CallCreate "b" day; CallCleanup 12 day; CallDelete "a";
     CallGet "b" (day + 1)] in
  synced (store_calls default_settings SessionStore.init l).1
  /\ (store_calls default_settings SessionStore.init l).2 = false.
Proof.
  intros day l.
  apply (session_store_stays_synced default_settings l).
  repeat (constructor; [exact I |]).
  constructor.
  - unfold call_in_range, cutoff_is_datetime, is_datetime. vm_compute.
    repeat split; discriminate.
  - repeat (constructor; [exact I |]). constructor.
Defined.

(** X6.  [get_session] counts as a touch and [add_message] does not.  A
    session read at a time not before the cutoff is kept by the next
    [cleanup_expired_sessions]; a session whose time stamp is before the
    cutoff is removed by it even when a message was added to it after the
    cutoff, and the message is lost with it. *)
Theorem only_touched_sessions_survive_cleanup :
  forall (settings : Settings) (m : SessionManager) (sid : string) (s : Session)
         (stamp touched max_age_hours now : Z) (role content : string),
    synced m ->
    _sessions m !! sid = Some s ->
    _session_timestamps m !! sid = Some stamp ->
    let cutoff_time := now - SessionStore.hours max_age_hours in
    cutoff_time <= touched ->
    stamp < cutoff_time ->
    (exists m',
        SessionStore.cleanup_expired_sessions
          (SessionStore.get_session m sid touched).1 max_age_hours now
        = (m', Ok tt)
        /\ _sessions m' !! sid = Some s)
    /\ (exists m',
           SessionStore.cleanup_expired_sessions
             (SessionStore.add_message settings m sid role content touched)
             max_age_hours now
           = (m', Ok tt)
           /\ _sessions m' !! sid = None).
Proof.
  intros settings m sid s stamp touched max_age_hours now role content
    Hsync Hs Hstamp cutoff_time Htouched Hold.
  split.
  - pose proof (store_call_synced settings m (CallGet sid touched) Hsync)
      as [Hsync1 _]. simpl in Hsync1.
    destruct (cleanup_expired_sessions_synced _ max_age_hours now Hsync1)
      as (m' & Hrun & _ & _ & Hkept).
    exists m'. split; [exact Hrun |].
    unfold SessionStore.get_session in *. rewrite Hs in *. simpl in *.
    rewrite (proj1 (Hkept sid ltac:(intros t; rewrite lookup_insert_eq;
                                    intros [= <-]; exact Htouched))).
    exact Hs.
  - pose proof (store_call_synced settings m
                  (CallAddMessage sid role content touched) Hsync)
      as [Hsync1 _]. simpl in Hsync1.
    destruct (cleanup_expired_sessions_synced _ max_age_hours now Hsync1)
      as (m' & Hrun & _ & Hgone & _).
    exists m'. split; [exact Hrun |].
    apply (Hgone sid stamp); [| exact Hold].
    unfold SessionStore.add_message. rewrite Hs. simpl. exact Hstamp.
Qed.

Lemma only_touched_sessions_survive_cleanup_witness :
  let m := (SessionStore.create_session SessionStore.init "a" 0).1 in
  let day := SessionStore.hours 24 in
  (exists m',
      SessionStore.cleanup_expired_sessions
        (SessionStore.get_session m "a" day).1 24 (day + 1)
      = (m', Ok tt)
      /\ _sessions m' !! "a" = Some (SessionStore.new_session "a" 0))
  /\ (exists m',
         SessionStore.cleanup_expired_sessions
           (SessionStore.add_message default_settings m "a" "user" "hello" day)
           24 (day + 1)
         = (m', Ok tt)
         /\ _sessions m' !! "a" = None).
Proof.
  intros m day.
  assert (Hsync : synced m)
    by (apply (bool_decide_unpack _); vm_compute; reflexivity).
  apply (only_touched_sessions_survive_cleanup default_settings m "a"
           (SessionStore.new_session "a" 0) 0 day 24 (day + 1) "user" "hello"
           Hsync).
  - vm_compute. reflexivity.
  - vm_compute. reflexivity.
  - vm_compute. discriminate.
  - vm_compute. reflexivity.
Defined.

Lemma trim_zero (settings : Settings) (l : list Message) :
  MAX_MESSAGE_HISTORY settings = 0 -> SessionStore.trim settings l = l.
Proof.
  intros H0. unfold SessionStore.trim, SessionStore.slice_from_minus.
  rewrite H0. destruct (0 <? Z.of_nat (length l)); reflexivity.
Qed.

Lemma trim_negative_singleton (settings : Settings) (x : Message) :
  MAX_MESSAGE_HISTORY settings < 0 -> SessionStore.trim settings [x] = [].
Proof.
  intros Hneg. unfold SessionStore.trim, SessionStore.slice_from_minus.
  destruct (Z.ltb_spec (MAX_MESSAGE_HISTORY settings) (Z.of_nat (length [x])));
    [| simpl in *; lia].
  destruct (Z.ltb_spec 0 (MAX_MESSAGE_HISTORY settings)); [lia |].
  destruct (Z.to_nat (- MAX_MESSAGE_HISTORY settings)) eqn:E; [lia |].
  simpl. apply skipn_nil.
Qed.

(** X7.  The limit is a bound only when it is positive.  With
    [MAX_MESSAGE_HISTORY = 0] the slice [messages[-0:]] is the whole list:
    nothing is ever trimmed and the history is every message appended.
    With a negative limit a session that starts empty never keeps a
    message. *)
Theorem history_limit_zero_or_negative :
  forall (settings : Settings) (new : list (string * string * Z))
         (m : SessionManager) (sid : string) (s : Session),
    _sessions m !! sid = Some s ->
    let stored :=
      SessionStore.history (SessionStore.add_messages settings m sid new) sid in
    (MAX_MESSAGE_HISTORY settings = 0 ->
     stored = Some (messages s ++ map message_of new))
    /\ (MAX_MESSAGE_HISTORY settings < 0 -> messages s = [] ->
        stored = Some []).
Proof.
  intros settings new. induction new as [| x new IH]; intros m sid s Hs stored.
  - unfold stored, SessionStore.history. simpl. rewrite Hs. simpl.
    rewrite app_nil_r. split; [reflexivity |]. intros _ ->. reflexivity.
  - pose proof (add_message_history settings m sid s x.1.1 x.1.2 x.2 Hs) as Hadd.
    specialize (IH _ sid _ Hadd). simpl in IH.
    unfold stored, SessionStore.add_messages. simpl.
    fold (SessionStore.add_messages settings
            (SessionStore.add_message settings m sid x.1.1 x.1.2 x.2) sid new).
    destruct IH as [IH0 IHneg]. split.
    + intros H0. rewrite (IH0 H0), trim_zero by assumption.
      rewrite <- app_assoc. reflexivity.
    + intros Hneg Hnil. apply IHneg; [exact Hneg |].
      rewrite Hnil. simpl. apply trim_negative_singleton. exact Hneg.
Qed.

Lemma history_limit_zero_or_negative_witness :
  let unbounded := mkSettings 30 0 3 650 500000 in
  let m := (SessionStore.create_session SessionStore.init "a" 0).1 in
  let new := [("user", "one", 1); ("assistant", "two", 2); ("user", "three", 3)] in
  SessionStore.history (SessionStore.add_messages unbounded m "a" new) "a"
  = Some (map message_of new).
Proof.
  intros unbounded m new.
  exact (proj1 (history_limit_zero_or_negative unbounded new m "a"
                  (SessionStore.new_session "a" 0) ltac:(vm_compute; reflexivity))
           eq_refl).
Defined.

(** ** The knowledge base: start, stop and the query endpoint *)

(** X8.  [initialize] on a new [RAGSystem] succeeds exactly when the
    embedding model loads, the client opens, and the collection either
    exists or is created and indexed; the documents are indexed only when
    the collection did not exist, so a failing indexer does not matter when
    it does.  The flag [_initialized] is set exactly on success, and after
    [cleanup] a query raises again. *)
Theorem initialize_succeeds_exactly_when :
  forall (w : Rag.Startup)
         (encode : string -> PyResult (list Q))
         (collection_query : list Q -> Z -> PyResult Rag.QueryResults)
         (query_text : string) (top_k : Z),
    let started := Rag.initialize w Rag.init in
    is_ok started.2
    = is_ok (Rag.load_embedder w) && is_ok (Rag.open_client w)
      && (is_ok (Rag.get_collection w)
          || (is_ok (Rag.create_collection w) && is_ok (Rag.index_documents w)))
    /\ Rag._initialized started.1 = is_ok started.2
    /\ (is_ok started.2 = true ->
        Rag.embedder started.1 <> None /\ Rag.chroma_client started.1 <> None
        /\ Rag.collection started.1 <> None)
    /\ Rag.query encode collection_query (Rag.cleanup started.1) query_text top_k
       = Raise (RuntimeError "RAG system not initialized").
Proof.
  intros w encode collection_query query_text top_k started.
  unfold started, Rag.initialize.
  destruct (Rag.load_embedder w), (Rag.open_client w), (Rag.get_collection w),
    (Rag.create_collection w), (Rag.index_documents w);
    simpl; repeat split; discriminate.
Qed.

(** X9.  [POST /api/v1/rag/query] answers 500 before the knowledge base
    is initialised, without the detail "RAG system not initialized" that the
    endpoint puts in its exception: the handler of the exception cannot
    serialise its answer.  In every other case the endpoint answers 200,
    with as many source labels as documents; when the embedding or the
    search fails the answer is still 200, with no document. *)
Theorem rag_endpoint_answers :
  forall (encode : string -> PyResult (list Q))
         (collection_query : list Q -> Z -> PyResult Rag.QueryResults)
         (rag_system : Rag.RAGSystem) (query : string) (top_k : Z),
    let answer :=
      Api.query_knowledge_base encode collection_query rag_system query top_k in
    (Rag._initialized rag_system = false ->
     answer = Api.RagFailure (Api.mkResponse 500 Api.InternalServerError))
    /\ (Rag._initialized rag_system = true ->
        (exists results sources,
            answer = Api.RagResults 200 query results sources
            /\ length results = length sources)
        /\ ((forall e, encode query = Ok e ->
                       is_ok (collection_query e top_k) = false) ->
            answer = Api.RagResults 200 query [] [])).
Proof.
  intros encode collection_query rag_system query top_k answer.
  unfold answer, Api.query_knowledge_base, Rag.query. split.
  - intros ->. reflexivity.
  - intros ->. simpl.
    destruct (encode query) as [e | x] eqn:He.
    + destruct (collection_query e top_k) as [res | x] eqn:Hq.
      * split.
        -- destruct (Rag.first_batch res) as [docs | x]; simpl;
             eexists _, _; (split; [reflexivity |]);
             [rewrite length_map, length_seq |]; reflexivity.
        -- intros H. specialize (H e eq_refl). rewrite Hq in H. discriminate.
      * split; [exists [], [] |]; repeat split.
    + split; [exists [], [] |]; repeat split.
Qed.

(** ** The endpoints and the metrics *)

Lemma process_message_keeps_ids settings llm_invoke sid user_message d now m :
  dom (_sessions (Agent.process_message settings llm_invoke sid user_message
                    d now m).1)
  = dom (_sessions m).
Proof.
  unfold Agent.process_message, bind, lift, modify, raise, of_result.
  unfold SessionStore.get_session.
  destruct (_sessions m !! sid) as [s |] eqn:E; simpl; [| reflexivity].
  unfold SessionStore.add_message. simpl. rewrite E. simpl.
  rewrite lookup_insert_eq. simpl.
  apply (dom_insert_present _ _ _ _ E).
Qed.

(** X10.  A session made by [POST /api/v1/sessions] is found by
    [GET /api/v1/sessions/{id}] with the answer 200, the loan application
    of a new session and the message count 0.  After
    [DELETE /api/v1/sessions/{id}], and for every id the store does not
    hold, the same [GET] makes no session and answers 500, not the 404
    "Session not found" of the exception the endpoint raises: the handler
    of the exception cannot serialise its answer. *)
Theorem session_endpoints_round_trip :
  forall (sv : Api.Server) (sid : string) (created now : Z),
    (Api.get_session sid now (Api.create_session sid created sv).1).2
    = Api.Summary 200 (Api.mkSessionSummary sid fresh_application 0)
    /\ (Api.get_session sid now (Api.delete_session sid sv).1).2
       = Api.NoSummary (Api.mkResponse 500 Api.InternalServerError)
    /\ (_sessions (Api.session_manager sv) !! sid = None ->
        Api.get_session sid now sv
        = (sv, Api.NoSummary (Api.mkResponse 500 Api.InternalServerError))).
Proof.
  intros sv sid created now. split; [| split].
  - unfold Api.get_session, Api.create_session, SessionStore.get_session.
    simpl. rewrite lookup_insert_eq. reflexivity.
  - assert (Hgone : _sessions (Api.session_manager (Api.delete_session sid sv).1)
                    !! sid = None).
    { unfold Api.delete_session, SessionStore.delete_session.
      destruct (_sessions (Api.session_manager sv) !! sid) eqn:E.
      - destruct (_session_timestamps (Api.session_manager sv) !! sid);
          simpl; apply lookup_delete_eq.
      - simpl. exact E. }
    unfold Api.get_session, SessionStore.get_session. rewrite Hgone. reflexivity.
  - intros Hnone. unfold Api.get_session, SessionStore.get_session.
    rewrite Hnone. destruct sv. reflexivity.
Qed.

Lemma size_insert_le (ss : gmap string Session) sid s :
  (size (<[sid := s]> ss) <= S (size ss))%nat.
Proof.
  destruct (ss !! sid) eqn:E.
  - rewrite map_size_insert_Some by eauto. lia.
  - rewrite map_size_insert_None by assumption. lia.
Qed.

Lemma size_delete_le (ss : gmap string Session) sid :
  (size (delete sid ss) <= size ss)%nat.
Proof.
  destruct (ss !! sid) eqn:E.
  - rewrite map_size_delete_Some by eauto. lia.
  - rewrite map_size_delete_None by assumption. lia.
Qed.

Lemma process_message_keeps_size settings llm_invoke sid user_message d now m :
  size (_sessions (Agent.process_message settings llm_invoke sid user_message
                     d now m).1)
  = size (_sessions m).
Proof.
  rewrite <- !size_dom, process_message_keeps_ids. reflexivity.
Qed.

Lemma get_session_keeps_sessions m sid now :
  _sessions (SessionStore.get_session m sid now).1 = _sessions m.
Proof. apply get_session_sessions. Qed.

Lemma answer_chat_counters settings llm_invoke sid request d now elapsed sv :
  let out := Api.answer_chat settings llm_invoke sid request d now elapsed sv in
  size (_sessions (Api.session_manager out.1))
  = size (_sessions (Api.session_manager sv))
  /\ Api.total_sessions (Api.metrics out.1) = Api.total_sessions (Api.metrics sv)
  /\ Api.active_sessions (Api.metrics out.1) = Api.active_sessions (Api.metrics sv)
  /\ Api.total_messages (Api.metrics out.1)
     = Api.total_messages (Api.metrics sv)
       + (if Api.status_code out.2 =? 200 then 1 else 0).
Proof.
  unfold Api.answer_chat.
  pose proof (process_message_keeps_size settings llm_invoke sid
                (Api.request_message request) d now (Api.session_manager sv))
    as Hsize.
  destruct (Agent.process_message settings llm_invoke sid
              (Api.request_message request) d now (Api.session_manager sv))
    as [m [r | e]]; simpl in *; repeat split; try assumption; lia.
Qed.

Lemma serve_counters settings llm_invoke (sv : Api.Server) (r : Api.Request) :
  counters_sound sv -> counters_sound (Api.serve settings llm_invoke sv r).
Proof.
  intros (Hact & Hmsg & Hsize). unfold counters_sound.
  destruct r as [uuid now | sid now | sid | request uuid d now elapsed
                | sid now | sid message d now]; simpl.
  - pose proof (size_insert_le (_sessions (Api.session_manager sv)) uuid
                  (SessionStore.new_session uuid now)). lia.
  - unfold Api.get_session.
    pose proof (get_session_keeps_sessions (Api.session_manager sv) sid now) as Hk.
    destruct (SessionStore.get_session (Api.session_manager sv) sid now)
      as [m [s |]]; simpl in *; rewrite Hk; lia.
  - unfold Api.delete_session, SessionStore.delete_session.
    pose proof (size_delete_le (_sessions (Api.session_manager sv)) sid).
    destruct (_sessions (Api.session_manager sv) !! sid);
      [destruct (_session_timestamps (Api.session_manager sv) !! sid) |];
      simpl; lia.
  - unfold Api.send_message.
    destruct (negb (PyStr.truthy_str (Api.request_session_id request))).
    + simpl.
      destruct (answer_chat_counters settings llm_invoke uuid request d now elapsed
                  {| Api.session_manager :=
                       {| _sessions :=
                            <[uuid := SessionStore.new_session uuid now]>
                              (_sessions (Api.session_manager sv));
                          _session_timestamps :=
                            <[uuid := now]>
                              (_session_timestamps (Api.session_manager sv)) |};
                     Api.metrics := Api.count_session (Api.metrics sv) |})
        as (H1 & H2 & H3 & H4).
      simpl in *. rewrite H1, H2, H3, H4.
      pose proof (size_insert_le (_sessions (Api.session_manager sv)) uuid
                    (SessionStore.new_session uuid now)).
      destruct (Api.status_code _ =? 200); lia.
    + pose proof (get_session_keeps_sessions (Api.session_manager sv)
                    (default "" (Api.request_session_id request)) now) as Hk.
      destruct (SessionStore.get_session (Api.session_manager sv)
                  (default "" (Api.request_session_id request)) now)
        as [m [s |]]; simpl in *.
      * destruct (answer_chat_counters settings llm_invoke
                    (default "" (Api.request_session_id request)) request d now
                    elapsed {| Api.session_manager := m;
                               Api.metrics := Api.metrics sv |})
          as (H1 & H2 & H3 & H4).
        simpl in *. rewrite H1, H2, H3, H4, Hk.
        destruct (Api.status_code _ =? 200); lia.
      * rewrite Hk. lia.
  - unfold Api.websocket_open.
    pose proof (get_session_keeps_sessions (Api.session_manager sv) sid now) as Hk.
    destruct (SessionStore.get_session (Api.session_manager sv) sid now)
      as [m [s |]]; simpl in *; rewrite Hk; [lia |].
    pose proof (size_insert_le (_sessions (Api.session_manager sv)) sid
                  (SessionStore.new_session sid now)). lia.
  - unfold Api.websocket_turn. destruct (Api.blank message); [simpl; lia |].
    unfold Agent.stream_response.
    pose proof (process_message_keeps_size settings llm_invoke sid message d now
                  (Api.session_manager sv)) as Hk.
    destruct (Agent.process_message settings llm_invoke sid message d now
                (Api.session_manager sv)) as [m [res | e]];
      simpl in *; rewrite Hk; lia.
Qed.

(** X11.  After any sequence of requests to a server that has just
    started (session create, get and delete, chat, WebSocket connect and
    message, with any arguments) the counter of active sessions is between 0
    and the counter of all sessions, the counter of messages is not
    negative, and the store holds at most as many sessions as were
    counted. *)
Theorem counters_stay_sound :
  forall (settings : Settings)
         (llm_invoke : list Agent.ChatTurn -> Agent.LlmOutcome)
         (requests : list Api.Request),
    counters_sound
      (fold_left (Api.serve settings llm_invoke) requests
         (Api.mkServer SessionStore.init Api.initial_metrics)).
Proof.
  intros settings llm_invoke requests.
  assert (H0 : counters_sound (Api.mkServer SessionStore.init Api.initial_metrics)).
  { unfold counters_sound. simpl. rewrite map_size_empty. lia. }
  revert H0. generalize (Api.mkServer SessionStore.init Api.initial_metrics).
  induction requests as [| r requests IH]; intros sv Hsv; simpl.
  - exact Hsv.
  - apply IH, serve_counters, Hsv.
Qed.

(** ** The session id of a chat request *)

(** X14.  [POST /api/v1/chat] treats an empty session id as no id: both
    make a session under the new id, which the store holds afterwards, and
    count it in both session counters, whatever becomes of the turn.  For
    an id that is not empty and not in the store no session is made and
    nothing is counted: the server is as it was, and the answer is 500,
    not the 404 "Session not found" of the exception the endpoint raises,
    whose handler cannot serialise its answer. *)
Theorem chat_session_id_handling :
  forall (settings : Settings)
         (llm_invoke : list Agent.ChatTurn -> Agent.LlmOutcome)
         (sv : Api.Server) (message sid uuid : string) (d : Agent.Draws)
         (now : Z) (elapsed : Q),
    let chat := fun id =>
      Api.send_message settings llm_invoke
        {| Api.request_message := message; Api.request_session_id := id |}
        uuid d now elapsed sv in
    chat (Some "") = chat None
    /\ dom (_sessions (Api.session_manager (chat None).1))
       = {[uuid]} ∪ dom (_sessions (Api.session_manager sv))
    /\ Api.total_sessions (Api.metrics (chat None).1)
       = Api.total_sessions (Api.metrics sv) + 1
    /\ Api.active_sessions (Api.metrics (chat None).1)
       = Api.active_sessions (Api.metrics sv) + 1
    /\ (sid <> "" ->
        _sessions (Api.session_manager sv) !! sid = None ->
        chat (Some sid)
        = (sv, Api.mkResponse 500 Api.InternalServerError)).
Proof.
  intros settings llm_invoke sv message sid uuid d now elapsed chat.
  split; [reflexivity |].
  set (request := {| Api.request_message := message;
                     Api.request_session_id := None |}).
  set (sv1 := Api.mkServer
                (SessionStore.create_session (Api.session_manager sv) uuid now).1
                (Api.count_session (Api.metrics sv))).
  assert (Hnew : chat None
                 = Api.answer_chat settings llm_invoke uuid request d now
                     elapsed sv1) by reflexivity.
  destruct (answer_chat_counters settings llm_invoke uuid request d now elapsed
              sv1) as (_ & Htotal & Hactive & _).
  assert (Hdom : dom (_sessions
                        (Api.session_manager
                           (Api.answer_chat settings llm_invoke uuid request d
                              now elapsed sv1).1))
                 = dom (_sessions (Api.session_manager sv1))).
  { unfold Api.answer_chat.
    pose proof (process_message_keeps_ids settings llm_invoke uuid
                  (Api.request_message request) d now (Api.session_manager sv1))
      as Hk.
    destruct (Agent.process_message settings llm_invoke uuid
                (Api.request_message request) d now (Api.session_manager sv1))
      as [m [result | e]]; exact Hk. }
  rewrite Hnew, Hdom, Htotal, Hactive.
  split; [unfold sv1; simpl; apply dom_insert_L |].
  split; [reflexivity |]. split; [reflexivity |].
  intros Hne Hnone. unfold chat, Api.send_message.
  destruct sid as [| c r]; [contradiction |].
  cbn [Api.request_session_id PyStr.truthy_str PyStr.is_empty negb].
  unfold SessionStore.get_session. simpl.
  rewrite Hnone. destruct sv. reflexivity.
Qed.

(** ** The business-logic pass, field by field *)

Lemma extract_name_cases user_message user_lower a :
  Agent.extract_name user_message user_lower a = a
  \/ (PyStr.truthy_str (applicant_name a) = false
      /\ exists name,
          Agent.extract_name user_message user_lower a
          = set_applicant_name (Some name) a).
Proof.
  unfold Agent.extract_name.
  destruct (PyStr.truthy_str (applicant_name a)); simpl; [left; reflexivity |].
  repeat case_step; try (left; reflexivity).
  right. split; [reflexivity | eauto].
Qed.

Lemma extract_amount_cases user_lower a :
  Agent.extract_amount user_lower a = a
  \/ (PyStr.truthy_int (desired_amount a) = false
      /\ exists n,
          0 <= n
          /\ Agent.extract_amount user_lower a = set_desired_amount (Some n) a).
Proof.
  unfold Agent.extract_amount.
  destruct (PyStr.truthy_int (desired_amount a)); simpl; [left; reflexivity |].
  destruct (Agent.search_amount user_lower) as [[digits unit] |] eqn:Hs;
    [| left; reflexivity].
  pose proof (search_amount_digits _ _ _ Hs) as Hn.
  repeat case_step; try (left; reflexivity);
    (right; split; [reflexivity |]; eexists; split; [| reflexivity]; lia).
Qed.

Lemma extract_purpose_cases user_lower a :
  Agent.extract_purpose user_lower a = a
  \/ (PyStr.truthy_str (purpose a) = false
      /\ exists p,
          In p Agent.purposes /\ PyStr.contains p user_lower = true
          /\ Agent.extract_purpose user_lower a
             = set_purpose (Some (PyStr.capitalize p)) a).
Proof.
  unfold Agent.extract_purpose.
  destruct (PyStr.truthy_str (purpose a)); cbn [negb]; [left; reflexivity |].
  destruct (find (fun p => PyStr.contains p user_lower) Agent.purposes)
    as [p |] eqn:Hf; [| left; reflexivity].
  apply find_some in Hf as [Hin Hc].
  right. split; [reflexivity |]. exists p. repeat split; assumption.
Qed.

Lemma keeps_known_refl a : keeps_known a a.
Proof. unfold keeps_known. repeat split; intros; assumption. Qed.

Lemma keeps_known_trans a b c :
  keeps_known a b -> keeps_known b c -> keeps_known a c.
Proof.
  intros (H1 & H2 & H3 & H4 & H5 & H6 & H7) (K1 & K2 & K3 & K4 & K5 & K6 & K7).
  unfold keeps_known. split; [| split; [| split; [| split; [| split; [| split]]]]].
  - intros H. rewrite <- (H1 H). apply K1. rewrite (H1 H). exact H.
  - intros H. rewrite <- (H2 H). apply K2. rewrite (H2 H). exact H.
  - intros H. rewrite <- (H3 H). apply K3. rewrite (H3 H). exact H.
  - congruence.
  - auto.
  - intros H. destruct (H6 H) as (E1 & E2 & E3 & E4).
    destruct K6 as (F1 & F2 & F3 & F4); [congruence |].
    repeat split; congruence.
  - auto.
Qed.

Lemma extract_name_keeps user_message user_lower a :
  keeps_known a (Agent.extract_name user_message user_lower a).
Proof.
  destruct (extract_name_cases user_message user_lower a)
    as [-> | (Hn & name & ->)]; [apply keeps_known_refl |].
  unfold keeps_known. simpl. repeat split; auto. congruence.
Qed.

Lemma extract_amount_keeps user_lower a :
  keeps_known a (Agent.extract_amount user_lower a).
Proof.
  destruct (extract_amount_cases user_lower a)
    as [-> | (Hn & n & _ & ->)]; [apply keeps_known_refl |].
  unfold keeps_known. simpl. repeat split; auto. congruence.
Qed.

Lemma extract_purpose_keeps user_lower a :
  keeps_known a (Agent.extract_purpose user_lower a).
Proof.
  destruct (extract_purpose_cases user_lower a)
    as [-> | (Hn & p & _ & _ & ->)]; [apply keeps_known_refl |].
  unfold keeps_known. simpl. repeat split; auto. congruence.
Qed.

Lemma auto_kyc_keeps a : keeps_known a (Agent.auto_kyc a).
Proof.
  unfold Agent.auto_kyc.
  destruct (PyStr.truthy_str (applicant_name a) && negb (kyc_verified a));
    [| apply keeps_known_refl].
  unfold keeps_known. simpl. repeat split; auto.
Qed.

Lemma auto_credit_check_keeps settings d a :
  keeps_known a (Agent.auto_credit_check settings d a).
Proof.
  unfold Agent.auto_credit_check.
  destruct (desired_amount a) as [amount |] eqn:Ha; [| apply keeps_known_refl].
  destruct (negb (amount =? 0) && kyc_verified a
            && eligibility_eqb (credit_eligibility a) pending) eqn:Hc;
    [| apply keeps_known_refl].
  apply andb_prop in Hc as [_ He].
  assert (Hp : credit_eligibility a = pending)
    by (destruct (credit_eligibility a); [discriminate .. | reflexivity]).
  destruct ((MIN_CREDIT_SCORE settings <=? Agent.credit_score_draw d)
            && (amount <=? MAX_PERSONAL_LOAN settings));
    unfold keeps_known; simpl; repeat split; auto; contradiction.
Qed.

Lemma auto_sanction_keeps user_lower d a :
  keeps_known a (Agent.auto_sanction user_lower d a).1.
Proof.
  unfold Agent.auto_sanction.
  destruct (status_eqb (status a) offer_made
            && existsb (fun w => PyStr.contains w user_lower)
                 Agent.acceptance_words);
    [| apply keeps_known_refl].
  cbn [applicant_name set_status set_sanction_letter_generated].
  destruct (applicant_name a); unfold keeps_known; simpl; repeat split; auto.
Qed.

(** X15.  A business-logic pass never overwrites what the application
    already holds: a name, an amount or a purpose that is set is kept
    whatever the message says, the KYC flag and the letter flag are never
    cleared, an application that was evaluated is not evaluated again (the
    eligibility, the score and the offer stay), and no pass assigns the
    loan term. *)
Theorem business_logic_keeps_known_fields :
  forall (settings : Settings) (user_message : string) (d : Agent.Draws)
         (a : LoanApplication),
    let a' := (Agent.business_logic settings user_message d a).1 in
    (PyStr.truthy_str (applicant_name a) = true ->
     applicant_name a' = applicant_name a)
    /\ (PyStr.truthy_int (desired_amount a) = true ->
        desired_amount a' = desired_amount a)
    /\ (PyStr.truthy_str (purpose a) = true -> purpose a' = purpose a)
    /\ loan_term_months a' = loan_term_months a
    /\ (kyc_verified a = true -> kyc_verified a' = true)
    /\ (credit_eligibility a <> pending ->
        credit_eligibility a' = credit_eligibility a
        /\ credit_score a' = credit_score a
        /\ offered_amount a' = offered_amount a
        /\ offered_interest_rate a' = offered_interest_rate a)
    /\ (sanction_letter_generated a = true ->
        sanction_letter_generated a' = true).
Proof.
  intros settings user_message d a a'.
  change (keeps_known a a'). unfold a', Agent.business_logic.
  eapply keeps_known_trans; [| apply auto_sanction_keeps].
  eapply keeps_known_trans; [| apply auto_credit_check_keeps].
  eapply keeps_known_trans; [| apply auto_kyc_keeps].
  eapply keeps_known_trans; [| apply extract_purpose_keeps].
  eapply keeps_known_trans; [| apply extract_amount_keeps].
  apply extract_name_keeps.
Qed.

(** ** The applications the agent produces, by status *)

Lemma status_shape_set_name settings a name :
  PyStr.truthy_str (applicant_name a) = false ->
  status_shape settings a ->
  status_shape settings (set_applicant_name (Some name) a).
Proof.
  intros Hn (Ht & Ha & Hp & Hs). unfold status_shape. simpl.
  split; [exact Ht | split; [exact Ha | split; [exact Hp |]]].
  destruct (status a); try exact Hs;
    destruct Hs as (Hname & _); congruence.
Qed.

Lemma status_shape_set_amount settings a n :
  PyStr.truthy_int (desired_amount a) = false -> 0 <= n ->
  status_shape settings a ->
  status_shape settings (set_desired_amount (Some n) a).
Proof.
  intros Hn Hpos (Ht & Ha & Hp & Hs). unfold status_shape. simpl.
  split; [exact Ht | split; [| split; [exact Hp |]]].
  { intros k [= <-]. exact Hpos. }
  assert (Hset : forall k, desired_amount a = Some k -> 0 < k -> False).
  { intros k Hk Hlt. rewrite Hk in Hn. simpl in Hn.
    destruct (Z.eqb_spec k 0); [lia | discriminate]. }
  destruct (status a); try exact Hs; exfalso.
  - destruct Hs as (_ & _ & (_ & s & k & o & r & _ & Hk & _ & _ & _ & _ & Hlt & _) & _).
    apply (Hset k Hk). lia.
  - destruct Hs as (_ & _ & (_ & s & k & o & r & _ & Hk & _ & _ & _ & _ & Hlt & _) & _).
    apply (Hset k Hk). lia.
  - destruct Hs as (_ & _ & (_ & _ & _ & s & k & _ & Hk & _ & Hlt & _) & _).
    apply (Hset k Hk). lia.
Qed.

Lemma status_shape_set_purpose settings a p :
  In p Agent.purposes ->
  status_shape settings a ->
  status_shape settings (set_purpose (Some (PyStr.capitalize p)) a).
Proof.
  intros Hin (Ht & Ha & Hp & Hs). unfold status_shape. simpl.
  split; [exact Ht | split; [exact Ha | split; [| exact Hs]]].
  intros q [= <-]. exact (in_map PyStr.capitalize _ _ Hin).
Qed.

Lemma extraction_shape settings user_message a :
  status_shape settings a ->
  status_shape settings
    (Agent.extract_purpose (PyStr.lower user_message)
       (Agent.extract_amount (PyStr.lower user_message)
          (Agent.extract_name user_message (PyStr.lower user_message) a))).
Proof.
  intros Ha.
  assert (H1 : status_shape settings
                 (Agent.extract_name user_message (PyStr.lower user_message) a)).
  { destruct (extract_name_cases user_message (PyStr.lower user_message) a)
      as [-> | (Hn & name & ->)]; [exact Ha |].
    apply status_shape_set_name; assumption. }
  revert H1.
  generalize (Agent.extract_name user_message (PyStr.lower user_message) a).
  intros a1 H1.
  assert (H2 : status_shape settings
                 (Agent.extract_amount (PyStr.lower user_message) a1)).
  { destruct (extract_amount_cases (PyStr.lower user_message) a1)
      as [-> | (Hn & n & Hpos & ->)]; [exact H1 |].
    apply status_shape_set_amount; assumption. }
  revert H2. generalize (Agent.extract_amount (PyStr.lower user_message) a1).
  intros a2 H2.
  destruct (extract_purpose_cases (PyStr.lower user_message) a2)
    as [-> | (Hn & p & Hin & _ & ->)]; [exact H2 |].
  apply status_shape_set_purpose; assumption.
Qed.

Lemma auto_kyc_shape settings a :
  status_shape settings a ->
  status_shape settings (Agent.auto_kyc a)
  /\ (status (Agent.auto_kyc a) = initiated ->
      PyStr.truthy_str (applicant_name (Agent.auto_kyc a)) = false).
Proof.
  intros Hshape. pose proof Hshape as (Ht & Ha & Hp & Hs).
  unfold Agent.auto_kyc.
  destruct (PyStr.truthy_str (applicant_name a)) eqn:Hn; cbn [andb negb].
  - destruct (kyc_verified a) eqn:Hk; cbn [negb].
    + split; [exact Hshape |].
      intros Hi. rewrite Hi in Hs. destruct Hs as (Hk' & _). congruence.
    + split; [| discriminate].
      unfold status_shape.
      cbn [loan_term_months desired_amount purpose status set_status
           set_kyc_verified].
      split; [exact Ht | split; [exact Ha | split; [exact Hp |]]].
      destruct (status a); try (destruct Hs as (_ & Hk' & _); congruence);
        try contradiction.
      destruct Hs as (_ & He & Hl).
      split; [exact Hn | split; [reflexivity | split; [exact He | exact Hl]]].
  - split; [exact Hshape | intros _; exact Hn].
Qed.

Lemma auto_credit_check_settled settings d a :
  Agent.draws_in_range d ->
  status_shape settings a ->
  (status a = initiated -> PyStr.truthy_str (applicant_name a) = false) ->
  settled settings (Agent.auto_credit_check settings d a).
Proof.
  intros (Hscore & Hoffer & Hr1 & Hr2 & _) Hshape Hinit.
  pose proof Hshape as (Ht & Ha & Hp & Hs).
  unfold Agent.auto_credit_check.
  destruct (desired_amount a) as [amount |] eqn:Hamt.
  2: { split; [exact Hshape | split; [exact Hinit |]].
       intros _. rewrite Hamt. reflexivity. }
  destruct (Z.eqb_spec amount 0) as [-> | Hnz]; simpl.
  { split; [exact Hshape | split; [exact Hinit |]].
    intros _. rewrite Hamt. reflexivity. }
  destruct (kyc_verified a) eqn:Hk; simpl.
  2: { split; [exact Hshape | split; [exact Hinit |]].
       intros Hc. rewrite Hc in Hs. destruct Hs as (_ & Hk' & _). congruence. }
  destruct (credit_eligibility a) eqn:He; simpl.
  1, 2: split; [exact Hshape | split; [exact Hinit |]];
    intros Hc; rewrite Hc in Hs;
    destruct Hs as (_ & _ & (He' & _) & _); congruence.
  assert (Hc : status a = credit_check_pending).
  { destruct (status a); try contradiction; try reflexivity.
    - destruct Hs as (Hk' & _). congruence.
    - destruct Hs as (_ & _ & (He' & _) & _). congruence.
    - destruct Hs as (_ & _ & (He' & _) & _). congruence.
    - destruct Hs as (_ & _ & (He' & _) & _). congruence. }
  rewrite Hc in Hs. destruct Hs as (Hname & _ & (_ & Hsc & Hoa & Hor) & Hl).
  assert (Hpos : 0 <= amount) by (apply Ha; first [exact Hamt | reflexivity]).
  destruct (round2_in_range _ Hr1 Hr2) as (k & _ & _ & Hlo & Hhi).
  destruct (Z.leb_spec (MIN_CREDIT_SCORE settings) (Agent.credit_score_draw d));
    [destruct (Z.leb_spec amount (MAX_PERSONAL_LOAN settings)) |]; simpl.
  - split; [| split; discriminate].
    unfold status_shape. simpl.
    split; [exact Ht | split; [| split; [exact Hp |]]].
    { intros n Hn. try rewrite Hamt in Hn. injection Hn as <-. exact Hpos. }
    split; [exact Hname | split; [exact Hk | split; [| exact Hl]]].
    split; [reflexivity |].
    exists (Agent.credit_score_draw d), amount, (Agent.offer_draw d),
      (Agent.round2 (Agent.rate_draw d)).
    simpl. repeat split; try assumption; try reflexivity; lia.
  - split; [| split; discriminate].
    unfold status_shape. simpl.
    split; [exact Ht | split; [| split; [exact Hp |]]].
    { intros n Hn. try rewrite Hamt in Hn. injection Hn as <-. exact Hpos. }
    split; [exact Hname | split; [exact Hk | split; [| exact Hl]]].
    split; [reflexivity |]. simpl.
    split; [exact Hoa | split; [exact Hor |]].
    exists (Agent.credit_score_draw d), amount.
    repeat split; try assumption; try reflexivity; lia.
  - split; [| split; discriminate].
    unfold status_shape. simpl.
    split; [exact Ht | split; [| split; [exact Hp |]]].
    { intros n Hn. try rewrite Hamt in Hn. injection Hn as <-. exact Hpos. }
    split; [exact Hname | split; [exact Hk | split; [| exact Hl]]].
    split; [reflexivity |]. simpl.
    split; [exact Hoa | split; [exact Hor |]].
    exists (Agent.credit_score_draw d), amount.
    repeat split; try assumption; try reflexivity; lia.
Qed.

Lemma auto_sanction_settled settings user_lower d a :
  Agent.draws_in_range d ->
  settled settings a ->
  settled settings (Agent.auto_sanction user_lower d a).1.
Proof.
  intros (_ & _ & _ & _ & Hletter) Hset.
  pose proof Hset as ((Ht & Ha & Hp & Hs) & Hi & Hc).
  unfold Agent.auto_sanction.
  destruct (status_eqb (status a) offer_made
            && existsb (fun w => PyStr.contains w user_lower)
                 Agent.acceptance_words) eqn:Hcond; [| exact Hset].
  apply andb_prop in Hcond as [Hst _]. apply status_eqb_eq in Hst.
  rewrite Hst in Hs. destruct Hs as (Hname & Hk & Hterms & _).
  cbn [applicant_name set_status set_sanction_letter_generated].
  destruct (applicant_name a) as [name |] eqn:Hn; [| discriminate].
  split; [| split; discriminate].
  unfold status_shape. simpl.
  split; [exact Ht | split; [exact Ha | split; [exact Hp |]]].
  rewrite Hn. split; [exact Hname | split; [exact Hk | split; [exact Hterms |]]].
  split; [reflexivity |]. exists name, (Agent.letter_draw d).
  repeat split; [exact Hn | lia | lia].
Qed.

Lemma business_logic_settled settings user_message d a :
  Agent.draws_in_range d ->
  settled settings a ->
  settled settings (Agent.business_logic settings user_message d a).1.
Proof.
  intros Hd (Hshape & _). unfold Agent.business_logic.
  apply auto_sanction_settled; [exact Hd |].
  destruct (auto_kyc_shape settings _
              (extraction_shape settings user_message a Hshape)) as [H1 H2].
  apply auto_credit_check_settled; assumption.
Qed.

Lemma fresh_application_settled settings : settled settings fresh_application.
Proof.
  unfold settled, status_shape, not_evaluated, no_letter. simpl.
  repeat split; discriminate.
Qed.

Lemma produced_settled settings a : produced settings a -> settled settings a.
Proof.
  induction 1 as [| a user_message d _ IH Hd].
  - apply fresh_application_settled.
  - apply business_logic_settled; assumption.
Qed.

(** X16.  Every loan application that business-logic passes produce from
    the one of a new session, on messages whose amount, if any, has at most
    4300 digits (on a longer one [int] raises in the middle of the pass),
    is in one of five shapes, told by its status.
    [initiated]: no name, no KYC, no evaluation.  [credit_check_pending]: a
    name and the KYC but no amount, and no evaluation.  [offer_made]: a
    score of at least [MIN_CREDIT_SCORE], an amount of at most
    [MAX_PERSONAL_LOAN], an offer of the smaller of the amount and a number
    in [300000, 500000], a rate in [10, 12.5], no letter.  [sanctioned]:
    the same offer, the letter flag, and a URL made of the name and a
    number in [1000, 9999].  [rejected]: a score below the minimum or an
    amount above the maximum, and no offer.  The statuses [kyc_pending] and
    [completed] never occur, the loan term is never set, and the purpose is
    one of the seven capitalised words. *)
Theorem produced_applications_by_status :
  forall (settings : Settings) (a : LoanApplication),
    produced_in_limit settings a -> settled settings a.
Proof.
  intros settings a Hp.
  induction Hp as [| a user_message d _ IH Hd _].
  - apply fresh_application_settled.
  - apply business_logic_settled; assumption.
Qed.

Lemma produced_applications_by_status_witness :
  let d := Agent.mkDraws 700 400000 (11 # 1)%Q 1234 in
  let first_pass :=
    (Agent.business_logic default_settings rahul_message d fresh_application).1 in
  let second_pass :=
    (Agent.business_logic default_settings "Yes, I accept" d first_pass).1 in
  settled default_settings second_pass.
Proof.
  intros d first_pass second_pass.
  assert (Hd : Agent.draws_in_range d)
    by (unfold Agent.draws_in_range; simpl; repeat split; (lia || discriminate)).
  apply produced_applications_by_status.
  apply produced_in_limit_pass; [| exact Hd |].
  - apply produced_in_limit_pass; [apply produced_in_limit_fresh | exact Hd |].
    intros digits unit Hs. vm_compute in Hs. injection Hs as <- _.
    simpl. lia.
  - intros digits unit Hs. vm_compute in Hs. discriminate.
Defined.

(** An application that was evaluated has the fields the first five
    steps of a pass look for. *)
Lemma evaluated_fields settings a :
  settled settings a ->
  status a = offer_made \/ status a = sanctioned \/ status a = rejected ->
  PyStr.truthy_str (applicant_name a) = true /\ kyc_verified a = true
  /\ PyStr.truthy_int (desired_amount a) = true
  /\ credit_eligibility a <> pending.
Proof.
  intros ((_ & _ & _ & Hs) & _) Hst.
  assert (Htruthy : forall k, desired_amount a = Some k -> 0 < k ->
                              PyStr.truthy_int (desired_amount a) = true).
  { intros k -> Hk. simpl. destruct (Z.eqb_spec k 0); [lia | reflexivity]. }
  destruct Hst as [Hst | [Hst | Hst]]; rewrite Hst in Hs.
  - destruct Hs as (Hn & Hk & (He & s & k & o & r & _ & Ha & _ & _ & _ & _ & Hlt & _) & _).
    repeat split; try assumption; [apply (Htruthy k Ha); lia | congruence].
  - destruct Hs as (Hn & Hk & (He & s & k & o & r & _ & Ha & _ & _ & _ & _ & Hlt & _) & _).
    repeat split; try assumption; [apply (Htruthy k Ha); lia | congruence].
  - destruct Hs as (Hn & Hk & (He & _ & _ & s & k & _ & Ha & _ & Hlt & _) & _).
    repeat split; try assumption; [apply (Htruthy k Ha); lia | congruence].
Qed.

(** On such an application only the purpose step and the sanction step
    of a pass can do anything. *)
Lemma evaluated_pass settings user_message d a :
  PyStr.truthy_str (applicant_name a) = true -> kyc_verified a = true ->
  PyStr.truthy_int (desired_amount a) = true ->
  credit_eligibility a <> pending ->
  Agent.business_logic settings user_message d a
  = Agent.auto_sanction (PyStr.lower user_message) d
      (Agent.extract_purpose (PyStr.lower user_message) a).
Proof.
  intros Hn Hk Ha He. unfold Agent.business_logic.
  assert (E1 : Agent.extract_name user_message (PyStr.lower user_message) a = a).
  { unfold Agent.extract_name. rewrite Hn. reflexivity. }
  rewrite E1.
  assert (E2 : Agent.extract_amount (PyStr.lower user_message) a = a).
  { unfold Agent.extract_amount. rewrite Ha. reflexivity. }
  rewrite E2.
  set (a1 := Agent.extract_purpose (PyStr.lower user_message) a).
  assert (Hsame : applicant_name a1 = applicant_name a
                  /\ kyc_verified a1 = kyc_verified a
                  /\ desired_amount a1 = desired_amount a
                  /\ credit_eligibility a1 = credit_eligibility a).
  { unfold a1.
    destruct (extract_purpose_cases (PyStr.lower user_message) a)
      as [-> | (_ & p & _ & _ & ->)]; repeat split. }
  destruct Hsame as (S1 & S2 & S3 & S4).
  assert (E3 : Agent.auto_kyc a1 = a1).
  { unfold Agent.auto_kyc. rewrite S1, S2, Hn, Hk. reflexivity. }
  rewrite E3.
  assert (E4 : Agent.auto_credit_check settings d a1 = a1).
  { unfold Agent.auto_credit_check. rewrite S3, S4.
    destruct (desired_amount a) as [k |]; [| reflexivity].
    destruct (credit_eligibility a); try contradiction;
      simpl; rewrite andb_false_r; reflexivity. }
  rewrite E4. reflexivity.
Qed.

(** X17.  [rejected] and [sanctioned] are final for the applications the
    agent produces: a later pass does not raise and changes nothing but,
    at most, the purpose, whatever the message says and whatever numbers
    are drawn; a rejected applicant who asks for a smaller amount is not
    evaluated again. *)
Theorem closed_applications_only_gain_a_purpose :
  forall (settings : Settings) (a : LoanApplication),
    produced settings a ->
    status a = rejected \/ status a = sanctioned ->
    forall (user_message : string) (d : Agent.Draws),
      Agent.business_logic settings user_message d a
      = (Agent.extract_purpose (PyStr.lower user_message) a, None)
      /\ desired_amount (Agent.business_logic settings user_message d a).1
         = desired_amount a
      /\ status (Agent.business_logic settings user_message d a).1 = status a.
Proof.
  intros settings a Hp Hst user_message d.
  pose proof (produced_settled settings a Hp) as Hset.
  destruct (evaluated_fields settings a Hset) as (Hn & Hk & Ha & He).
  { destruct Hst; auto. }
  rewrite (evaluated_pass settings user_message d a Hn Hk Ha He).
  assert (Hsame : status (Agent.extract_purpose (PyStr.lower user_message) a)
                  = status a
                  /\ desired_amount
                       (Agent.extract_purpose (PyStr.lower user_message) a)
                     = desired_amount a).
  { destruct (extract_purpose_cases (PyStr.lower user_message) a)
      as [-> | (_ & p & _ & _ & ->)]; split; reflexivity. }
  destruct Hsame as [S1 S2].
  unfold Agent.auto_sanction. rewrite S1.
  assert (Hno : status_eqb (status a) offer_made = false)
    by (destruct Hst as [-> | ->]; reflexivity).
  rewrite Hno. simpl. rewrite S1, S2. repeat split.
Qed.

Lemma closed_applications_only_gain_a_purpose_witness :
  let d := Agent.mkDraws 600 400000 (11 # 1)%Q 1234 in
  let better := Agent.mkDraws 800 400000 (11 # 1)%Q 1234 in
  let rejected_application :=
    (Agent.business_logic default_settings rahul_message d fresh_application).1 in
  let later :=
    (Agent.business_logic default_settings
       "I need only 50 thousand for my wedding" better rejected_application).1 in
  status rejected_application = rejected
  /\ desired_amount later = Some 200000
  /\ status later = rejected.
Proof.
  intros d better rejected_application later.
  assert (Hd : Agent.draws_in_range d)
    by (unfold Agent.draws_in_range; simpl; repeat split; (lia || discriminate)).
  assert (Hp : produced default_settings rejected_application)
    by (apply produced_pass; [apply produced_fresh | exact Hd]).
  assert (Hr : status rejected_application = rejected)
    by (vm_compute; reflexivity).
  destruct (closed_applications_only_gain_a_purpose default_settings
              rejected_application Hp (or_introl Hr)
              "I need only 50 thousand for my wedding" better)
    as (_ & Ha & Hs).
  split; [exact Hr | split].
  - unfold later. rewrite Ha. vm_compute. reflexivity.
  - unfold later. rewrite Hs. exact Hr.
Defined.

(** X18.  On an application with an offer a pass looks for the words
    "yes", "accept", "agree" and "proceed" anywhere in the lower-cased
    message, inside other words and after a negation as well.  When one
    occurs the application is sanctioned in that pass and the letter is
    filed under the applicant's name with spaces replaced by underscores
    and the number drawn; when none occurs the pass changes nothing but,
    at most, the purpose.  Neither case raises. *)
Theorem acceptance_is_a_substring_test :
  forall (settings : Settings) (a : LoanApplication),
    produced settings a ->
    status a = offer_made ->
    exists name,
      applicant_name a = Some name
      /\ forall (user_message : string) (d : Agent.Draws),
          let user_lower := PyStr.lower user_message in
          let a1 := Agent.extract_purpose user_lower a in
          Agent.business_logic settings user_message d a
          = if existsb (fun w => PyStr.contains w user_lower)
                 Agent.acceptance_words
            then (set_sanction_letter_url
                    (Some (Agent.sanction_letter_url_of name
                             (Agent.letter_draw d)))
                    (set_status sanctioned
                       (set_sanction_letter_generated true a1)),
                  None)
            else (a1, None).
Proof.
  intros settings a Hp Hst.
  pose proof (produced_settled settings a Hp) as Hset.
  destruct (evaluated_fields settings a Hset) as (Hn & Hk & Ha & He);
    [auto |].
  destruct (applicant_name a) as [name |] eqn:Hname; [| discriminate].
  exists name. split; [reflexivity |].
  intros user_message d user_lower a1.
  rewrite (evaluated_pass settings user_message d a); try assumption;
    [| rewrite Hname; exact Hn].
  fold user_lower. fold a1.
  assert (Hsame : status a1 = status a /\ applicant_name a1 = Some name).
  { unfold a1.
    destruct (extract_purpose_cases user_lower a)
      as [-> | (_ & p & _ & _ & ->)]; split; solve [reflexivity | exact Hname]. }
  destruct Hsame as [S1 S2].
  unfold Agent.auto_sanction. rewrite S1, Hst. simpl status_eqb.
  cbn [andb].
  destruct (existsb (fun w => PyStr.contains w user_lower)
              Agent.acceptance_words); [| reflexivity].
  cbn [applicant_name set_status set_sanction_letter_generated].
  rewrite S2. reflexivity.
Qed.

Lemma acceptance_is_a_substring_test_witness :
  let d := Agent.mkDraws 700 400000 (11 # 1)%Q 1234 in
  let offered :=
    (Agent.business_logic default_settings rahul_message d fresh_application).1 in
  let answered :=
    (Agent.business_logic default_settings "No, I do not accept that rate" d
       offered).1 in
  status offered = offer_made
  /\ status answered = sanctioned
  /\ sanction_letter_url answered
     = Some "https://mock-bank.com/sanction_letters/Rahul_Kumar_1234.pdf".
Proof.
  intros d offered answered.
  assert (Hd : Agent.draws_in_range d)
    by (unfold Agent.draws_in_range; simpl; repeat split; (lia || discriminate)).
  assert (Hp : produced default_settings offered)
    by (apply produced_pass; [apply produced_fresh | exact Hd]).
  assert (Ho : status offered = offer_made) by (vm_compute; reflexivity).
  destruct (acceptance_is_a_substring_test default_settings offered Hp Ho)
    as (name & Hname & Hpass).
  assert (name = "Rahul Kumar") as ->
    by (vm_compute in Hname; congruence).
  unfold answered.
  rewrite (Hpass "No, I do not accept that rate" d).
  split; [exact Ho |]. vm_compute. split; reflexivity.
Defined.

(** ** Reading the amount *)

Lemma contains_app_r (needle h1 h2 : string) :
  PyStr.contains needle h2 = true ->
  PyStr.contains needle (h1 ++ h2)%string = true.
Proof.
  intros H. induction h1 as [| c h1 IH]; [exact H |].
  simpl. rewrite IH. apply orb_true_r.
Qed.

Lemma contains_prefix (needle hay : string) :
  String.prefix needle hay = true -> PyStr.contains needle hay = true.
Proof.
  intros H. destruct hay; unfold PyStr.contains; fold PyStr.contains;
    rewrite H; reflexivity.
Qed.

Lemma span_digits_app (s : string) :
  s = ((Agent.span_digits s).1 ++ (Agent.span_digits s).2)%string.
Proof.
  induction s as [| c r IH]; [reflexivity |].
  cbn [Agent.span_digits]. destruct (PyStr.isdigit c); [| reflexivity].
  destruct (Agent.span_digits r) as [ds rest]. simpl in *. subst r.
  reflexivity.
Qed.

Lemma skip_spaces_suffix (needle s : string) :
  PyStr.contains needle (Agent.skip_spaces s) = true ->
  PyStr.contains needle s = true.
Proof.
  induction s as [| c r IH]; [intros H; exact H |].
  cbn [Agent.skip_spaces]. destruct (PyStr.isspace c); [| intros H; exact H].
  intros H. simpl. rewrite (IH H). apply orb_true_r.
Qed.

(** One character of a prefix that is known to match. *)
Ltac prefix_step H :=
  match type of H with
  | String.prefix (String _ _) ?s = true =>
      destruct s as [| ? ?]; [cbn in H; discriminate H |];
      cbn [String.prefix] in H;
      match type of H with
      | (if ascii_dec ?a ?b then _ else _) = true =>
          destruct (ascii_dec a b) as [<- | ?]; [| discriminate H]
      end
  end.

(** The unit that [match_unit] finds is "lakh", "thousand" or "k", never
    "lakhs", and the text it is found in holds a "k" or "thousand". *)
Lemma match_unit_found (s unit : string) :
  Agent.match_unit s = Some unit ->
  (unit = "lakh" \/ unit = "thousand" \/ unit = "k")
  /\ (PyStr.contains "k" s = true \/ PyStr.contains "thousand" s = true).
Proof.
  unfold Agent.match_unit.
  destruct (String.prefix "lakh" s) eqn:H1.
  - intros [= <-]. split; [auto |]. left.
    do 3 prefix_step H1. destruct s; vm_compute; reflexivity.
  - destruct (String.prefix "lakhs" s) eqn:H2.
    { exfalso. do 4 prefix_step H2.
      destruct s; [cbn in H2 | vm_compute in H1]; discriminate. }
    destruct (String.prefix "thousand" s) eqn:H3.
    { intros [= <-]. split; [auto |]. right. apply contains_prefix, H3. }
    destruct (String.prefix "k" s) eqn:H4; [| discriminate].
    intros [= <-]. split; [auto |]. left. apply contains_prefix, H4.
Qed.

Lemma search_amount_found (s digits unit : string) :
  Agent.search_amount s = Some (digits, unit) ->
  (unit = "lakh" \/ unit = "thousand" \/ unit = "k")
  /\ (PyStr.contains "k" s = true \/ PyStr.contains "thousand" s = true).
Proof.
  induction s as [| c r IH].
  - simpl. discriminate.
  - cbn [Agent.search_amount].
    destruct (Agent.match_amount_here (String c r)) as [m |] eqn:Hm.
    + intros [= ->]. unfold Agent.match_amount_here in Hm.
      pose proof (span_digits_app (String c r)) as Happ.
      destruct (Agent.span_digits (String c r)) as [ds rest].
      destruct (PyStr.is_empty ds); [discriminate |].
      destruct (Agent.match_unit (Agent.skip_spaces rest)) as [u |] eqn:Hu;
        [| discriminate].
      injection Hm as <- <-.
      destruct (match_unit_found _ _ Hu) as [Hunit Hin].
      split; [exact Hunit |]. rewrite Happ. simpl fst. simpl snd.
      destruct Hin as [Hin | Hin]; [left | right];
        apply contains_app_r, skip_spaces_suffix, Hin.
    + intros H. destruct (IH H) as [Hunit Hin]. split; [exact Hunit |].
      unfold PyStr.contains; fold PyStr.contains.
      destruct Hin as [-> | ->]; [left | right]; apply orb_true_r.
Qed.

(** X19.  The amount is read only from digits followed by a unit: a
    message whose lower-cased text holds no "k" and no "thousand" (so no
    "lakh" either) never sets the amount, however many digits it holds.
    An amount that is set is a number of lakhs times 100000 or a number of
    thousands times 1000, never negative, and it is set only while the
    application has none. *)
Theorem amount_needs_a_unit :
  forall (user_lower : string) (a : LoanApplication),
    let a' := Agent.extract_amount user_lower a in
    (PyStr.contains "k" user_lower = false ->
     PyStr.contains "thousand" user_lower = false -> a' = a)
    /\ (PyStr.truthy_int (desired_amount a) = true -> a' = a)
    /\ (a' = a
        \/ exists num,
            0 <= num
            /\ (a' = set_desired_amount (Some (num * 100000)) a
                \/ a' = set_desired_amount (Some (num * 1000)) a)).
Proof.
  intros user_lower a a'. unfold a', Agent.extract_amount.
  destruct (PyStr.truthy_int (desired_amount a)); cbn [negb];
    [repeat split; auto |].
  destruct (Agent.search_amount user_lower) as [[digits unit] |] eqn:Hs;
    [| repeat split; auto].
  pose proof (search_amount_digits _ _ _ Hs) as Hn.
  destruct (search_amount_found _ _ _ Hs) as [Hunit Hin].
  split; [| split; [discriminate |]].
  - intros Hk Ht. destruct Hin as [Hin | Hin]; congruence.
  - right. exists (PyStr.int digits). split; [exact Hn |].
    destruct Hunit as [-> | [-> | ->]]; [left | right | right]; reflexivity.
Qed.

(** ** The turns shown to the model *)

Lemma flat_map_chat_turn_length (l : list Message) :
  (length (flat_map Agent.chat_turn_of l) <= length l)%nat.
Proof.
  induction l as [| msg l IH]; [simpl; lia |].
  cbn [flat_map]. rewrite length_app. unfold Agent.chat_turn_of at 1.
  destruct (String.eqb (role msg) "user");
    [| destruct (String.eqb (role msg) "assistant")]; simpl; lia.
Qed.

Lemma skipn_In {A} (n : nat) (l : list A) (x : A) :
  In x (skipn n l) -> In x l.
Proof.
  intros H. rewrite <- (firstn_skipn n l). apply in_or_app. right. exact H.
Qed.

(** X20.  [_build_messages] puts the system prompt first and after it
    only turns of the ten most recent messages of the history, a human turn
    for a message of role "user" and an AI turn for one of role
    "assistant", in order: at most eleven turns whatever the length of the
    history.  Its argument [user_message] is not used. *)
Theorem build_messages_window :
  forall (session : Session) (system_prompt user_message other : string),
    let turns := Agent._build_messages session system_prompt user_message in
    hd_error turns = Some (Agent.SystemMessage system_prompt)
    /\ (length turns <= 11)%nat
    /\ tl turns
       = flat_map Agent.chat_turn_of (most_recent 10 (messages session))
    /\ (forall t,
           In t (tl turns) ->
           exists msg,
             In msg (messages session)
             /\ ((role msg = "user" /\ t = Agent.HumanMessage (content msg))
                 \/ (role msg = "assistant"
                     /\ t = Agent.AIMessage (content msg))))
    /\ Agent._build_messages session system_prompt other = turns.
Proof.
  intros session system_prompt user_message other turns.
  unfold turns, Agent._build_messages. cbn [hd_error tl length].
  rewrite (slice_from_minus_most_recent 10 (messages session)) by lia.
  change (Z.to_nat 10) with 10%nat.
  split; [reflexivity | split; [| split; [reflexivity | split; [| reflexivity]]]].
  - pose proof (flat_map_chat_turn_length (most_recent 10 (messages session))).
    rewrite most_recent_length in H. lia.
  - intros t Hin. apply in_flat_map in Hin as (msg & Hmsg & Ht).
    exists msg. split; [exact (skipn_In _ _ _ Hmsg) |].
    unfold Agent.chat_turn_of in Ht.
    destruct (String.eqb_spec (role msg) "user") as [Hu | _].
    + left. destruct Ht as [<- | []]. split; [exact Hu | reflexivity].
    + destruct (String.eqb_spec (role msg) "assistant") as [Hr | _];
        [| destruct Ht].
      right. destruct Ht as [<- | []]. split; [exact Hr | reflexivity].
Qed.

(** ** The command-line prototype: router, greeting and tools *)

Lemma router_step (st : Cli.State) :
  Cli.messages st <> [] ->
  Cli.decide_next_step st
  = (Cli.with_application
       (Cli.set_status (next_status (Cli.current_loan_application st))) st,
     Ok (match Cli.status (Cli.current_loan_application st) with
         | sanctioned => Cli.end_process
         | _ => Cli.conversational_agent
         end)).
Proof.
  intros Hne. destruct (last_is_Some _ Hne) as [x Hx].
  unfold Cli.decide_next_step. rewrite Hx.
  destruct st as [msgs app route info].
  destruct app as [name amount term purp kyc score elig offered rate letter s].
  unfold next_status, Cli.with_application, Cli.set_status. simpl.
  destruct s; simpl; try reflexivity.
  - destruct (PyStr.truthy_str name), (PyStr.truthy_int amount),
      (PyStr.truthy_str purp); reflexivity.
  - destruct kyc; reflexivity.
  - destruct elig as [[| |] |]; reflexivity.
Qed.

Lemma next_status_settles (a : Cli.LoanApplication) :
  let f := fun b => Cli.set_status (next_status b) b in
  f (f (f (f a))) = f (f (f a)).
Proof.
  destruct a as [name amount term purp kyc score elig offered rate letter s].
  unfold next_status, Cli.set_status. simpl.
  destruct s; simpl; try reflexivity;
    destruct (PyStr.truthy_str name && PyStr.truthy_int amount
              && PyStr.truthy_str purp);
    simpl; try reflexivity;
    destruct kyc; simpl; try reflexivity;
    destruct elig as [[| |] |]; reflexivity.
Qed.

(** X21.  With a message in the history [decide_next_step] does not
    raise, and it returns "end_process" exactly when the status is
    [sanctioned].  It changes nothing of the state but the status, which
    it leaves or moves one place forward along [initiated], [kyc_pending],
    [credit_check_pending], [offer_made]: it never sets [sanctioned],
    [rejected] or [completed], and an applicant who is not eligible stays
    in [credit_check_pending].  With no tool call in between, a fourth
    call changes nothing any more. *)
Theorem router_moves_one_step :
  forall (st : Cli.State),
    Cli.messages st <> [] ->
    let step := fun s => (Cli.decide_next_step s).1 in
    let before := Cli.status (Cli.current_loan_application st) in
    let after := Cli.status (Cli.current_loan_application (step st)) in
    (exists route,
        (Cli.decide_next_step st).2 = Ok route
        /\ (route = Cli.end_process <-> before = sanctioned))
    /\ step st = Cli.with_application (Cli.set_status after) st
    /\ (after = before
        \/ (before = initiated /\ after = kyc_pending)
        \/ (before = kyc_pending /\ after = credit_check_pending)
        \/ (before = credit_check_pending /\ after = offer_made))
    /\ (before = credit_check_pending ->
        Cli.credit_eligibility (Cli.current_loan_application st)
        <> Some eligible ->
        after = credit_check_pending)
    /\ step (step (step (step st))) = step (step (step st)).
Proof.
  intros st Hne step before after.
  assert (Hstep : forall s,
             Cli.messages s <> [] ->
             step s
             = Cli.with_application
                 (Cli.set_status (next_status (Cli.current_loan_application s)))
                 s
             /\ Cli.messages (step s) <> []).
  { intros s Hs. unfold step. rewrite (router_step s Hs). split; [reflexivity |].
    exact Hs. }
  assert (Hafter : after = next_status (Cli.current_loan_application st)).
  { unfold after. rewrite (proj1 (Hstep st Hne)). reflexivity. }
  split; [| split; [| split; [| split]]].
  - rewrite (router_step st Hne). eexists. split; [reflexivity |].
    fold before. destruct before; split; congruence.
  - rewrite Hafter. apply Hstep, Hne.
  - rewrite Hafter. unfold before, next_status.
    destruct (Cli.status (Cli.current_loan_application st)); auto.
    + destruct (_ && _); auto.
    + destruct (Cli.kyc_verified _); auto 6.
    + destruct (Cli.credit_eligibility _) as [[| |] |]; auto 6.
  - rewrite Hafter. unfold before, next_status. intros -> Hn.
    destruct (Cli.credit_eligibility _) as [[| |] |]; congruence.
  - destruct (Hstep st Hne) as [E1 N1].
    destruct (Hstep _ N1) as [E2 N2].
    destruct (Hstep _ N2) as [E3 N3].
    destruct (Hstep _ N3) as [E4 _].
    rewrite E4, E3, E2, E1.
    pose proof (next_status_settles (Cli.current_loan_application st)) as Hfix.
    destruct st as [msgs app route info].
    unfold Cli.with_application in *. simpl in *. f_equal. exact Hfix.
Qed.

Lemma router_moves_one_step_witness :
  let st :=
    Cli.append_message (Cli.HumanMessage "I am Rahul")
      (Cli.with_application
         (fun a => Cli.set_purpose (Some "car")
                     (Cli.set_desired_amount (Some 200000)
                        (Cli.set_applicant_name (Some "Rahul") a)))
         Cli.new_state) in
  (Cli.decide_next_step st).2 = Ok Cli.conversational_agent
  /\ Cli.status (Cli.current_loan_application (Cli.decide_next_step st).1)
     = kyc_pending.
Proof.
  intros st.
  assert (Hne : Cli.messages st <> []) by (simpl; discriminate).
  destruct (router_moves_one_step st Hne) as ((route & Hr & _) & _).
  split; [| vm_compute; reflexivity].
  rewrite Hr. vm_compute in Hr. congruence.
Defined.

(** X22.  [initial_greeting] greets only a state without history, with
    the text the service uses as its greeting; on any other state, and so
    when applied twice, it does nothing.  After it the history is not
    empty, so the router that follows it in the graph does not raise
    [IndexError]. *)
Theorem greeting_makes_router_safe :
  forall (st : Cli.State),
    let greeted := Cli.initial_greeting st in
    (Cli.messages st = [] ->
     greeted
     = Cli.append_message (Cli.AIMessage Agent.get_initial_greeting []) st)
    /\ (Cli.messages st <> [] -> greeted = st)
    /\ Cli.initial_greeting greeted = greeted
    /\ Cli.current_loan_application greeted = Cli.current_loan_application st
    /\ is_ok (Cli.decide_next_step greeted).2 = true
    /\ is_ok (Cli.decide_next_step Cli.new_state).2 = false.
Proof.
  intros st greeted. unfold greeted, Cli.initial_greeting.
  destruct (Cli.messages st) as [| msg msgs] eqn:E.
  - split; [reflexivity |]. split; [intros H; contradiction |].
    simpl. rewrite E. simpl. repeat split.
    rewrite (router_step (Cli.append_message _ st)); [reflexivity |].
    simpl. rewrite E. discriminate.
  - split; [discriminate |]. split; [reflexivity |]. rewrite E.
    repeat split.
    rewrite (router_step st); [reflexivity |]. rewrite E. discriminate.
Qed.

(** ** The tools of the prototype *)



Lemma update_application json st n a t p :
  Cli.current_loan_application
    (Cli.update_loan_application_details json st n a t p)
  = Cli.set_purpose
      (if PyStr.truthy_str p then p
       else Cli.purpose (Cli.current_loan_application st))
      (Cli.set_loan_term_months
         (if PyStr.truthy_int t then t
          else Cli.loan_term_months (Cli.current_loan_application st))
         (Cli.set_desired_amount
            (if PyStr.truthy_int a then a
             else Cli.desired_amount (Cli.current_loan_application st))
            (Cli.set_applicant_name
               (if PyStr.truthy_str n then n
                else Cli.applicant_name (Cli.current_loan_application st))
               (Cli.current_loan_application st)))).
Proof.
  destruct st as [msgs app route info].
  destruct app as [name amount term purp kyc score elig offered rate letter s].
  unfold Cli.update_loan_application_details.
  destruct (PyStr.truthy_str n), (PyStr.truthy_int a), (PyStr.truthy_int t),
    (PyStr.truthy_str p); reflexivity.
Qed.

Lemma cli_application_ext (a b : Cli.LoanApplication) :
  Cli.applicant_name a = Cli.applicant_name b ->
  Cli.desired_amount a = Cli.desired_amount b ->
  Cli.loan_term_months a = Cli.loan_term_months b ->
  Cli.purpose a = Cli.purpose b ->
  Cli.kyc_verified a = Cli.kyc_verified b ->
  Cli.credit_score a = Cli.credit_score b ->
  Cli.credit_eligibility a = Cli.credit_eligibility b ->
  Cli.offered_amount a = Cli.offered_amount b ->
  Cli.offered_interest_rate a = Cli.offered_interest_rate b ->
  Cli.sanction_letter_generated a = Cli.sanction_letter_generated b ->
  Cli.status a = Cli.status b ->
  a = b.
Proof. destruct a, b. simpl. intros. subst. reflexivity. Qed.

Lemma later_truthy {A} (truthy : option A -> bool) (x y z : option A) :
  (if truthy z then z else if truthy y then y else x)
  = (if truthy (if truthy z then z else y)
     then (if truthy z then z else y) else x).
Proof.
  destruct (truthy z) eqn:Z; [rewrite Z; reflexivity |].
  destruct (truthy y) eqn:Y; reflexivity.
Qed.

(** X24.  [update_loan_application_details] assigns only the arguments
    that are truthy: [None], the empty string and 0 leave the field as it
    is, so the tool cannot clear a field, and a call with no truthy
    argument leaves the application as it was.  Two calls give the
    application of one call with, for each field, the later truthy
    argument; each call appends one message, and the tool touches no field
    but the four. *)
Theorem update_tool_composes :
  forall (json : Cli.LoanApplication -> string) (st : Cli.State)
         (n1 n2 : option string) (a1 a2 t1 t2 : option Z)
         (p1 p2 : option string),
    let update := Cli.update_loan_application_details json in
    let later_str := fun (x y : option string) =>
      if PyStr.truthy_str y then y else x in
    let later_int := fun (x y : option Z) =>
      if PyStr.truthy_int y then y else x in
    let app := Cli.current_loan_application st in
    let app1 := Cli.current_loan_application (update st n1 a1 t1 p1) in
    app1
    = Cli.set_purpose (later_str (Cli.purpose app) p1)
        (Cli.set_loan_term_months (later_int (Cli.loan_term_months app) t1)
           (Cli.set_desired_amount (later_int (Cli.desired_amount app) a1)
              (Cli.set_applicant_name (later_str (Cli.applicant_name app) n1)
                 app)))
    /\ Cli.current_loan_application
         (update (update st n1 a1 t1 p1) n2 a2 t2 p2)
       = Cli.current_loan_application
           (update st (later_str n1 n2) (later_int a1 a2) (later_int t1 t2)
              (later_str p1 p2))
    /\ Cli.messages (update st n1 a1 t1 p1)
       = Cli.messages st
         ++ [Cli.SystemMessage ("Updated loan application: " ++ json app1)%string]
    /\ Cli.extracted_info (update st n1 a1 t1 p1) = Cli.extracted_info st
    /\ (PyStr.truthy_str n1 = false -> PyStr.truthy_int a1 = false ->
        PyStr.truthy_int t1 = false -> PyStr.truthy_str p1 = false ->
        app1 = app).
Proof.
  intros json st n1 n2 a1 a2 t1 t2 p1 p2 update later_str later_int app app1.
  unfold app1, app, update, later_str, later_int.
  split; [apply update_application | split; [| split; [| split]]].
  - rewrite !update_application. apply cli_application_ext;
      cbn [Cli.applicant_name Cli.desired_amount Cli.loan_term_months
           Cli.purpose Cli.kyc_verified Cli.credit_score
           Cli.credit_eligibility Cli.offered_amount
           Cli.offered_interest_rate Cli.sanction_letter_generated Cli.status
           Cli.set_applicant_name Cli.set_desired_amount
           Cli.set_loan_term_months Cli.set_purpose];
      first [reflexivity | apply later_truthy].
  - unfold Cli.update_loan_application_details.
    destruct (PyStr.truthy_str n1), (PyStr.truthy_int a1),
      (PyStr.truthy_int t1), (PyStr.truthy_str p1); reflexivity.
  - unfold Cli.update_loan_application_details.
    destruct (PyStr.truthy_str n1), (PyStr.truthy_int a1),
      (PyStr.truthy_int t1), (PyStr.truthy_str p1); reflexivity.
  - intros Hn Ha Ht Hp. rewrite update_application, Hn, Ha, Ht, Hp.
    destruct (Cli.current_loan_application st). reflexivity.
Qed.

(** X25.  [retrieve_context] with no query, or an empty one, searches for
    the content of the last message of the history, whoever wrote it; with
    no query and no history it answers with a fixed sentence and calls
    neither the embedder nor the collection.  When it returns, the state
    is as it was except that, when documents were found, "rag_context"
    holds the returned text; when the embedder or the collection raises,
    the tool raises and the state is as it was, where [RAGSystem.query] of
    the service returns an empty answer. *)
Theorem retrieval_tool_outcomes :
  forall (encode : string -> PyResult (list Q))
         (collection_query : list Q -> Z -> PyResult Rag.QueryResults)
         (st : Cli.State) (query : option string) (top_k : Z),
    let retrieve := Cli.retrieve_context encode collection_query in
    let out := retrieve st query top_k in
    (PyStr.truthy_str query = false ->
     (Cli.messages st = [] -> out = (st, Ok Cli.no_query_answer))
     /\ (forall last_msg,
            last (Cli.messages st) = Some last_msg ->
            Cli.content_of last_msg <> "" ->
            out = retrieve st (Some (Cli.content_of last_msg)) top_k))
    /\ (forall text,
           out.2 = Ok text ->
           (out.1 = st
            /\ (text = Cli.no_query_answer \/ text = Cli.nothing_found_answer))
           \/ out.1
              = Cli.mkState (Cli.messages st) (Cli.current_loan_application st)
                  (Cli.route st)
                  (<["rag_context" := text]> (Cli.extracted_info st)))
    /\ (is_ok out.2 = false -> out.1 = st)
    /\ (forall q,
           query = Some q -> q <> "" ->
           (is_ok (encode q) = false
            \/ forall e, encode q = Ok e ->
                         is_ok (collection_query e top_k) = false) ->
           is_ok out.2 = false
           /\ Rag.query encode collection_query
                (Rag.mkRAGSystem None None None true) q top_k
              = Ok Rag.empty_answer).
Proof.
  intros encode collection_query st query top_k retrieve out.
  unfold out, retrieve, Cli.retrieve_context.
  split; [| split; [| split]].
  - intros Hq. rewrite Hq. split.
    + intros Hm. rewrite Hm. reflexivity.
    + intros last_msg Hl Hc. rewrite Hl.
      destruct (Cli.content_of last_msg) as [| c r] eqn:E; [contradiction |].
      reflexivity.
  - intros text.
    destruct (PyStr.is_empty _);
      [simpl; intros [= <-]; left; split; [reflexivity | left; reflexivity] |].
    destruct (encode _) as [e | x]; [| discriminate].
    destruct (collection_query e top_k) as [res | x]; [| discriminate].
    destruct (Cli.first_documents res) as [[| doc docs] | x]; [| | discriminate].
    + simpl. intros [= <-]. left. split; [reflexivity | right; reflexivity].
    + cbn [fst snd]. intros [= <-]. right. reflexivity.
  - destruct (PyStr.is_empty _); [discriminate |].
    destruct (encode _) as [e | x]; [| reflexivity].
    destruct (collection_query e top_k) as [res | x]; [| reflexivity].
    destruct (Cli.first_documents res) as [[| doc docs] | x];
      [discriminate | discriminate | reflexivity].
  - intros q -> Hne Hfail.
    destruct q as [| c r]; [contradiction |].
    unfold Rag.query. cbn [PyStr.truthy_str PyStr.is_empty negb
                           Rag._initialized].
    change (default "" (Some (String c r))) with (String c r).
    cbn [PyStr.is_empty].
    destruct (encode (String c r)) as [e | x] eqn:He.
    + destruct Hfail as [Hfail | Hfail]; [discriminate |].
      specialize (Hfail e eq_refl).
      destruct (collection_query e top_k) as [res | x]; [discriminate |].
      split; reflexivity.
    + split; reflexivity.
Qed.

(** X26.  The tools in the order the prompt asks for: on a new state,
    greeted, [update_loan_application_details] with a name and an amount
    between 1 and 500000, [verify_kyc], [evaluate_creditworthiness] with a
    score of at least 650 and [generate_loan_sanction_letter] leave the
    application sanctioned, with the offer the smaller of the amount and
    the number drawn, the rate rounded to hundredths, and the URL stored;
    none raises, the history holds the greeting and one message per tool,
    and the router, which goes on after the evaluation, ends the process
    after the letter. *)
Theorem tools_in_order_end_the_process :
  forall (json : Cli.LoanApplication -> string) (name : string)
         (purpose : option string) (amount : Z) (d d' : Cli.Draws),
    name <> "" ->
    0 < amount <= 500000 ->
    650 <= Cli.credit_score_draw d ->
    300000 <= Cli.offer_draw d ->
    let st1 :=
      Cli.update_loan_application_details json
        (Cli.initial_greeting Cli.new_state)
        (Some name) (Some amount) None purpose in
    let st2 := Cli.verify_kyc st1 name in
    let st3 := Cli.evaluate_creditworthiness st2 amount d in
    let out := Cli.generate_loan_sanction_letter st3 d' in
    Cli.decide_next_step st3 = (st3, Ok Cli.conversational_agent)
    /\ out.2 = None
    /\ Cli.decide_next_step out.1 = (out.1, Ok Cli.end_process)
    /\ Cli.current_loan_application out.1
       = {| Cli.applicant_name := Some name;
            Cli.desired_amount := Some amount;
            Cli.loan_term_months := None;
            Cli.purpose := if PyStr.truthy_str purpose then purpose else None;
            Cli.kyc_verified := true;
            Cli.credit_score := Some (Cli.credit_score_draw d);
            Cli.credit_eligibility := Some eligible;
            Cli.offered_amount := Some (Z.min amount (Cli.offer_draw d));
            Cli.offered_interest_rate :=
              Some (Agent.round2 (Cli.rate_draw d));
            Cli.sanction_letter_generated := true;
            Cli.status := sanctioned |}
    /\ length (Cli.messages out.1) = 5%nat
    /\ Cli.extracted_info out.1
       = {["sanction_letter_url" :=
             Agent.sanction_letter_url_of name (Cli.letter_draw d')]}.
Proof.
  intros json name purpose amount d d' Hname Hamount Hscore Hoffer
    st1 st2 st3 out.
  assert (Hn : PyStr.truthy_str (Some name) = true)
    by (destruct name; [contradiction | reflexivity]).
  assert (Ha : PyStr.truthy_int (Some amount) = true)
    by (simpl; destruct (Z.eqb_spec amount 0); [lia | reflexivity]).
  assert (Hc : (650 <=? Cli.credit_score_draw d) && (amount <=? 500000) = true).
  { destruct (Z.leb_spec 650 (Cli.credit_score_draw d)); [| lia].
    destruct (Z.leb_spec amount 500000); [reflexivity | lia]. }
  assert (Hp : negb (Z.min amount (Cli.offer_draw d) =? 0)
               && negb (Z.min amount (Cli.offer_draw d) <=? 0) = true).
  { destruct (Z.eqb_spec (Z.min amount (Cli.offer_draw d)) 0); [lia |].
    destruct (Z.leb_spec (Z.min amount (Cli.offer_draw d)) 0); [lia |].
    reflexivity. }
  set (greeted := Cli.AIMessage Cli.greeting []).
  set (updated := fun a =>
         Cli.SystemMessage ("Updated loan application: " ++ json a)%string).
  set (verified :=
         Cli.SystemMessage ("KYC for " ++ name ++ " successfully verified.")%string).
  set (passed :=
         Cli.SystemMessage
           ("Credit check passed. Score: "
            ++ PyStr.str_of_Z (Cli.credit_score_draw d) ++ ". Offer made.")%string).
  set (purp := if PyStr.truthy_str purpose then purpose else None).
  set (app1 := Cli.mkLoanApplication (Some name) (Some amount) None purp false
                 None (Some pending) None None false initiated).
  assert (E1 : st1 = Cli.mkState [greeted; updated app1] app1 "" ∅).
  { unfold st1, Cli.update_loan_application_details. rewrite Hn, Ha.
    unfold app1, purp. destruct (PyStr.truthy_str purpose); reflexivity. }
  set (app3 := Cli.mkLoanApplication (Some name) (Some amount) None purp true
                 (Some (Cli.credit_score_draw d)) (Some eligible)
                 (Some (Z.min amount (Cli.offer_draw d)))
                 (Some (Agent.round2 (Cli.rate_draw d))) false offer_made).
  assert (E3 : st3
               = Cli.mkState [greeted; updated app1; verified; passed] app3
                   "" ∅).
  { unfold st3, st2, Cli.evaluate_creditworthiness. rewrite Hc, E1.
    reflexivity. }
  assert (Eout : out
                 = (Cli.mkState
                      [greeted; updated app1; verified; passed;
                       Cli.SystemMessage
                         ("Loan sanction letter generated and sent. Access it at: "
                          ++ Agent.sanction_letter_url_of name
                               (Cli.letter_draw d'))%string]
                      (Cli.set_status sanctioned
                         (Cli.set_sanction_letter_generated true app3))
                      ""
                      {["sanction_letter_url" :=
                          Agent.sanction_letter_url_of name
                            (Cli.letter_draw d')]},
                    None)).
  { unfold out, Cli.generate_loan_sanction_letter. rewrite E3.
    unfold Cli.positive_offer.
    cbn [Cli.current_loan_application Cli.offered_amount app3].
    rewrite Hp. reflexivity. }
  rewrite Eout, E3. repeat split.
Qed.

Lemma tools_in_order_end_the_process_witness :
  let json := fun _ : Cli.LoanApplication => "{}" in
  let d := Cli.mkDraws 700 400000 (11 # 1)%Q 1234 in
  let st3 :=
    Cli.evaluate_creditworthiness
      (Cli.verify_kyc
         (Cli.update_loan_application_details json
            (Cli.initial_greeting Cli.new_state)
            (Some "Rahul Kumar") (Some 200000) None (Some "car"))
         "Rahul Kumar")
      200000 d in
  let out := Cli.generate_loan_sanction_letter st3 d in
  out.2 = None
  /\ Cli.decide_next_step out.1 = (out.1, Ok Cli.end_process).
Proof.
  intros json d st3 out.
  destruct (tools_in_order_end_the_process json "Rahul Kumar" (Some "car")
              200000 d d ltac:(discriminate) ltac:(lia) ltac:(simpl; lia)
              ltac:(simpl; lia))
    as (_ & Hok & Hend & _).
  split; [exact Hok | exact Hend].
Defined.

(** ** Indexing the documents *)

Lemma to_little_uint_not_Nil (n : nat) (acc : Decimal.uint) :
  acc <> Decimal.Nil -> Nat.to_little_uint n acc <> Decimal.Nil.
Proof.
  revert acc. induction n as [| n IH]; intros acc Hacc; [exact Hacc |].
  simpl. apply IH. destruct acc; simpl; discriminate.
Qed.

(** [str(i)] tells the numbers apart. *)
Lemma str_of_nat_inj (i j : nat) :
  PyStr.str_of_nat i = PyStr.str_of_nat j -> i = j.
Proof.
  unfold PyStr.str_of_nat. intros H.
  assert (Hnn : forall n, Nat.to_uint n <> Decimal.Nil).
  { intros n Hn. unfold Nat.to_uint in Hn.
    apply DecimalFacts.rev_nil_inv in Hn.
    exact (to_little_uint_not_Nil n Decimal.zero ltac:(discriminate) Hn). }
  apply DecimalNat.Unsigned.to_uint_inj.
  pose proof (NilZero.usu _ (Hnn i)) as Hi.
  pose proof (NilZero.usu _ (Hnn j)) as Hj.
  rewrite H in Hi. congruence.
Qed.

Lemma index_ids_well_formed (data : list string) (embeddings : list (list Q)) :
  well_formed_add
    {| Rag.add_documents := data; Rag.add_embeddings := embeddings;
       Rag.add_ids :=
         map (fun i => ("loan_product_" ++ PyStr.str_of_nat i)%string)
           (seq 0 (length data));
       Rag.add_metadatas :=
         repeat ({["source" := "internal_loan_data"]} : gmap string string)
           (length data) |}.
Proof.
  unfold well_formed_add. cbn [Rag.add_ids Rag.add_documents Rag.add_metadatas].
  split; [rewrite length_map, length_seq; reflexivity |].
  split; [apply repeat_length |]. split.
  - apply NoDup_fmap_2; [| apply NoDup_seq].
    intros i j Hij. apply str_of_nat_inj.
    exact (String.app_inj "loan_product_" _ _ Hij).
  - intros i Hi. rewrite list_lookup_fmap, lookup_seq_lt by exact Hi.
    reflexivity.
Qed.

(** X27.  Whatever the documents, whenever the indexing of the service or
    of the prototype gets as far as [collection.add], it passes as many ids
    and metadata as documents, the id at position [i] is "loan_product_i",
    and no two ids are the same; it raises exactly when the embedder or
    the collection does, and with a failing embedder the collection is not
    called. *)
Theorem index_ids_are_distinct :
  forall (encode_all : list string -> PyResult (list (list Q)))
         (collection_add : Rag.AddCall -> PyResult unit)
         (data : list string),
    Rag._index_documents encode_all collection_add data
    = Cli.index_loan_products encode_all collection_add data
    /\ match encode_all data with
       | Raise e =>
           Rag._index_documents encode_all collection_add data = Raise e
       | Ok embeddings =>
           exists c,
             Rag._index_documents encode_all collection_add data
             = collection_add c
             /\ Rag.add_documents c = data
             /\ Rag.add_embeddings c = embeddings
             /\ well_formed_add c
       end.
Proof.
  intros encode_all collection_add data. split; [reflexivity |].
  unfold Rag._index_documents.
  destruct (encode_all data) as [embeddings | e]; [| reflexivity].
  eexists. split; [reflexivity |]. split; [reflexivity |].
  split; [reflexivity |]. apply index_ids_well_formed.
Qed.

(** ** Sessions are never expired by the server *)

Lemma serve_keeps_session settings llm_invoke (sv : Api.Server)
    (r : Api.Request) (sid : string) :
  r <> Api.DeleteSession sid ->
  sid ∈ dom (_sessions (Api.session_manager sv)) ->
  sid ∈ dom (_sessions (Api.session_manager (Api.serve settings llm_invoke sv r))).
Proof.
  intros Hr Hin.
  destruct r as [uuid now | sid' now | sid' | request uuid d now elapsed
                | sid' now | sid' message d now]; simpl.
  - rewrite dom_insert_L. apply elem_of_union_r, Hin.
  - unfold Api.get_session.
    pose proof (get_session_keeps_sessions (Api.session_manager sv) sid' now) as Hk.
    destruct (SessionStore.get_session (Api.session_manager sv) sid' now)
      as [m [s |]]; simpl in *; rewrite Hk; exact Hin.
  - assert (Hne : sid' <> sid) by congruence.
    unfold Api.delete_session, SessionStore.delete_session.
    destruct (_sessions (Api.session_manager sv) !! sid');
      [destruct (_session_timestamps (Api.session_manager sv) !! sid') |];
      simpl; try exact Hin;
      rewrite dom_delete_L; apply elem_of_difference;
      (split; [exact Hin | rewrite elem_of_singleton; congruence]).
  - unfold Api.send_message, Api.answer_chat.
    destruct (negb (PyStr.truthy_str (Api.request_session_id request))).
    + cbn [SessionStore.create_session Api.session_manager].
      match goal with
      | |- context [Agent.process_message ?s ?l ?i ?u ?dd ?n ?m] =>
          pose proof (process_message_keeps_ids s l i u dd n m) as Hk;
          destruct (Agent.process_message s l i u dd n m) as [m' [res | e]]
      end; simpl in *; rewrite Hk, dom_insert_L; apply elem_of_union_r, Hin.
    + pose proof (get_session_keeps_sessions (Api.session_manager sv)
                    (default "" (Api.request_session_id request)) now) as Hg.
      destruct (SessionStore.get_session (Api.session_manager sv)
                  (default "" (Api.request_session_id request)) now)
        as [m [s |]]; simpl in Hg.
      * cbn [Api.session_manager].
        match goal with
        | |- context [Agent.process_message ?s ?l ?i ?u ?dd ?n ?m] =>
            pose proof (process_message_keeps_ids s l i u dd n m) as Hk;
            destruct (Agent.process_message s l i u dd n m) as [m' [res | e]]
        end; simpl in *; rewrite Hk, Hg; exact Hin.
      * simpl. rewrite Hg. exact Hin.
  - unfold Api.websocket_open.
    pose proof (get_session_keeps_sessions (Api.session_manager sv) sid' now) as Hk.
    destruct (SessionStore.get_session (Api.session_manager sv) sid' now)
      as [m [s |]]; simpl in *; [rewrite Hk; exact Hin |].
    rewrite dom_insert_L, Hk. apply elem_of_union_r, Hin.
  - unfold Api.websocket_turn. destruct (Api.blank message); [exact Hin |].
    unfold Agent.stream_response.
    pose proof (process_message_keeps_ids settings llm_invoke sid' message d now
                  (Api.session_manager sv)) as Hk.
    destruct (Agent.process_message settings llm_invoke sid' message d now
                (Api.session_manager sv)) as [m [res | e]];
      simpl in *; rewrite Hk; exact Hin.
Qed.

(** X28.  The server never expires a session: the endpoints do not call
    [cleanup_expired_sessions], and through any sequence of requests
    (session create and get, chat, WebSocket connect and message, deletes
    of other sessions) a session that the store holds stays in the store
    until a [DELETE] request names it, however old it is. *)
Theorem sessions_leave_only_by_delete :
  forall (settings : Settings)
         (llm_invoke : list Agent.ChatTurn -> Agent.LlmOutcome)
         (requests : list Api.Request) (sv : Api.Server) (sid : string),
    sid ∈ dom (_sessions (Api.session_manager sv)) ->
    Forall (fun r => r <> Api.DeleteSession sid) requests ->
    sid ∈ dom (_sessions
                 (Api.session_manager
                    (fold_left (Api.serve settings llm_invoke) requests sv))).
Proof.
  intros settings llm_invoke requests.
  induction requests as [| r requests IH]; intros sv sid Hin Hall.
  - exact Hin.
  - apply Forall_cons_1 in Hall as [Hr Hrest]. simpl.
    apply IH; [| exact Hrest].
    apply serve_keeps_session; assumption.
Qed.

Lemma sessions_leave_only_by_delete_witness :
  let d := Agent.mkDraws 700 400000 (11 # 1)%Q 1234 in
  let year := SessionStore.hours (24 * 365) in
  let sv := (Api.create_session "a" 0
               (Api.mkServer SessionStore.init Api.initial_metrics)).1 in
  let requests :=
    [Api.PostSession "b" year; Api.SocketMessage "b" "hello" d year;
     Api.DeleteSession "b"; Api.GetSession "c" (2 * year)] in
  "a" ∈ dom (_sessions
               (Api.session_manager
                  (fold_left
                     (Api.serve default_settings (fun _ => Agent.TimedOut))
                     requests sv))).
Proof.
  intros d year sv requests.
  apply sessions_leave_only_by_delete.
  - apply elem_of_dom. vm_compute. eauto.
  - repeat (constructor; [discriminate |]). constructor.
Defined.
